(** * Verification of [kubeflow.tf_operator.tf_job_client]

    A shallow embedding of the TFJob test-harness helpers of
    [py/kubeflow/tf_operator/tf_job_client.py]:

    - Python values (the parsed TFJob custom resource is a tree of dicts,
      lists, strings and numbers) and the few builtins the module uses;
    - the pure label and selector builders [get_labels], [to_selector] and
      the convenience check [job_succeeded];
    - the effectful routines ([wait_for_condition], [wait_for_delete],
      [terminate_replicas], [terminate_and_verify_start_time],
      [get_creation_failures_from_tfjob]) in a state-and-exception monad over
      an explicit cluster environment that answers every collaborator call
      and a log that records them. *)

From Stdlib Require Import ZArith List String Ascii Bool Lia DecimalString.
Import ListNotations.
Open Scope string_scope.
Open Scope Z_scope.

Set Implicit Arguments.
Set Warnings "-register-all".

(* ================================================================== *)
(** ** Python values *)

(** A dict keeps its insertion order (which [to_selector] and the loop of
    [get_creation_failures_from_tfjob] observe), so it is an association
    list; a well-formed dict has no repeated key ([dict_wf]).  Keys are
    strings, as in every dict this module builds or receives from JSON.
    Numbers are the integers; strings are ASCII. *)
Inductive value : Type :=
| VNone
| VBool (b : bool)
| VInt (z : Z)
| VStr (s : string)
| VList (l : list value)
| VDict (d : list (string * value)).

Definition dict := list (string * value).

Fixpoint dict_get (d : dict) (k : string) : option value :=
  match d with
  | [] => None
  | (k', v) :: d' => if String.eqb k' k then Some v else dict_get d' k
  end.

(** [d[k] = v]: an existing key keeps its position, a new key goes last. *)
Fixpoint dict_set (d : dict) (k : string) (v : value) : dict :=
  match d with
  | [] => [(k, v)]
  | (k', v') :: d' =>
      if String.eqb k' k then (k', v) :: d' else (k', v') :: dict_set d' k v
  end.

Definition dict_keys (d : dict) : list string := map fst d.

Definition dict_wf (d : dict) : Prop := NoDup (dict_keys d).

(** Truth value of an object, as tested by [if x:] and [x or y]. *)
Definition truthy (v : value) : bool :=
  match v with
  | VNone => false
  | VBool b => b
  | VInt z => negb (z =? 0)
  | VStr s => negb (String.eqb s "")
  | VList l => match l with [] => false | _ => true end
  | VDict d => match d with [] => false | _ => true end
  end.

(** [x or y]. *)
Definition py_or (x y : value) : value := if truthy x then x else y.

(* ------------------------------------------------------------------ *)
(** *** Strings *)

Definition lower_ascii (c : ascii) : ascii :=
  let n := nat_of_ascii c in
  if (andb (Nat.leb 65 n) (Nat.leb n 90)) then ascii_of_nat (n + 32) else c.

(** [str.lower]. *)
Fixpoint lower (s : string) : string :=
  match s with
  | EmptyString => EmptyString
  | String c s' => String (lower_ascii c) (lower s')
  end.

(** [sep.join(parts)]. *)
Fixpoint join (sep : string) (parts : list string) : string :=
  match parts with
  | [] => ""
  | [p] => p
  | p :: ps => p ++ sep ++ join sep ps
  end.

Definition str_of_Z (z : Z) : string := NilZero.string_of_int (Z.to_int z).

(** [repr] of a string whose characters need no escaping. *)
Definition repr_str (s : string) : string := "'" ++ s ++ "'".

(** [repr(v)]. *)
Fixpoint py_repr (v : value) : string :=
  match v with
  | VNone => "None"
  | VBool true => "True"
  | VBool false => "False"
  | VInt z => str_of_Z z
  | VStr s => repr_str s
  | VList l => "[" ++ join ", " (map py_repr l) ++ "]"
  | VDict d =>
      "{" ++ join ", " (map (fun kv => repr_str (fst kv) ++ ": " ++ py_repr (snd kv)) d)
          ++ "}"
  end.

(** [str(v)], which is what ["{0}".format(v)] renders. *)
Definition py_str (v : value) : string :=
  match v with
  | VStr s => s
  | _ => py_repr v
  end.

(* ================================================================== *)
(** ** Exceptions and outcomes *)

Inductive exn : Type :=
| AttributeError
| TypeError
| IndexError
| KeyError
| MPTimeoutError                                  (* multiprocessing.TimeoutError *)
| ApiException (status : Z)                       (* rest.ApiException *)
| JobTimeoutError (message : string) (job : value) (* util.JobTimeoutError *)
| TimeoutError (message : string)                 (* util.TimeoutError *)
| OtherError (what : string).

(** The outcome of running a piece of code: a value, a raised exception, or
    [Diverge] when the fuel given to a [while True] loop ran out. *)
Inductive outcome (A : Type) : Type :=
| Return (a : A)
| Raise (e : exn)
| Diverge.

Arguments Return {A} a.
Arguments Raise {A} e.
Arguments Diverge {A}.

Definition obind {A B} (x : outcome A) (f : A -> outcome B) : outcome B :=
  match x with
  | Return a => f a
  | Raise e => Raise e
  | Diverge => Diverge
  end.

Declare Scope outcome_scope.
Delimit Scope outcome_scope with outcome.
Notation "'let?' x ':=' c 'in' k" := (obind c (fun x => k))
  (at level 10, x name, c at level 100, k at level 200) : outcome_scope.
Open Scope outcome_scope.

(* ------------------------------------------------------------------ *)
(** *** Builtins that can raise *)

(** [obj.get(key, default)]: only a dict has the method. *)
Definition py_get (obj : value) (key : string) (default : value) : outcome value :=
  match obj with
  | VDict d =>
      match dict_get d key with
      | Some v => Return v
      | None => Return default
      end
  | _ => Raise AttributeError
  end.

(** [s.lower()]: only a string has the method. *)
Definition py_lower (v : value) : outcome string :=
  match v with
  | VStr s => Return (lower s)
  | _ => Raise AttributeError
  end.

Fixpoint last_char (s : string) : option ascii :=
  match s with
  | EmptyString => None
  | String c EmptyString => Some c
  | String _ s' => last_char s'
  end.

(** [obj[-1]]. *)
Definition py_last (obj : value) : outcome value :=
  match obj with
  | VList l =>
      match rev l with
      | [] => Raise IndexError
      | x :: _ => Return x
      end
  | VStr s =>
      match last_char s with
      | None => Raise IndexError
      | Some c => Return (VStr (String c EmptyString))
      end
  | VDict _ => Raise KeyError
  | _ => Raise TypeError
  end.

(** The elements a [for x in obj] loop visits. *)
Definition py_iter (obj : value) : outcome (list value) :=
  match obj with
  | VList l => Return l
  | VDict d => Return (map VStr (dict_keys d))
  | VStr s => Return (map (fun c => VStr (String c EmptyString)) (list_ascii_of_string s))
  | _ => Raise TypeError
  end.

(** [v in l] for a list [l] of strings. *)
Definition py_in (v : value) (l : list string) : bool :=
  match v with
  | VStr s => existsb (String.eqb s) l
  | _ => false
  end.

(** [n + v] for an integer [n]; [bool] is a subclass of [int]. *)
Definition py_add_int (n : Z) (v : value) : outcome Z :=
  match v with
  | VInt z => Return (n + z)
  | VBool b => Return (n + (if b then 1 else 0))
  | _ => Raise TypeError
  end.

(* ================================================================== *)
(** ** Labels and selectors *)

Definition TF_JOB_GROUP : string := "kubeflow.org".
Definition TF_JOB_PLURAL : string := "tfjobs".
Definition TF_JOB_NAME_LABEL : string := "job-name".
(** How long to wait in seconds for requests to the ApiServer. *)
Definition TIMEOUT : Z := 120.

(** [get_labels(name, replica_type=None, replica_index=None)].  The
    arguments are arbitrary objects; [None] is the default of the two
    optional ones.  [str.lower(x)] raises [TypeError] unless [x] is a
    string. *)
Definition get_labels (name replica_type replica_index : value) : outcome dict :=
  let labels := [("group-name", VStr "kubeflow.org"); (TF_JOB_NAME_LABEL, name)] in
  let? labels :=
    if truthy replica_type then
      match replica_type with
      | VStr s => Return (dict_set labels "replica-type" (VStr (lower s)))
      | _ => Raise TypeError
      end
    else Return labels in
  let labels :=
    if truthy replica_index then dict_set labels "replica-index" replica_index
    else labels in
  Return labels.

(** [to_selector(labels)]: the loop appends one part per item. *)
Definition to_selector (labels : dict) : string :=
  let parts :=
    fold_left (fun parts kv => app parts [fst kv ++ "=" ++ py_str (snd kv)])
              labels []
  in
  join "," parts.

(** [job_succeeded(tfjob)]. *)
Definition job_succeeded (tfjob : value) : outcome bool :=
  let? status := py_get tfjob "status" (VDict []) in
  let? conditions := py_get status "conditions" (VList [VDict []]) in
  let? last_condition := py_last conditions in
  let? ty := py_get last_condition "type" (VStr "") in
  let? l := py_lower ty in
  Return (String.eqb l "succeeded").

(* ================================================================== *)
(** ** The cluster, the clock and the log *)

(** What a collaborator answers: a result or an exception. *)
Inductive reply (A : Type) : Type :=
| Ok (a : A)
| Err (e : exn).

Arguments Ok {A} a.
Arguments Err {A} e.

Definition of_reply {A} (r : reply A) : outcome A :=
  match r with
  | Ok a => Return a
  | Err e => Raise e
  end.

(** One entry of the log per call that leaves the module, with the arguments
    the call was given and what it answered.  Times are in milliseconds. *)
Inductive event : Type :=
| EvGetTFJob (async : bool) (version namespace name : string) (r : reply value)
| EvCallback (job : value) (r : reply unit)
| EvSleep (ms : Z)
| EvWaitForPods (namespace selector : string) (phases : list string)
                (timeout : Z) (r : reply unit)
| EvGetContainerStartTime (namespace selector : string) (index : value)
                          (phase : string) (r : reply Z)
| EvSendRequest (host namespace target endpoint : string) (params : dict)
                (r : reply unit)
| EvGetEvents (namespace : string) (uid : value) (r : reply (list value)).

(** [now] is the wall clock ([datetime.datetime.now()]), [log] the calls
    made so far, newest first. *)
Record State : Type := mkState { now : Z; log : list event }.

(** The collaborators: the K8s API client, [k8s_util] and [util].  Each
    answer may depend on everything that happened before (the state) and on
    the arguments, and comes with the time the call took. *)
Record Env : Type := mkEnv {
  (* api_client.configuration.host *)
  host : string;
  (* CustomObjectsApi.get_namespaced_custom_object(TF_JOB_GROUP, version,
     namespace, TF_JOB_PLURAL, name); with async_req=True the answer is the
     one of thread.get(TIMEOUT) *)
  get_namespaced_custom_object :
    State -> bool -> string -> string -> string -> reply value * Z;
  (* k8s_util.wait_for_pods_to_be_in_phases *)
  wait_for_pods_to_be_in_phases :
    State -> string -> string -> list string -> Z -> reply unit * Z;
  (* k8s_util.get_container_start_time *)
  get_container_start_time :
    State -> string -> string -> value -> string -> reply Z * Z;
  (* util.send_request *)
  send_request :
    State -> string -> string -> string -> string -> dict -> reply unit * Z;
  (* k8s_util.get_events *)
  get_events : State -> string -> value -> reply (list value) * Z;
  (* k8s_util.parse_events: the created pods and the created services *)
  parse_events : list value -> list string * list string
}.

(** Computations: state passing with exceptions. *)
Definition M (A : Type) : Type := State -> outcome A * State.

Definition ret {A} (a : A) : M A := fun st => (Return a, st).

Definition raise {A} (e : exn) : M A := fun st => (Raise e, st).

Definition bind {A B} (c : M A) (k : A -> M B) : M B :=
  fun st =>
    match c st with
    | (Return a, st') => k a st'
    | (Raise e, st') => (Raise e, st')
    | (Diverge, st') => (Diverge, st')
    end.

(** Run pure code that can raise. *)
Definition lift {A} (o : outcome A) : M A := fun st => (o, st).

Declare Scope monad_scope.
Delimit Scope monad_scope with monad.
Notation "x <- c ;; k" := (bind c (fun x => k))
  (at level 61, c at next level, right associativity) : monad_scope.
Notation "c ;; k" := (bind c (fun _ => k))
  (at level 61, right associativity) : monad_scope.
Open Scope monad_scope.

(** A collaborator call: ask the environment, let the time pass, log it. *)
Definition perform {A} (ask : State -> reply A * Z) (ev : reply A -> event) : M A :=
  fun st =>
    let '(r, dt) := ask st in
    (of_reply r, mkState (now st + dt) (ev r :: log st)).

(** [datetime.datetime.now()]. *)
Definition get_now : M Z := fun st => (Return (now st), st).

(** [time.sleep(ms / 1000.0)]. *)
Definition sleep (ms : Z) : M unit :=
  fun st => (Return tt, mkState (now st + ms) (EvSleep ms :: log st)).

(* ------------------------------------------------------------------ *)
(** *** [datetime.timedelta], in milliseconds *)

Definition minutes (n : Z) : Z := n * 60000.
Definition seconds (n : Z) : Z := n * 1000.

(** [delta.seconds]: the seconds field of the normalised (days, seconds,
    microseconds) triple, not the total number of seconds. *)
Definition timedelta_seconds (delta : Z) : Z := (delta / 1000) mod 86400.

(* ================================================================== *)
(** ** Waiting for a condition *)

(** The optional [status_callback]: any callable; like the collaborators it
    answers (returns or raises) depending on what happened before, and takes
    some time. *)
Definition callback : Type := option (State -> value -> reply unit * Z).

Definition invoke (cb : State -> value -> reply unit * Z) (job : value) : M unit :=
  perform (fun st => cb st job) (EvCallback job).

(** [for c in conditions: if c.get("type", "") in expected_condition: return]:
    [true] when the loop returned. *)
Fixpoint scan_conditions (conditions : list value) (expected_condition : list string)
  : outcome bool :=
  match conditions with
  | [] => Return false
  | c :: rest =>
      let? ty := py_get c "type" (VStr "") in
      if py_in ty expected_condition then Return true
      else scan_conditions rest expected_condition
  end.

(** [results = None; try: results = thread.get(TIMEOUT)], where only
    [multiprocessing.TimeoutError] is swallowed. *)
Definition try_get_tfjob (client : Env) (version namespace name : string) : M value :=
  fun st =>
    match perform (fun st => get_namespaced_custom_object client st true version namespace name)
                  (EvGetTFJob true version namespace name) st with
    | (Raise MPTimeoutError, st') => (Return VNone, st')
    | r => r
    end.

(** The part of the loop body guarded by [if results:]; [true] when it
    executed [return results]. *)
Definition inspect_results (results : value) (expected_condition : list string)
           (status_callback : callback) : M bool :=
  if truthy results then
    match status_callback with
    | Some cb => invoke cb results
    | None => ret tt
    end ;;
    status <- lift (py_get results "status" (VDict [])) ;;
    conditions <- lift (py_get status "conditions" (VList [])) ;;
    let conditions := py_or conditions (VList []) in
    cs <- lift (py_iter conditions) ;;
    lift (scan_conditions cs expected_condition)
  else ret false.

Definition condition_timeout_message (name namespace : string)
           (expected_condition : list string) : string :=
  "Timeout waiting for job " ++ name ++ " in namespace " ++ namespace
  ++ " to enter one of the conditions "
  ++ py_str (VList (map VStr expected_condition)) ++ ".".

(** The [while True] loop of [wait_for_condition]. *)
Fixpoint wait_for_condition_loop (fuel : nat) (client : Env)
         (namespace name : string) (expected_condition : list string)
         (version : string) (polling_interval : Z) (status_callback : callback)
         (end_time : Z) : M value :=
  match fuel with
  | O => lift Diverge
  | S fuel' =>
      results <- try_get_tfjob client version namespace name ;;
      returned <- inspect_results results expected_condition status_callback ;;
      if returned then ret results
      else
        t <- get_now ;;
        if t + polling_interval >? end_time then
          raise (JobTimeoutError
                   (condition_timeout_message name namespace expected_condition)
                   results)
        else
          sleep (seconds (timedelta_seconds polling_interval)) ;;
          wait_for_condition_loop fuel' client namespace name expected_condition
                                  version polling_interval status_callback end_time
  end.

(** [wait_for_condition(client, namespace, name, expected_condition,
    version, timeout, polling_interval, status_callback)]. *)
Definition wait_for_condition (fuel : nat) (client : Env)
           (namespace name : string) (expected_condition : list string)
           (version : string) (timeout polling_interval : Z)
           (status_callback : callback) : M value :=
  t <- get_now ;;
  let end_time := t + timeout in
  wait_for_condition_loop fuel client namespace name expected_condition
                          version polling_interval status_callback end_time.

(** [wait_for_job]. *)
Definition wait_for_job (fuel : nat) (client : Env) (namespace name version : string)
           (timeout polling_interval : Z) (status_callback : callback) : M value :=
  wait_for_condition fuel client namespace name ["Succeeded"; "Failed"]
                     version timeout polling_interval status_callback.

(* ================================================================== *)
(** ** Waiting for a deletion *)

Definition NOT_FOUND : Z := 404.

(** The [try] block of [wait_for_delete]: [None] when the handler executed
    [return]. *)
Definition get_tfjob_unless_deleted (client : Env) (version namespace name : string)
  : M (option value) :=
  fun st =>
    match perform (fun st => get_namespaced_custom_object client st false version namespace name)
                  (EvGetTFJob false version namespace name) st with
    | (Return results, st') => (Return (Some results), st')
    | (Raise (ApiException status), st') =>
        if status =? NOT_FOUND then (Return None, st')
        else (Raise (ApiException status), st')
    | (Raise e, st') => (Raise e, st')
    | (Diverge, st') => (Diverge, st')
    end.

Definition delete_timeout_message (name namespace : string) : string :=
  "Timeout waiting for job " ++ name ++ " in namespace " ++ namespace
  ++ " to be deleted.".

Fixpoint wait_for_delete_loop (fuel : nat) (client : Env)
         (namespace name version : string) (polling_interval : Z)
         (status_callback : callback) (end_time : Z) : M unit :=
  match fuel with
  | O => lift Diverge
  | S fuel' =>
      fetched <- get_tfjob_unless_deleted client version namespace name ;;
      match fetched with
      | None => ret tt
      | Some results =>
          match status_callback with
          | Some cb => invoke cb results
          | None => ret tt
          end ;;
          t <- get_now ;;
          if t + polling_interval >? end_time then
            raise (TimeoutError (delete_timeout_message name namespace))
          else
            sleep (seconds (timedelta_seconds polling_interval)) ;;
            wait_for_delete_loop fuel' client namespace name version
                                 polling_interval status_callback end_time
      end
  end.

(** [wait_for_delete(client, namespace, name, version, timeout,
    polling_interval, status_callback)]. *)
Definition wait_for_delete (fuel : nat) (client : Env)
           (namespace name version : string) (timeout polling_interval : Z)
           (status_callback : callback) : M unit :=
  t <- get_now ;;
  let end_time := t + timeout in
  wait_for_delete_loop fuel client namespace name version polling_interval
                       status_callback end_time.

(* ================================================================== *)
(** ** Terminating replicas and verifying restarts *)

(** [wait_for_replica_type_in_phases]. *)
Definition wait_for_replica_type_in_phases (api_client : Env)
           (namespace tfjob_name : string) (replica_type : value)
           (phases : list string) : M unit :=
  pod_labels <- lift (get_labels (VStr tfjob_name) replica_type VNone) ;;
  let pod_selector := to_selector pod_labels in
  perform (fun st => wait_for_pods_to_be_in_phases api_client st namespace
                                                   pod_selector phases (minutes 30))
          (EvWaitForPods namespace pod_selector phases (minutes 30)).

(** [@retrying.retry(wait_fixed=w, stop_max_delay=d)]: call again after any
    exception, [w] ms later, until [d] ms have passed since the first
    attempt started; then the last exception is raised. *)
Fixpoint retry_loop {A} (fuel : nat) (wait_fixed stop_max_delay start_time : Z)
         (f : M A) : M A :=
  match fuel with
  | O => lift Diverge
  | S fuel' =>
      fun st =>
        match f st with
        | (Raise e, st') =>
            let delay_since_first_attempt_ms := now st' - start_time in
            if delay_since_first_attempt_ms >=? stop_max_delay then (Raise e, st')
            else (sleep wait_fixed ;;
                  retry_loop fuel' wait_fixed stop_max_delay start_time f) st'
        | r => r
        end
  end.

Definition retry {A} (fuel : nat) (wait_fixed stop_max_delay : Z) (f : M A) : M A :=
  start_time <- get_now ;;
  retry_loop fuel wait_fixed stop_max_delay start_time f.

(** [terminate_replica(master_host, namespace, target, exit_code)]. *)
Definition terminate_replica (fuel : nat) (util : Env)
           (master_host namespace target : string) (exit_code : Z) : M unit :=
  retry fuel 10 60
    (let params := [("exitCode", VInt exit_code)] in
     perform (fun st => send_request util st master_host namespace target "exit" params)
             (EvSendRequest master_host namespace target "exit" params)).

(** [for x in xs: body(x)]. *)
Fixpoint for_each {A} (xs : list A) (body : A -> M unit) : M unit :=
  match xs with
  | [] => ret tt
  | x :: xs' => body x ;; for_each xs' body
  end.

(** [range(n)]. *)
Definition range (n : Z) : list Z := map Z.of_nat (seq 0 (Z.to_nat n)).

(** [terminate_replicas(api_client, namespace, name, replica, num_targets,
    exit_code)]. *)
Definition terminate_replicas (fuel : nat) (api_client : Env)
           (namespace name : string) (replica : value) (num_targets exit_code : Z)
  : M unit :=
  let target := name ++ "-" ++ py_str replica in
  pod_labels <- lift (get_labels (VStr name) replica VNone) ;;
  let pod_selector := to_selector pod_labels in
  let masterHost := host api_client in
  perform (fun st => wait_for_pods_to_be_in_phases api_client st namespace
                                                   pod_selector ["Running"] (minutes 15))
          (EvWaitForPods namespace pod_selector ["Running"] (minutes 15)) ;;
  for_each (range num_targets)
    (fun num =>
       let full_target := target ++ "-" ++ py_str (VInt num) in
       terminate_replica fuel api_client masterHost namespace full_target exit_code).

(** [get_start_time_by_index]. *)
Definition get_start_time_by_index (api_client : Env) (namespace name : string)
           (replica_type replica_index : value) (phase : string) : M Z :=
  pod_labels <- lift (get_labels (VStr name) replica_type VNone) ;;
  let pod_selector := to_selector pod_labels in
  perform (fun st => get_container_start_time api_client st namespace pod_selector
                                              replica_index phase)
          (EvGetContainerStartTime namespace pod_selector replica_index phase).

(** [expect_restart is False]. *)
Definition is_False (v : value) : bool :=
  match v with
  | VBool false => true
  | _ => false
  end.

(** [terminate_and_verify_start_time(api_client, namespace, name,
    replica_type, replica_index, exit_code, expect_restart)]. *)
Definition terminate_and_verify_start_time (fuel : nat) (api_client : Env)
           (namespace name : string) (replica_type replica_index : value)
           (exit_code : Z) (expect_restart : value) : M bool :=
  wait_for_replica_type_in_phases api_client namespace name (VStr "ps") ["Running"] ;;
  first_start_time <-
    get_start_time_by_index api_client namespace name replica_type replica_index
                            "Running" ;;
  terminate_replicas fuel api_client namespace name (VStr "ps") 1 exit_code ;;
  if truthy expect_restart then
    wait_for_replica_type_in_phases api_client namespace name (VStr "ps") ["Running"] ;;
    restart_time <-
      get_start_time_by_index api_client namespace name replica_type replica_index
                              "Running" ;;
    if restart_time <=? first_start_time then ret false else ret true
  else if andb (is_False expect_restart) (exit_code =? 0) then
    wait_for_replica_type_in_phases api_client namespace name (VStr "ps") ["Succeeded"] ;;
    restart_time <-
      get_start_time_by_index api_client namespace name replica_type replica_index
                              "Succeeded" ;;
    if negb (restart_time =? first_start_time) then ret false else ret true
  else
    wait_for_replica_type_in_phases api_client namespace name (VStr "ps") ["Failed"] ;;
    restart_time <-
      get_start_time_by_index api_client namespace name replica_type replica_index
                              "Failed" ;;
    if negb (restart_time =? first_start_time) then ret false else ret true.

(* ================================================================== *)
(** ** Creation failures *)

(** [obj.get(key, default)] with a key that is itself an object; the dicts
    here have string keys only. *)
Definition py_get_at (obj key default : value) : outcome value :=
  match obj with
  | VDict d =>
      match key with
      | VStr k => py_get obj k default
      | VList _ | VDict _ => Raise TypeError      (* unhashable *)
      | _ => Return default
      end
  | _ => Raise AttributeError
  end.

(** The body of the loop over the replica keys. *)
Definition add_replicas (tfjob : value) (num_expected : Z) (replicakey : value)
  : outcome Z :=
  let? spec := py_get tfjob "spec" (VDict []) in
  let? specs := py_get spec "tfReplicaSpecs" (VDict []) in
  let? replica_spec := py_get_at specs replicakey (VDict []) in
  if truthy replica_spec then
    let? replicas := py_get replica_spec "replicas" (VInt 1) in
    py_add_int num_expected replicas
  else Return num_expected.

Fixpoint add_all_replicas (tfjob : value) (num_expected : Z) (keys : list value)
  : outcome Z :=
  match keys with
  | [] => Return num_expected
  | k :: keys' =>
      let? n := add_replicas tfjob num_expected k in
      add_all_replicas tfjob n keys'
  end.

(** [num_expected] after the loop. *)
Definition num_expected_replicas (tfjob : value) : outcome Z :=
  let? spec := py_get tfjob "spec" (VDict []) in
  let? specs := py_get spec "tfReplicaSpecs" (VDict []) in
  let? keys := py_iter specs in
  add_all_replicas tfjob 0 keys.

Definition creation_message (kind : string) (num_expected observed : Z) : string :=
  "Expected " ++ py_str (VInt num_expected) ++ " " ++ kind
  ++ " to be created but only got " ++ py_str (VInt observed) ++ " create events.".

(** [len(x)]. *)
Definition len {A} (l : list A) : Z := Z.of_nat (List.length l).

(** The messages appended after the loop. *)
Definition creation_failures_for (num_expected : Z)
           (created_pods created_services : list string) : list string :=
  let creation_failures := [] in
  let creation_failures :=
    if negb (len created_pods =? num_expected) then
      app creation_failures [creation_message "pods" num_expected (len created_pods)]
    else creation_failures in
  let creation_failures :=
    if negb (len created_services =? num_expected) then
      app creation_failures
          [creation_message "services" num_expected (len created_services)]
    else creation_failures in
  creation_failures.

(** [get_creation_failures_from_tfjob(api_client, namespace, tfjob)]. *)
Definition get_creation_failures_from_tfjob (api_client : Env) (namespace : string)
           (tfjob : value) : M (list string) :=
  metadata <- lift (py_get tfjob "metadata" (VDict [])) ;;
  uid <- lift (py_get metadata "uid" VNone) ;;
  events <- perform (fun st => get_events api_client st namespace uid)
                    (EvGetEvents namespace uid) ;;
  let '(created_pods, created_services) := parse_events api_client events in
  num_expected <- lift (num_expected_replicas tfjob) ;;
  ret (creation_failures_for num_expected created_pods created_services).

(* ================================================================== *)
(** ** Vocabulary of the statements *)

(** An optional string argument: [None] is Python's [None]. *)
Definition opt_str (o : option string) : value :=
  match o with
  | Some s => VStr s
  | None => VNone
  end.

(** An optional integer argument. *)
Definition opt_int (o : option Z) : value :=
  match o with
  | Some z => VInt z
  | None => VNone
  end.

(** The selector as the documentation describes it: the [key=value] pairs
    of the label set, joined by commas, in the order of the mapping. *)
Definition render_label (kv : string * value) : string :=
  fst kv ++ "=" ++ py_str (snd kv).

Definition selector_of_pairs (labels : dict) : string :=
  join "," (map render_label labels).

Definition is_dict (v : value) : bool :=
  match v with
  | VDict _ => true
  | _ => false
  end.

(** What [job_succeeded] computes once the last condition is known. *)
Definition succeeded_condition (last : value) : outcome bool :=
  let? ty := py_get last "type" (VStr "") in
  let? l := py_lower ty in
  Return (String.eqb l "succeeded").

(** *** Expected replica totals *)

(** The declared count of a replica-type entry, 1 when none is declared. *)
Definition declared_replicas (replica_spec : value) : Z :=
  match replica_spec with
  | VDict d =>
      match dict_get d "replicas" with
      | Some (VInt n) => n
      | _ => 1
      end
  | _ => 1
  end.

(** The expected total as the documentation words it: the sum, over every
    replica-type entry present, of its declared count. *)
Definition declared_total (specs : dict) : Z :=
  fold_right (fun kv total => declared_replicas (snd kv) + total) 0 specs.

(** The same sum over the entries that are not empty. *)
Definition nonempty_total (specs : dict) : Z :=
  declared_total (filter (fun kv => truthy (snd kv)) specs).

(** A replica-type entry of the expected shape: empty (or null), or a dict
    whose "replicas" field, when there is one, is an integer. *)
Definition replica_spec_ok (replica_spec : value) : bool :=
  if truthy replica_spec then
    match replica_spec with
    | VDict d =>
        match dict_get d "replicas" with
        | None | Some (VInt _) => true
        | Some _ => false
        end
    | _ => false
    end
  else true.

(** The messages, one per category whose count is not the expected one. *)
Definition discrepancies (num_expected : Z) (created_pods created_services : list string)
  : list string :=
  app (if len created_pods =? num_expected then []
       else [creation_message "pods" num_expected (len created_pods)])
      (if len created_services =? num_expected then []
       else [creation_message "services" num_expected (len created_services)]).

(** A cluster that answers every call at once and reports the creation of
    the given pods and services. *)
Definition quiet_cluster (pods services : list string) : Env :=
  mkEnv "https://master"
        (fun _ _ _ _ _ => (Ok (VDict []), 0))
        (fun _ _ _ _ _ => (Ok tt, 0))
        (fun st _ _ _ _ => (Ok (now st), 0))
        (fun _ _ _ _ _ _ => (Ok tt, 0))
        (fun _ _ _ => (Ok [], 0))
        (fun _ => (pods, services)).

Definition tfjob_with_replicas (specs : dict) : value :=
  VDict [("metadata", VDict [("name", VStr "mnist"); ("uid", VStr "u-1")]);
         ("spec", VDict [("tfReplicaSpecs", VDict specs)])].

(** *** Runs of the polling loops *)

(** The state once a collaborator has answered [r] after [dt] ms. *)
Definition answered {A} (st : State) (ev : reply A -> event) (r : reply A) (dt : Z)
  : State :=
  mkState (now st + dt) (ev r :: log st).

(** The state after the optional callback ran on [job]. *)
Definition after_callback (cb : callback) (job : value) (st : State) : State :=
  match cb with
  | None => st
  | Some f => let '(r, dt) := f st job in answered st (EvCallback job) r dt
  end.

(** The callback, if any, returns normally on [job]. *)
Definition callback_returns (cb : callback) (job : value) (st : State) : bool :=
  match cb with
  | None => true
  | Some f => match fst (f st job) with Ok _ => true | Err _ => false end
  end.

(** A fetched resource in which the controller has set no condition yet:
    no status, or a status whose conditions are absent, null or empty. *)
Definition no_conditions (results : dict) : bool :=
  match dict_get results "status" with
  | None => true
  | Some (VDict status) =>
      match dict_get status "conditions" with
      | None | Some VNone | Some (VList []) => true
      | Some _ => false
      end
  | Some _ => false
  end.

(** What the loop of [wait_for_condition] holds in [results] after a fetch
    that answered [r]. *)
Definition results_of (r : reply value) : value :=
  match r with
  | Ok v => v
  | Err _ => VNone
  end.

(** The answer to the newest fetch in a log. *)
Fixpoint last_fetch (l : list event) : option (reply value) :=
  match l with
  | [] => None
  | EvGetTFJob _ _ _ _ r :: _ => Some r
  | _ :: l' => last_fetch l'
  end.

(** The resource returned by the newest fetch that succeeded. *)
Fixpoint last_successful_fetch (l : list event) : option value :=
  match l with
  | [] => None
  | EvGetTFJob _ _ _ _ (Ok v) :: _ => Some v
  | _ :: l' => last_successful_fetch l'
  end.

(** An answer that is not a [JobTimeoutError], the exception that only
    [wait_for_condition] itself raises. *)
Definition not_job_timeout {A} (r : reply A) : Prop :=
  match r with
  | Err (JobTimeoutError _ _) => False
  | _ => True
  end.

Definition running_job : value :=
  VDict [("metadata", VDict [("name", VStr "mnist")]);
         ("status", VDict [("conditions", VList [VDict [("type", VStr "Running")]])])].

(** A cluster whose first fetch returns [running_job] after one second, and
    whose later fetches all time out. *)
Definition flaky_cluster : Env :=
  mkEnv "https://master"
        (fun st _ _ _ _ =>
           match log st with
           | [] => (Ok running_job, 1000)
           | _ => (Err MPTimeoutError, 120000)
           end)
        (fun _ _ _ _ _ => (Ok tt, 0))
        (fun st _ _ _ _ => (Ok (now st), 0))
        (fun _ _ _ _ _ _ => (Ok tt, 0))
        (fun _ _ _ => (Ok [], 0))
        (fun _ => ([], [])).

(** A cluster in which every fetch returns [job] after one second. *)
Definition steady_cluster (job : value) : Env :=
  mkEnv "https://master"
        (fun _ _ _ _ _ => (Ok job, 1000))
        (fun _ _ _ _ _ => (Ok tt, 0))
        (fun st _ _ _ _ => (Ok (now st), 0))
        (fun _ _ _ _ _ _ => (Ok tt, 0))
        (fun _ _ _ => (Ok [], 0))
        (fun _ => ([], [])).

Definition created_then_running : dict :=
  [("status",
    VDict [("conditions",
            VList [VDict [("type", VStr "Created")];
                   VDict [("type", VStr "Running")];
                   VStr "not a condition"])])].

(** The scan of one fetched resource, as pure code: [true] on a match. *)
Definition find_match (results : value) (expected_condition : list string)
  : outcome bool :=
  let? status := py_get results "status" (VDict []) in
  let? conditions := py_get status "conditions" (VList []) in
  let? cs := py_iter (py_or conditions (VList [])) in
  scan_conditions cs expected_condition.

(** The collaborators of [wait_for_condition] never raise the exception
    that is its own. *)
Definition collaborators_never_time_out_jobs (client : Env) (cb : callback)
           (version namespace name : string) : Prop :=
  (forall st, not_job_timeout
                (fst (get_namespaced_custom_object client st true version namespace name)))
  /\
  (forall f, cb = Some f -> forall st job, not_job_timeout (fst (f st job))).

(** The payload of a [JobTimeoutError] that ends a run from [st] to [st']:
    among the events [evs] the run added to the log, the newest fetch
    answered [r], and the payload is what the loop made of that answer. *)
Definition carries_last_fetch (st st' : State) (payload : value) : Prop :=
  exists evs r,
    log st' = (evs ++ log st)%list /\
    last_fetch evs = Some r /\
    payload = results_of r /\
    (r = Ok payload \/ r = Err MPTimeoutError).

(** The end of an iteration of [wait_for_condition] without a match: the
    deadline check, then the sleep and the next iterations [next]. *)
Definition rest_of_iteration (next : M value) (name namespace : string)
           (expected_condition : list string) (polling_interval end_time : Z)
           (results : value) : M value :=
  t <- get_now ;;
  if t + polling_interval >? end_time then
    raise (JobTimeoutError
             (condition_timeout_message name namespace expected_condition) results)
  else
    sleep (seconds (timedelta_seconds polling_interval)) ;; next.

(** A cluster in which the first fetch still returns the job and every
    later one answers not-found. *)
Definition deleted_after_first_fetch : Env :=
  mkEnv "https://master"
        (fun st _ _ _ _ =>
           match log st with
           | [] => (Ok running_job, 1000)
           | _ => (Err (ApiException 404), 1000)
           end)
        (fun _ _ _ _ _ => (Ok tt, 0))
        (fun st _ _ _ _ => (Ok (now st), 0))
        (fun _ _ _ _ _ _ => (Ok tt, 0))
        (fun _ _ _ => (Ok [], 0))
        (fun _ => ([], [])).

(** *** Runs of the restart verifier *)

(** The selector of the pods of one replica type of a job. *)
Definition selector_for (name replica_type : string) : string :=
  to_selector [("group-name", VStr "kubeflow.org"); ("job-name", VStr name);
               ("replica-type", VStr replica_type)].

(** The name of the service of one replica: [{name}-{replica}-{index}]. *)
Definition target_of (name replica : string) (index : Z) : string :=
  (name ++ "-" ++ replica) ++ "-" ++ str_of_Z index.

(** The replica type an event is addressed to is "ps": its pod selector,
    for a wait, and its target, for a termination request. *)
Definition addressed_to_ps (name : string) (ev : event) : bool :=
  match ev with
  | EvWaitForPods _ selector _ _ _ => String.eqb selector (selector_for name "ps")
  | EvSendRequest _ _ target _ _ _ => String.eqb target (target_of name "ps" 0)
  | _ => true
  end.

(** The same, for the events of a termination only: no event of another
    kind than a wait, a request and a pause. *)
Definition termination_of_ps (name : string) (ev : event) : bool :=
  match ev with
  | EvWaitForPods _ _ _ _ _ | EvSendRequest _ _ _ _ _ _ => addressed_to_ps name ev
  | EvSleep _ => true
  | _ => false
  end.

(** The start times a log recorded, newest first. *)
Fixpoint start_times (l : list event) : list Z :=
  match l with
  | [] => []
  | EvGetContainerStartTime _ _ _ _ (Ok t) :: l' => t :: start_times l'
  | _ :: l' => start_times l'
  end.

(** Every event a computation adds to the log satisfies [P]. *)
Definition emits {A} (P : event -> bool) (c : M A) : Prop :=
  forall st o st',
    c st = (o, st') ->
    exists evs, log st' = (evs ++ log st)%list /\ forallb P evs = true.

(** A cluster whose pods restart: a pod's start time is the time of the
    last termination request, and every call takes one second. *)
Definition restarting_cluster : Env :=
  mkEnv "https://master"
        (fun _ _ _ _ _ => (Ok running_job, 1000))
        (fun _ _ _ _ _ => (Ok tt, 1000))
        (fun st _ _ _ _ =>
           (Ok (match log st with
                | _ :: EvSendRequest _ _ _ _ _ _ :: _ => now st
                | _ => 0
                end), 1000))
        (fun _ _ _ _ _ _ => (Ok tt, 1000))
        (fun _ _ _ => (Ok [], 0))
        (fun _ => ([], [])).

(** A computation that never runs out of fuel. *)
Definition converges {A} (c : M A) : Prop :=
  forall st, fst (c st) <> Diverge.

(** Termination requests take some time, possibly none. *)
Definition requests_take_time (util : Env) : Prop :=
  forall st master_host namespace target endpoint params,
    0 <= snd (send_request util st master_host namespace target endpoint params).

(* ================================================================== *)
(** ** Further vocabulary *)

(** A resource that shows one of the expected conditions: its status is a
    dict whose conditions are a list holding a dict whose type is expected.
    A condition without a type counts as having the type [""]. *)
Definition has_condition_in (results : value) (expected_condition : list string)
  : Prop :=
  exists fields status cs c ty,
    results = VDict fields /\
    dict_get fields "status" = Some (VDict status) /\
    dict_get status "conditions" = Some (VList cs) /\
    In (VDict c) cs /\
    In ty expected_condition /\
    (dict_get c "type" = Some (VStr ty) \/ (dict_get c "type" = None /\ ty = "")).

(** The events a run from [st] to [st'] added to the log, newest first. *)
Definition added (st st' : State) (evs : list event) : Prop :=
  log st' = (evs ++ log st)%list.

(** The pause between two polls: [polling_interval.seconds], in ms. *)
Definition pause_of (polling_interval : Z) : Z :=
  seconds (timedelta_seconds polling_interval).

Definition is_pause_of (polling_interval : Z) (ev : event) : bool :=
  match ev with
  | EvSleep ms => ms =? pause_of polling_interval
  | _ => true
  end.

(** Fetches and callbacks take some time, possibly none. *)
Definition polls_take_time (client : Env) (cb : callback) (async : bool)
           (version namespace name : string) : Prop :=
  (forall st, 0 <= snd (get_namespaced_custom_object client st async version
                                                      namespace name)) /\
  (forall f, cb = Some f -> forall st job, 0 <= snd (f st job)).


(** A cluster in which every fetch takes a second and returns a job that is
    still running. *)
Definition running_cluster : Env := steady_cluster running_job.

Definition succeeded_job : value :=
  VDict [("metadata", VDict [("name", VStr "mnist")]);
         ("status",
          VDict [("conditions",
                  VList [VDict [("type", VStr "Created")];
                         VDict [("type", VStr "Running")];
                         VDict [("type", VStr "Succeeded")]])])].

(** An event that is not a fetch that raised. *)
Definition not_failed_fetch (ev : event) : bool :=
  match ev with
  | EvGetTFJob _ _ _ _ (Err _) => false
  | _ => true
  end.

(** The end of an iteration of [wait_for_delete] in which the job was still
    there: the deadline check, then the sleep and the next iterations. *)
Definition rest_of_delete_iteration (next : M unit) (name namespace : string)
           (polling_interval end_time : Z) : M unit :=
  t <- get_now ;;
  if t + polling_interval >? end_time then
    raise (TimeoutError (delete_timeout_message name namespace))
  else
    sleep (seconds (timedelta_seconds polling_interval)) ;; next.

(** *** Termination requests *)

(** The number of termination requests in a log. *)
Fixpoint count_requests (l : list event) : nat :=
  match l with
  | [] => O
  | EvSendRequest _ _ _ _ _ _ :: l' => S (count_requests l')
  | _ :: l' => count_requests l'
  end.

(** The targets of the termination requests of a log, newest first. *)
Fixpoint requested_targets (l : list event) : list string :=
  match l with
  | [] => []
  | EvSendRequest _ _ target _ _ _ :: l' => target :: requested_targets l'
  | _ :: l' => requested_targets l'
  end.

(** An event of [terminate_replica]: a pause of 10 ms, or an exit request to
    the given target with the given exit code. *)
Definition is_exit_request (master_host namespace target : string) (exit_code : Z)
           (ev : event) : bool :=
  match ev with
  | EvSleep ms => ms =? 10
  | EvSendRequest h ns t endpoint params _ =>
      String.eqb h master_host && String.eqb ns namespace && String.eqb t target
      && String.eqb endpoint "exit"
      && match params with
         | [(k, VInt z)] => String.eqb k "exitCode" && (z =? exit_code)
         | _ => false
         end
  | _ => false
  end.

(** A request that was not answered normally, or another event. *)
Definition not_served (ev : event) : bool :=
  match ev with
  | EvSendRequest _ _ _ _ _ (Ok _) => false
  | _ => true
  end.

(** An event of [terminate_replicas]: the wait for the pods or an event of
    the termination of one of the replicas [0 .. num_targets - 1]. *)
Definition is_termination_event (master_host namespace name replica : string)
           (num_targets exit_code : Z) (ev : event) : bool :=
  match ev with
  | EvWaitForPods ns selector phases timeout _ =>
      String.eqb ns namespace && String.eqb selector (selector_for name (lower replica))
      && (timeout =? minutes 15)
      && match phases with
         | [phase] => String.eqb phase "Running"
         | _ => false
         end
  | _ =>
      existsb (fun num => is_exit_request master_host namespace
                                          (target_of name replica num) exit_code ev)
              (range num_targets)
      || match ev with EvSleep ms => ms =? 10 | _ => false end
  end.

(** Every termination request is answered normally. *)
Definition requests_served (util : Env) : Prop :=
  forall st master_host namespace target endpoint params,
    fst (send_request util st master_host namespace target endpoint params) = Ok tt.

(** A cluster in which every termination request is refused after 20 ms. *)
Definition refusing_cluster : Env :=
  mkEnv "https://master"
        (fun _ _ _ _ _ => (Ok running_job, 1000))
        (fun _ _ _ _ _ => (Ok tt, 1000))
        (fun st _ _ _ _ => (Ok (now st), 1000))
        (fun _ _ _ _ _ _ => (Err (OtherError "connection refused"), 20))
        (fun _ _ _ => (Ok [], 0))
        (fun _ => ([], [])).

(** A cluster in which the pods never get to run. *)
Definition pending_cluster : Env :=
  mkEnv "https://master"
        (fun _ _ _ _ _ => (Ok running_job, 1000))
        (fun _ _ _ _ _ => (Err (TimeoutError "pods are not running"), 900000))
        (fun st _ _ _ _ => (Ok (now st), 1000))
        (fun _ _ _ _ _ _ => (Ok tt, 20))
        (fun _ _ _ => (Ok [], 0))
        (fun _ => ([], [])).

(** *** Verdicts of the restart verifier *)

(** The phase the verifier waits for after the termination. *)
Definition final_phase (expect_restart : value) (exit_code : Z) : string :=
  if truthy expect_restart then "Running"
  else if andb (is_False expect_restart) (exit_code =? 0) then "Succeeded"
  else "Failed".

(** The comparison that makes the verifier return [False]. *)
Definition failed_restart (expect_restart : value) (first_start_time restart_time : Z)
  : bool :=
  if truthy expect_restart then restart_time <=? first_start_time
  else negb (restart_time =? first_start_time).

(** The last part of the verifier: wait for the "ps" pods to be in [phase],
    read the start time again, compare. *)
Definition verify_phase (api_client : Env) (namespace name : string)
           (replica_type replica_index : value) (phase : string) (failed : Z -> bool)
  : M bool :=
  wait_for_replica_type_in_phases api_client namespace name (VStr "ps") [phase] ;;
  restart_time <-
    get_start_time_by_index api_client namespace name replica_type replica_index phase ;;
  if failed restart_time then ret false else ret true.

(** A cluster whose pods never restart: every start time is 0. *)
Definition still_cluster : Env :=
  mkEnv "https://master"
        (fun _ _ _ _ _ => (Ok running_job, 1000))
        (fun _ _ _ _ _ => (Ok tt, 1000))
        (fun _ _ _ _ _ => (Ok 0, 1000))
        (fun _ _ _ _ _ _ => (Ok tt, 20))
        (fun _ _ _ => (Ok [], 0))
        (fun _ => ([], [])).

(** *** Labels *)

(** The selector of a job name, an optional replica type and an optional
    replica index, written out. *)
Definition selector_text (name : string) (replica_type : option string)
           (replica_index : option Z) : string :=
  "group-name=kubeflow.org,job-name=" ++ name
  ++ match replica_type with
     | Some s => if String.eqb s "" then "" else ",replica-type=" ++ lower s
     | None => ""
     end
  ++ match replica_index with
     | Some i => if i =? 0 then "" else ",replica-index=" ++ str_of_Z i
     | None => ""
     end.

(** An integer or a boolean: what [+=] accepts on an integer. *)
Definition is_number (v : value) : bool :=
  match v with
  | VInt _ | VBool _ => true
  | _ => false
  end.

(* ================================================================== *)
(** ** Pod names *)

(** What [get_pod_names] reads of a listed pod: [pod.metadata], which may be
    [None], and [pod.metadata.name], which may be [None]. *)
Record V1ObjectMeta : Type := mkMeta { meta_name : option string }.
Record V1Pod : Type := mkPod { pod_metadata : option V1ObjectMeta }.

(** [set(l)]: the elements of [l], once each; the order means nothing. *)
Definition py_set (l : list string) : list string := nodup string_dec l.

(** [if pod.metadata and pod.metadata.name]. *)
Definition named (pod : V1Pod) : option string :=
  match pod_metadata pod with
  | Some metadata =>
      match meta_name metadata with
      | Some n => if String.eqb n "" then None else Some n
      | None => None
      end
  | None => None
  end.

(** [get_pod_names(client, namespace, name)]; [list_namespaced_pod] is
    [CoreV1Api(client).list_namespaced_pod], applied to the namespace and
    the label selector, and answers the items of the listing. *)
Definition get_pod_names (list_namespaced_pod : string -> string -> reply (list V1Pod))
           (namespace name : string) : outcome (list string) :=
  let? items :=
    of_reply (list_namespaced_pod namespace
                                  (to_selector [(TF_JOB_NAME_LABEL, VStr name)])) in
  let pod_names :=
    fold_left (fun pod_names pod =>
                 match named pod with
                 | Some n => app pod_names [n]
                 | None => pod_names
                 end)
              items [] in
  Return (py_set pod_names).

(* ================================================================== *)
(** ** Logging the status *)

(** [@retrying.retry(wait_fixed=w, stop_max_attempt_number=n)]: call again
    after any exception, [w] ms later, until the [n]-th attempt has failed;
    then its exception is raised. *)
Fixpoint retry_attempts_loop {A} (fuel : nat)
         (wait_fixed stop_max_attempt_number attempt_number : Z) (f : M A) : M A :=
  match fuel with
  | O => lift Diverge
  | S fuel' =>
      fun st =>
        match f st with
        | (Raise e, st') =>
            if attempt_number >=? stop_max_attempt_number then (Raise e, st')
            else (sleep wait_fixed ;;
                  retry_attempts_loop fuel' wait_fixed stop_max_attempt_number
                                      (attempt_number + 1) f) st'
        | r => r
        end
  end.

Definition retry_attempts {A} (fuel : nat) (wait_fixed stop_max_attempt_number : Z)
           (f : M A) : M A :=
  retry_attempts_loop fuel wait_fixed stop_max_attempt_number 1 f.

(** [x is None]. *)
Definition is_None (v : value) : bool :=
  match v with
  | VNone => true
  | _ => false
  end.

(** [[c.get("type", "") for c in all_conditions]]. *)
Fixpoint condition_types (all_conditions : list value) : outcome (list value) :=
  match all_conditions with
  | [] => Return []
  | c :: rest =>
      let? ty := py_get c "type" (VStr "") in
      let? tys := condition_types rest in
      Return (ty :: tys)
  end.

(** The arguments [log_status] gives to [logging.info]: the name, the
    namespace and the uid of the job, and its condition types. *)
Definition log_status_line (tf_job : value)
  : outcome (value * value * value * list value) :=
  let? status := py_get tf_job "status" (VDict []) in
  let? all_conditions := py_get status "conditions" (VList []) in
  let? conditions :=
    if is_None all_conditions then Return []
    else (let? cs := py_iter all_conditions in condition_types cs) in
  let? metadata := py_get tf_job "metadata" (VDict []) in
  let? name := py_get metadata "name" VNone in
  let? metadata := py_get tf_job "metadata" (VDict []) in
  let? namespace := py_get metadata "namespace" VNone in
  let? metadata := py_get tf_job "metadata" (VDict []) in
  let? uid := py_get metadata "uid" VNone in
  Return (name, namespace, uid, conditions).

(** [log_status(tf_job)], with its retry decorator; writing the line to the
    log of the process has no effect on the state. *)
Definition log_status (fuel : nat) (tf_job : value) : M unit :=
  retry_attempts fuel 10000 20 (lift (log_status_line tf_job) ;; ret tt).

(** A job of the shape [log_status] expects: status and metadata are absent
    or dicts, and the conditions are absent, null or a list of dicts. *)
Definition loggable (tf_job : dict) : bool :=
  match dict_get tf_job "status" with
  | None => true
  | Some (VDict status) =>
      match dict_get status "conditions" with
      | None | Some VNone => true
      | Some (VList cs) => forallb is_dict cs
      | Some _ => false
      end
  | Some _ => false
  end
  && match dict_get tf_job "metadata" with
     | None | Some (VDict _) => true
     | Some _ => false
     end.

(* ================================================================== *)
(** * Properties *)

Unset Implicit Arguments.

(** ** Dicts *)

Lemma dict_get_set_same (d : dict) (k : string) (v : value) :
  dict_get (dict_set d k v) k = Some v.
Proof.
  induction d as [|[k' v'] d IH]; simpl.
  - now rewrite String.eqb_refl.
  - destruct (String.eqb k' k) eqn:E; simpl; rewrite E; auto.
Qed.

Lemma dict_get_set_other (d : dict) (k k' : string) (v : value) :
  k <> k' -> dict_get (dict_set d k v) k' = dict_get d k'.
Proof.
  intros Hk. induction d as [|[k0 v0] d IH]; simpl.
  - destruct (String.eqb k k') eqn:E; auto.
    apply String.eqb_eq in E. contradiction.
  - destruct (String.eqb k0 k) eqn:E; simpl.
    + apply String.eqb_eq in E. subst k0.
      destruct (String.eqb k k') eqn:E'; auto.
      apply String.eqb_eq in E'. contradiction.
    + now rewrite IH.
Qed.

(** In a well-formed dict every item is the one its key looks up. *)
Lemma dict_get_In (d : dict) (k : string) (v : value) :
  dict_wf d -> In (k, v) d -> dict_get d k = Some v.
Proof.
  unfold dict_wf, dict_keys.
  induction d as [|[k' v'] d IH]; simpl; intros Hwf Hin; [contradiction|].
  inversion Hwf as [|? ? Hnotin Hwf']; subst.
  destruct Hin as [Heq|Hin].
  - inversion Heq; subst. now rewrite String.eqb_refl.
  - destruct (String.eqb k' k) eqn:E.
    + apply String.eqb_eq in E. subst k'.
      exfalso. apply Hnotin. change k with (fst (k, v)). now apply in_map.
    + auto.
Qed.

(** ** Labels and selectors *)

Lemma collect_parts (render : string * value -> string) (labels : dict)
      (parts : list string) :
  fold_left (fun parts kv => app parts [render kv]) labels parts
  = app parts (map render labels).
Proof.
  revert parts. induction labels as [|kv labels IH]; intros parts; simpl.
  - now rewrite app_nil_r.
  - rewrite IH, <- app_assoc. reflexivity.
Qed.

Lemma to_selector_pairs (labels : dict) :
  to_selector labels = selector_of_pairs labels.
Proof.
  unfold to_selector, selector_of_pairs.
  now rewrite (collect_parts render_label).
Qed.

(** C7, as amended.  [get_labels], given a name and an optional string as
    replica type, returns a label set that always has the group label and
    the job-name label; it has the replica-type label, lower-cased, exactly
    when the replica type is provided and is not the empty string; and it
    has the replica-index label exactly when the replica index is truthy
    (so [None] and [0] both leave it out).  No other label is set. *)
Theorem get_labels_contents (name : value) (replica_type : option string)
        (replica_index : value) :
  exists labels,
    get_labels name (opt_str replica_type) replica_index = Return labels /\
    dict_get labels "group-name" = Some (VStr "kubeflow.org") /\
    dict_get labels "job-name" = Some name /\
    dict_get labels "replica-type" =
      match replica_type with
      | Some s => if String.eqb s "" then None else Some (VStr (lower s))
      | None => None
      end /\
    dict_get labels "replica-index" =
      (if truthy replica_index then Some replica_index else None) /\
    incl (dict_keys labels)
         ["group-name"; "job-name"; "replica-type"; "replica-index"].
Proof.
  unfold get_labels.
  destruct replica_type as [s|]; simpl.
  - destruct (String.eqb s "") eqn:Es; simpl;
      destruct (truthy replica_index); simpl;
      eexists; (split; [reflexivity|]); simpl;
      repeat split; try reflexivity;
      intros k Hk; simpl in *; intuition.
  - destruct (truthy replica_index); simpl;
      eexists; (split; [reflexivity|]); simpl;
      repeat split; try reflexivity;
      intros k Hk; simpl in *; intuition.
Qed.

(** C7, as stated, fails: an empty string is a replica type that was
    provided, yet the label set has no replica-type label. *)
Lemma get_labels_empty_type_omitted :
  opt_str (Some "") <> VNone /\
  exists labels,
    get_labels (VStr "job") (opt_str (Some "")) VNone = Return labels /\
    dict_get labels "replica-type" = None.
Proof.
  split; [discriminate|].
  eexists. split; reflexivity.
Qed.

(** C9.  Two calls of [get_labels] with equal inputs give equal label sets,
    and then equal selectors; and the selector is the [key=value] pairs of
    the label set joined by commas in the order the mapping iterates. *)
Theorem to_selector_deterministic
        (name ty idx name' ty' idx' : value) (labels labels' : dict) :
  name = name' -> ty = ty' -> idx = idx' ->
  get_labels name ty idx = Return labels ->
  get_labels name' ty' idx' = Return labels' ->
  labels = labels' /\
  to_selector labels = to_selector labels' /\
  to_selector labels = join "," (map render_label labels).
Proof.
  intros -> -> -> H H'.
  rewrite H in H'. inversion H'; subst labels'.
  repeat split. apply to_selector_pairs.
Qed.

Lemma to_selector_deterministic_witness :
  to_selector [("group-name", VStr "kubeflow.org"); ("job-name", VStr "mnist");
               ("replica-type", VStr "worker"); ("replica-index", VInt 1)]
  = "group-name=kubeflow.org,job-name=mnist,replica-type=worker,replica-index=1".
Proof.
  destruct (@to_selector_deterministic
              (VStr "mnist") (VStr "Worker") (VInt 1)
              (VStr "mnist") (VStr "Worker") (VInt 1)
              [("group-name", VStr "kubeflow.org"); ("job-name", VStr "mnist");
               ("replica-type", VStr "worker"); ("replica-index", VInt 1)]
              [("group-name", VStr "kubeflow.org"); ("job-name", VStr "mnist");
               ("replica-type", VStr "worker"); ("replica-index", VInt 1)]
              eq_refl eq_refl eq_refl eq_refl eq_refl) as [_ [_ H]].
  rewrite H. reflexivity.
Defined.

(** ** The "succeeded" check *)

Lemma dict_get_Some_cons (d : dict) (k : string) (v : value) :
  dict_get d k = Some v -> truthy (VDict d) = true.
Proof. destruct d; simpl; [discriminate|reflexivity]. Qed.

Lemma job_succeeded_snoc (tfjob status : dict) (earlier : list value) (last : value) :
  dict_get tfjob "status" = Some (VDict status) ->
  dict_get status "conditions" = Some (VList (earlier ++ [last])) ->
  job_succeeded (VDict tfjob) = succeeded_condition last.
Proof.
  intros Hs Hc. unfold job_succeeded, succeeded_condition; simpl.
  rewrite Hs; simpl. rewrite Hc; simpl.
  rewrite rev_app_distr; simpl. reflexivity.
Qed.

(** C8.  When the condition sequence is not empty, [job_succeeded] looks at
    its last entry only: the result is the one for the sequence reduced to
    that entry, whatever the earlier entries are, and it is [True] exactly
    when the last entry's type, lower-cased, is "succeeded". *)
Theorem job_succeeded_last_only
        (tfjob status : dict) (earlier : list value) (last : value) :
  dict_get tfjob "status" = Some (VDict status) ->
  dict_get status "conditions" = Some (VList (earlier ++ [last])) ->
  job_succeeded (VDict tfjob)
  = job_succeeded (VDict [("status", VDict [("conditions", VList [last])])]) /\
  (job_succeeded (VDict tfjob) = Return true <->
   exists c ty, last = VDict c /\ dict_get c "type" = Some (VStr ty) /\
                lower ty = "succeeded") /\
  (forall c, last = VDict c ->
     (dict_get c "type" = None -> job_succeeded (VDict tfjob) = Return false) /\
     (forall ty, dict_get c "type" = Some (VStr ty) ->
        job_succeeded (VDict tfjob) = Return (String.eqb (lower ty) "succeeded"))).
Proof.
  intros Hs Hc.
  rewrite (job_succeeded_snoc tfjob status earlier last Hs Hc).
  split; [|split].
  - symmetry. apply (job_succeeded_snoc _ [("conditions", VList [last])] [] last);
      reflexivity.
  - unfold succeeded_condition. split.
    + destruct last as [| | | |l|c]; simpl; try discriminate.
      destruct (dict_get c "type") as [[| | |ty| |]|] eqn:Ety; simpl;
        try discriminate.
      intros H. injection H as H1. apply String.eqb_eq in H1.
      exists c, ty. repeat split; assumption.
    + intros (c & ty & -> & Hty & Hl). simpl. rewrite Hty. simpl.
      rewrite Hl. reflexivity.
  - intros c ->. unfold succeeded_condition; simpl. split.
    + intros ->. reflexivity.
    + intros ty ->. reflexivity.
Qed.

Lemma job_succeeded_last_only_witness :
  job_succeeded
    (VDict [("status",
             VDict [("conditions",
                     VList [VDict [("type", VStr "Succeeded")];
                            VDict [("type", VStr "Running")]])])])
  = Return false.
Proof.
  destruct (@job_succeeded_last_only
              [("status",
                VDict [("conditions",
                        VList [VDict [("type", VStr "Succeeded")];
                               VDict [("type", VStr "Running")]])])]
              [("conditions",
                VList [VDict [("type", VStr "Succeeded")];
                       VDict [("type", VStr "Running")]])]
              [VDict [("type", VStr "Succeeded")]]
              (VDict [("type", VStr "Running")])
              eq_refl eq_refl) as [H _].
  rewrite H. reflexivity.
Defined.

(** C10.  [job_succeeded] is partial: on a status whose conditions are the
    empty list the indexing of the last element raises [IndexError], and on
    one whose conditions are [None] the same indexing raises [TypeError]; in
    neither case a boolean is returned.  The scan of [wait_for_condition]
    takes the same two statuses as having no condition: it finds no match
    and raises nothing. *)
Theorem job_succeeded_partial
        (tfjob status : dict) (conditions : value)
        (expected_condition : list string) (st : State) :
  dict_get tfjob "status" = Some (VDict status) ->
  dict_get status "conditions" = Some conditions ->
  conditions = VList [] \/ conditions = VNone ->
  job_succeeded (VDict tfjob)
  = Raise (match conditions with VList _ => IndexError | _ => TypeError end) /\
  (forall b, job_succeeded (VDict tfjob) <> Return b) /\
  inspect_results (VDict tfjob) expected_condition None st = (Return false, st).
Proof.
  intros Hs Hc Hcase.
  assert (Hraise : job_succeeded (VDict tfjob)
                   = Raise (match conditions with VList _ => IndexError | _ => TypeError end)).
  { unfold job_succeeded; simpl. rewrite Hs; simpl. rewrite Hc; simpl.
    destruct Hcase as [-> | ->]; reflexivity. }
  split; [exact Hraise|split].
  - intros b. rewrite Hraise. discriminate.
  - unfold inspect_results.
    rewrite (dict_get_Some_cons _ _ _ Hs).
    unfold bind, ret, lift; simpl. rewrite Hs; simpl. rewrite Hc.
    destruct Hcase as [-> | ->]; reflexivity.
Qed.

Lemma job_succeeded_partial_witness :
  job_succeeded (VDict [("status", VDict [("conditions", VList [])])])
  = Raise IndexError /\
  job_succeeded (VDict [("status", VDict [("conditions", VNone)])])
  = Raise TypeError.
Proof.
  split.
  - apply (@job_succeeded_partial
             [("status", VDict [("conditions", VList [])])]
             [("conditions", VList [])] (VList []) ["Succeeded"] (mkState 0 [])
             eq_refl eq_refl (or_introl eq_refl)).
  - apply (@job_succeeded_partial
             [("status", VDict [("conditions", VNone)])]
             [("conditions", VNone)] VNone ["Succeeded"] (mkState 0 [])
             eq_refl eq_refl (or_intror eq_refl)).
Defined.

(** ** Creation failures *)

Section ExpectedTotal.

Variables (tfjob spec specs : dict).
Hypothesis Hspec : dict_get tfjob "spec" = Some (VDict spec).
Hypothesis Hspecs : dict_get spec "tfReplicaSpecs" = Some (VDict specs).
Hypothesis Hwf : dict_wf specs.

(** One turn of the loop, at a key of the replica specs. *)
Lemma add_replicas_entry (n : Z) (k : string) (v : value) :
  In (k, v) specs ->
  replica_spec_ok v = true ->
  add_replicas (VDict tfjob) n (VStr k)
  = Return (if truthy v then n + declared_replicas v else n).
Proof.
  intros Hin Hok. unfold add_replicas; simpl.
  rewrite Hspec; simpl. rewrite Hspecs; simpl.
  rewrite (dict_get_In specs k v Hwf Hin); simpl.
  unfold replica_spec_ok in Hok.
  destruct (truthy v) eqn:Et; [|reflexivity].
  destruct v as [| | | | |d]; try discriminate.
  simpl. destruct (dict_get d "replicas") as [[| |z| | |]|];
    try discriminate; reflexivity.
Qed.

Lemma add_all_replicas_entries (entries : dict) (n : Z) :
  incl entries specs ->
  forallb (fun kv => replica_spec_ok (snd kv)) entries = true ->
  add_all_replicas (VDict tfjob) n (map VStr (dict_keys entries))
  = Return (n + nonempty_total entries).
Proof.
  revert n. induction entries as [|[k v] entries IH]; intros n Hincl Hok.
  - simpl. f_equal. unfold nonempty_total. simpl. lia.
  - simpl in Hok. apply andb_prop in Hok. destruct Hok as [Hv Hrest].
    simpl. rewrite (add_replicas_entry n k v); [|apply Hincl; now left|exact Hv].
    simpl. rewrite IH; [|intros x Hx; apply Hincl; now right|exact Hrest].
    f_equal. unfold nonempty_total. simpl.
    destruct (truthy v); simpl; lia.
Qed.

Lemma num_expected_replicas_total :
  forallb (fun kv => replica_spec_ok (snd kv)) specs = true ->
  num_expected_replicas (VDict tfjob) = Return (nonempty_total specs).
Proof.
  intros Hok. unfold num_expected_replicas, py_get.
  rewrite Hspec; cbn [obind]. rewrite Hspecs; cbn [obind py_iter].
  rewrite (add_all_replicas_entries specs 0); auto using incl_refl.
Qed.

End ExpectedTotal.

Lemma creation_failures_for_discrepancies (n : Z) (pods services : list string) :
  creation_failures_for n pods services = discrepancies n pods services.
Proof.
  unfold creation_failures_for, discrepancies.
  destruct (len pods =? n), (len services =? n); reflexivity.
Qed.

(** C3, as amended.  For a resource whose replica specs form a dict of
    entries that are each empty or a dict with an optional integer count,
    the expected total is the sum of the declared counts of the entries
    that are not empty, a non-empty entry without a declared count counting
    for 1 (an empty entry adds nothing); and the result has exactly one
    message for the pods and one for the services whenever the number of
    create events of that category differs from the expected total, and is
    empty otherwise. *)
Theorem get_creation_failures_from_tfjob_total
        (api_client : Env) (namespace : string) (tfjob spec specs : dict)
        (st : State) (uid : value) (events : list value) (dt : Z)
        (created_pods created_services : list string) :
  dict_get tfjob "spec" = Some (VDict spec) ->
  dict_get spec "tfReplicaSpecs" = Some (VDict specs) ->
  dict_wf specs ->
  forallb (fun kv => replica_spec_ok (snd kv)) specs = true ->
  (let? metadata := py_get (VDict tfjob) "metadata" (VDict []) in
   py_get metadata "uid" VNone) = Return uid ->
  get_events api_client st namespace uid = (Ok events, dt) ->
  parse_events api_client events = (created_pods, created_services) ->
  num_expected_replicas (VDict tfjob) = Return (nonempty_total specs) /\
  get_creation_failures_from_tfjob api_client namespace (VDict tfjob) st
  = (Return (discrepancies (nonempty_total specs) created_pods created_services),
     mkState (now st + dt) (EvGetEvents namespace uid (Ok events) :: log st)) /\
  (discrepancies (nonempty_total specs) created_pods created_services = [] <->
   len created_pods = nonempty_total specs /\
   len created_services = nonempty_total specs).
Proof.
  intros Hspec Hspecs Hwf Hok Huid Hev Hparse.
  pose proof (num_expected_replicas_total tfjob spec specs Hspec Hspecs Hwf Hok) as Hn.
  split; [exact Hn|split].
  - unfold get_creation_failures_from_tfjob, bind, lift, perform, ret.
    destruct (py_get (VDict tfjob) "metadata" (VDict [])) as [metadata| |];
      cbn [obind] in Huid; try discriminate.
    rewrite Huid, Hev. cbn [of_reply]. rewrite Hparse, Hn.
    rewrite creation_failures_for_discrepancies. reflexivity.
  - unfold discrepancies.
    destruct (len created_pods =? nonempty_total specs) eqn:Ep;
      destruct (len created_services =? nonempty_total specs) eqn:Es;
      simpl; split; try discriminate; try (intros [? ?]); try lia; auto; split; lia.
Qed.

Lemma get_creation_failures_from_tfjob_total_witness :
  fst (get_creation_failures_from_tfjob
         (quiet_cluster ["w-0"; "w-1"; "w-2"] ["w-0"; "w-1"; "w-2"; "ps-0"]) "ns"
         (tfjob_with_replicas
            [("worker", VDict [("replicas", VInt 3)]);
             ("ps", VDict [("restartPolicy", VStr "Never")])])
         (mkState 0 []))
  = Return ["Expected 4 pods to be created but only got 3 create events."].
Proof.
  destruct (get_creation_failures_from_tfjob_total
              (quiet_cluster ["w-0"; "w-1"; "w-2"] ["w-0"; "w-1"; "w-2"; "ps-0"]) "ns"
              [("metadata", VDict [("name", VStr "mnist"); ("uid", VStr "u-1")]);
               ("spec",
                VDict [("tfReplicaSpecs",
                        VDict [("worker", VDict [("replicas", VInt 3)]);
                               ("ps", VDict [("restartPolicy", VStr "Never")])])])]
              [("tfReplicaSpecs",
                VDict [("worker", VDict [("replicas", VInt 3)]);
                       ("ps", VDict [("restartPolicy", VStr "Never")])])]
              [("worker", VDict [("replicas", VInt 3)]);
               ("ps", VDict [("restartPolicy", VStr "Never")])]
              (mkState 0 []) (VStr "u-1") [] 0
              ["w-0"; "w-1"; "w-2"] ["w-0"; "w-1"; "w-2"; "ps-0"]
              eq_refl eq_refl) as [_ [H _]].
  - repeat constructor; simpl; intuition discriminate.
  - reflexivity.
  - reflexivity.
  - reflexivity.
  - reflexivity.
  - unfold tfjob_with_replicas. rewrite H. reflexivity.
Defined.

(** C3, as stated, fails: an entry that is present but empty has no declared
    count, so the stated total counts it for 1; the code skips it, expects
    0, and reports both categories although one pod and one service were
    created. *)
Lemma empty_replica_spec_not_counted :
  declared_total [("worker", VDict [])] = 1 /\
  num_expected_replicas (tfjob_with_replicas [("worker", VDict [])]) = Return 0 /\
  fst (get_creation_failures_from_tfjob
         (quiet_cluster ["mnist-worker-0"] ["mnist-worker-0"]) "ns"
         (tfjob_with_replicas [("worker", VDict [])]) (mkState 0 []))
  = Return ["Expected 0 pods to be created but only got 1 create events.";
            "Expected 0 services to be created but only got 1 create events."].
Proof. repeat split. Qed.

(** ** Waiting for a condition *)

Lemma scan_conditions_match (expected_condition : list string)
      (before later : list value) (c : dict) (ty : string) :
  forallb is_dict before = true ->
  dict_get c "type" = Some (VStr ty) ->
  In ty expected_condition ->
  scan_conditions (before ++ VDict c :: later) expected_condition = Return true.
Proof.
  intros Hbefore Hty Hin.
  induction before as [|b before IH]; simpl.
  - rewrite Hty; simpl.
    replace (existsb (String.eqb ty) expected_condition) with true; [reflexivity|].
    symmetry. apply existsb_exists. exists ty. split; [exact Hin|apply String.eqb_refl].
  - simpl in Hbefore. apply andb_prop in Hbefore. destruct Hbefore as [Hb Hrest].
    destruct b as [| | | | |d]; try discriminate.
    specialize (IH Hrest).
    cbn [scan_conditions app]. 
    destruct (py_get (VDict d) "type" (VStr "")) as [v| |] eqn:Ev.
    + cbn [obind]. destruct (py_in v expected_condition); [reflexivity|exact IH].
    + simpl in Ev. destruct (dict_get d "type"); discriminate.
    + simpl in Ev. destruct (dict_get d "type"); discriminate.
Qed.

(** The fetch of one iteration, when the API answers. *)
Lemma try_get_tfjob_answer (client : Env) (version namespace name : string)
      (st : State) (r : reply value) (dt : Z) :
  get_namespaced_custom_object client st true version namespace name = (r, dt) ->
  try_get_tfjob client version namespace name st
  = (match r with
     | Ok v => Return v
     | Err MPTimeoutError => Return VNone
     | Err e => Raise e
     end,
     answered st (EvGetTFJob true version namespace name) r dt).
Proof.
  intros H. unfold try_get_tfjob, perform, answered. rewrite H.
  destruct r as [v|[]]; reflexivity.
Qed.

Lemma invoke_callback (cb : callback) (job : value) (st : State) :
  callback_returns cb job st = true ->
  match cb with
  | Some f => invoke f job
  | None => ret tt
  end st = (Return tt, after_callback cb job st).
Proof.
  destruct cb as [f|]; simpl; [|reflexivity].
  unfold invoke, perform, answered.
  destruct (f st job) as [[[]|e] dt]; simpl; [reflexivity|discriminate].
Qed.

(** A resource without conditions is inspected without a match and without
    an error. *)
Lemma inspect_results_no_conditions (results : dict) (expected_condition : list string)
      (cb : callback) (st : State) :
  no_conditions results = true ->
  callback_returns cb (VDict results) st = true ->
  inspect_results (VDict results) expected_condition cb st
  = (Return false,
     if truthy (VDict results) then after_callback cb (VDict results) st else st).
Proof.
  intros Hno Hcb. unfold inspect_results.
  destruct (truthy (VDict results)); [|reflexivity].
  unfold bind. rewrite (invoke_callback _ _ _ Hcb).
  unfold no_conditions in Hno. unfold lift, py_get.
  destruct (dict_get results "status") as [[| | | | |status]|]; try discriminate.
  - destruct (dict_get status "conditions") as [[| | | |[|]|]|]; try discriminate;
      reflexivity.
  - reflexivity.
Qed.

(** C5.  When the fetch of an iteration returns a status in which some
    condition entry has a type of the expected set, every entry before it
    being a condition record, the loop of [wait_for_condition] returns that
    status in this very iteration: the callback (if any) has run, nothing
    else happened, no sleep.  The entries after the match are not looked
    at.  A status whose condition sequence is absent, null or empty is
    scanned as an empty sequence: no match, no error. *)
Theorem wait_for_condition_returns_on_match
        (fuel : nat) (client : Env) (namespace name : string)
        (expected_condition : list string) (version : string)
        (polling_interval : Z) (status_callback : callback) (end_time : Z)
        (st : State) (dt : Z)
        (results status c : dict) (before later : list value) (ty : string)
        (unset : dict) (st0 : State) :
  get_namespaced_custom_object client st true version namespace name
  = (Ok (VDict results), dt) ->
  callback_returns status_callback (VDict results)
    (answered st (EvGetTFJob true version namespace name) (Ok (VDict results)) dt)
  = true ->
  dict_get results "status" = Some (VDict status) ->
  dict_get status "conditions" = Some (VList (before ++ VDict c :: later)) ->
  forallb is_dict before = true ->
  dict_get c "type" = Some (VStr ty) ->
  In ty expected_condition ->
  no_conditions unset = true ->
  callback_returns status_callback (VDict unset) st0 = true ->
  wait_for_condition_loop (S fuel) client namespace name expected_condition
                          version polling_interval status_callback end_time st
  = (Return (VDict results),
     after_callback status_callback (VDict results)
       (answered st (EvGetTFJob true version namespace name) (Ok (VDict results)) dt))
  /\
  inspect_results (VDict unset) expected_condition status_callback st0
  = (Return false,
     if truthy (VDict unset) then after_callback status_callback (VDict unset) st0
     else st0).
Proof.
  intros Hfetch Hcb Hstatus Hconds Hbefore Hty Hin Hunset Hcb0.
  split; [|now apply inspect_results_no_conditions].
  cbn [wait_for_condition_loop]. unfold bind at 1.
  rewrite (try_get_tfjob_answer _ _ _ _ _ _ _ Hfetch).
  unfold bind at 1. unfold inspect_results.
  rewrite (dict_get_Some_cons _ _ _ Hstatus).
  unfold bind at 1. rewrite (invoke_callback _ _ _ Hcb).
  unfold bind, lift, py_get. rewrite Hstatus, Hconds.
  assert (Htruthy : py_or (VList (before ++ VDict c :: later)) (VList [])
                    = VList (before ++ VDict c :: later)).
  { unfold py_or. destruct before; reflexivity. }
  rewrite Htruthy. cbn [py_iter].
  rewrite (scan_conditions_match _ _ _ _ _ Hbefore Hty Hin).
  reflexivity.
Qed.

Lemma wait_for_condition_returns_on_match_witness :
  wait_for_condition_loop 1 (steady_cluster (VDict created_then_running))
                          "ns" "mnist" ["Running"; "Succeeded"] "v1"
                          (seconds 30) None (minutes 30) (mkState 0 [])
  = (Return (VDict created_then_running),
     mkState 1000 [EvGetTFJob true "v1" "ns" "mnist" (Ok (VDict created_then_running))]).
Proof.
  apply (proj1 (wait_for_condition_returns_on_match
                  0 (steady_cluster (VDict created_then_running))
                  "ns" "mnist" ["Running"; "Succeeded"] "v1"
                  (seconds 30) None (minutes 30) (mkState 0 []) 1000
                  created_then_running
                  [("conditions",
                    VList [VDict [("type", VStr "Created")];
                           VDict [("type", VStr "Running")];
                           VStr "not a condition"])]
                  [("type", VStr "Running")]
                  [VDict [("type", VStr "Created")]]
                  [VStr "not a condition"]
                  "Running"
                  [("metadata", VDict [("name", VStr "mnist")])] (mkState 0 [])
                  eq_refl eq_refl eq_refl eq_refl eq_refl eq_refl
                  (or_introl eq_refl) eq_refl eq_refl)).
Defined.

(** ** The payload of the timeout *)

Lemma py_get_raises (obj : value) (key : string) (default : value) (e : exn) :
  py_get obj key default = Raise e -> e = AttributeError.
Proof.
  destruct obj; simpl; try (intros H; injection H as <-; reflexivity).
  destruct (dict_get d key); discriminate.
Qed.

Lemma py_get_converges (obj : value) (key : string) (default : value) :
  py_get obj key default <> Diverge.
Proof. destruct obj; simpl; try discriminate. destruct (dict_get d key); discriminate. Qed.

Lemma scan_conditions_raises (cs : list value) (expected_condition : list string) (e : exn) :
  scan_conditions cs expected_condition = Raise e -> e = AttributeError.
Proof.
  induction cs as [|c cs IH]; simpl; [discriminate|].
  destruct (py_get c "type" (VStr "")) as [ty|e'|] eqn:E; simpl.
  - destruct (py_in ty expected_condition); [discriminate|exact IH].
  - intros H. injection H as <-. eapply py_get_raises; eauto.
  - discriminate.
Qed.

Lemma find_match_raises (results : value) (expected_condition : list string) (e : exn) :
  find_match results expected_condition = Raise e ->
  e = AttributeError \/ e = TypeError.
Proof.
  unfold find_match.
  destruct (py_get results "status" (VDict [])) as [status|e1|] eqn:E1; simpl.
  - destruct (py_get status "conditions" (VList [])) as [conds|e2|] eqn:E2; simpl.
    + destruct (py_iter (py_or conds (VList []))) as [cs|e3|] eqn:E3; simpl.
      * intros H. left. eapply scan_conditions_raises; eauto.
      * intros H. injection H as <-. right.
        destruct (py_or conds (VList [])); simpl in E3; congruence.
      * discriminate.
    + intros H. injection H as <-. left. eapply py_get_raises; eauto.
    + discriminate.
  - intros H. injection H as <-. left. eapply py_get_raises; eauto.
  - discriminate.
Qed.

(** [inspect_results] is the callback followed by the pure scan. *)
Lemma inspect_results_find_match (results : value) (expected_condition : list string)
      (cb : callback) (st : State) :
  inspect_results results expected_condition cb st
  = if truthy results then
      match cb with
      | None => (find_match results expected_condition, st)
      | Some f =>
          let '(r, dt) := f st results in
          (match r with
           | Ok _ => find_match results expected_condition
           | Err e => Raise e
           end, answered st (EvCallback results) r dt)
      end
    else (Return false, st).
Proof.
  unfold inspect_results, find_match.
  destruct (truthy results); [|reflexivity].
  destruct cb as [f|]; unfold bind, lift, invoke, perform, ret, answered.
  - destruct (f st results) as [[[]|e] dt]; simpl; [|reflexivity].
    destruct (py_get results "status" (VDict [])) as [status| |]; simpl; try reflexivity.
    destruct (py_get status "conditions" (VList [])) as [conds| |]; simpl; try reflexivity.
    destruct (py_iter (py_or conds (VList []))); reflexivity.
  - destruct (py_get results "status" (VDict [])) as [status| |]; simpl; try reflexivity.
    destruct (py_get status "conditions" (VList [])) as [conds| |]; simpl; try reflexivity.
    destruct (py_iter (py_or conds (VList []))); reflexivity.
Qed.

(** What an inspection leaves behind: at most the callback's entry in the
    log, and never a [JobTimeoutError] of its own. *)
Lemma inspect_results_effect (results : value) (expected_condition : list string)
      (cb : callback) (st st2 : State) (o : outcome bool) :
  (forall f, cb = Some f -> forall st job, not_job_timeout (fst (f st job))) ->
  inspect_results results expected_condition cb st = (o, st2) ->
  (exists evs, log st2 = (evs ++ log st)%list /\ last_fetch evs = None) /\
  (forall m p, o <> Raise (JobTimeoutError m p)).
Proof.
  intros Hcb. rewrite inspect_results_find_match.
  assert (Hpure : forall m p,
             find_match results expected_condition <> Raise (JobTimeoutError m p)).
  { intros m p H. apply find_match_raises in H. destruct H; discriminate. }
  destruct (truthy results).
  - destruct cb as [f|].
    + specialize (Hcb f eq_refl st results).
      destruct (f st results) as [r dt]. intros H. injection H as <- <-. split.
      * exists [EvCallback results r]. split; reflexivity.
      * destruct r as [[]|e]; [exact Hpure|].
        simpl in Hcb. intros m p H. injection H as ->. exact Hcb.
    + intros H. injection H as <- <-. split; [|exact Hpure].
      exists []. split; reflexivity.
  - intros H. injection H as <- <-. split; [|discriminate].
    exists []. split; reflexivity.
Qed.

Lemma last_fetch_app (evs older : list event) (r : reply value) :
  last_fetch evs = Some r -> last_fetch (evs ++ older)%list = Some r.
Proof.
  induction evs as [|ev evs IH]; simpl; [discriminate|].
  destruct ev; auto.
Qed.

Lemma last_fetch_app_none (evs older : list event) :
  last_fetch evs = None -> last_fetch (evs ++ older)%list = last_fetch older.
Proof.
  induction evs as [|ev evs IH]; simpl; [reflexivity|].
  destruct ev; auto; discriminate.
Qed.

Section TimeoutPayload.

Variables (client : Env) (namespace name : string)
          (expected_condition : list string) (version : string)
          (polling_interval : Z) (status_callback : callback) (end_time : Z).

Hypothesis Hquiet :
  collaborators_never_time_out_jobs client status_callback version namespace name.

Local Abbreviation loop fuel :=
  (wait_for_condition_loop fuel client namespace name expected_condition version
                           polling_interval status_callback end_time).

Lemma rest_of_iteration_payload (fuel : nat) (results : value) (r : reply value)
      (st st2 st' : State) (evs1 : list event) (msg : string) (payload : value) :
  (forall st3 st'' m p,
      loop fuel st3 = (Raise (JobTimeoutError m p), st'') ->
      carries_last_fetch st3 st'' p) ->
  log st2 = (evs1 ++ EvGetTFJob true version namespace name r :: log st)%list ->
  last_fetch evs1 = None ->
  results = results_of r ->
  r = Ok results \/ r = Err MPTimeoutError ->
  rest_of_iteration (loop fuel) name namespace expected_condition polling_interval
                    end_time results st2
  = (Raise (JobTimeoutError msg payload), st') ->
  carries_last_fetch st st' payload.
Proof.
  intros IH Hlog Hnone Hres Hr.
  unfold rest_of_iteration, bind, get_now, raise, sleep.
  destruct (now st2 + polling_interval >? end_time).
  - intros H. injection H as _ <- <-.
    exists (evs1 ++ [EvGetTFJob true version namespace name r])%list, r.
    repeat split; auto.
    + rewrite Hlog, <- app_assoc. reflexivity.
    + rewrite last_fetch_app_none by exact Hnone. reflexivity.
  - intros H. apply IH in H. destruct H as (evs & r' & Hlog' & Hlast & Hp & Hr').
    exists (evs ++ EvSleep (seconds (timedelta_seconds polling_interval))
                :: evs1 ++ [EvGetTFJob true version namespace name r])%list, r'.
    repeat split; auto.
    + rewrite Hlog'. cbn [log]. rewrite Hlog, <- !app_assoc. cbn [app].
      rewrite <- app_assoc. reflexivity.
    + apply last_fetch_app. exact Hlast.
Qed.

Lemma wait_for_condition_loop_payload (fuel : nat) :
  forall st st' msg payload,
    loop fuel st = (Raise (JobTimeoutError msg payload), st') ->
    carries_last_fetch st st' payload.
Proof.
  induction fuel as [|fuel IH]; intros st st' msg payload; [discriminate|].
  destruct Hquiet as [Hfetch Hcb].
  cbn [wait_for_condition_loop]. unfold bind at 1.
  destruct (get_namespaced_custom_object client st true version namespace name)
    as [r dt] eqn:Hr.
  rewrite (try_get_tfjob_answer _ _ _ _ _ _ _ Hr).
  specialize (Hfetch st). rewrite Hr in Hfetch. cbn [fst] in Hfetch.
  set (st1 := answered st (EvGetTFJob true version namespace name) r dt).
  destruct r as [v|e].
  - unfold bind at 1.
    destruct (inspect_results v expected_condition status_callback st1)
      as [o st2] eqn:Hi.
    destruct (inspect_results_effect _ _ _ _ _ _ Hcb Hi) as [[evs1 [Hlog Hnone]] Hnt].
    destruct o as [[|]|e|].
    + discriminate.
    + apply (rest_of_iteration_payload fuel v (Ok v) st st2 st' evs1 msg payload);
        auto.
    + intros H. injection H as -> <-. exfalso. eapply Hnt; reflexivity.
    + discriminate.
  - destruct e; try discriminate.
    + unfold bind at 1. cbn [inspect_results truthy ret].
      apply (rest_of_iteration_payload fuel VNone (Err MPTimeoutError)
                                       st st1 st' [] msg payload); auto.
    + contradiction.
Qed.

End TimeoutPayload.

(** C4, as amended.  When a run of [wait_for_condition] ends with the
    [JobTimeoutError] of the deadline check, the error carries what the
    fetch of the last iteration returned: the status it fetched, or nothing
    ([None]) when that fetch timed out.  (The collaborators are assumed not
    to raise [JobTimeoutError] themselves.) *)
Theorem wait_for_condition_timeout_payload
        (fuel : nat) (client : Env) (namespace name : string)
        (expected_condition : list string) (version : string)
        (timeout polling_interval : Z) (status_callback : callback)
        (st st' : State) (msg : string) (payload : value) :
  collaborators_never_time_out_jobs client status_callback version namespace name ->
  wait_for_condition fuel client namespace name expected_condition version
                     timeout polling_interval status_callback st
  = (Raise (JobTimeoutError msg payload), st') ->
  carries_last_fetch st st' payload.
Proof.
  intros Hquiet. unfold wait_for_condition, bind, get_now.
  apply wait_for_condition_loop_payload. exact Hquiet.
Qed.

Lemma flaky_cluster_quiet :
  collaborators_never_time_out_jobs flaky_cluster None "v1" "ns" "mnist".
Proof.
  split.
  - intros st. simpl. destruct (log st); exact I.
  - intros f H. discriminate H.
Defined.

Lemma wait_for_condition_timeout_payload_witness :
  carries_last_fetch
    (mkState 0 [])
    (mkState 151000
             [EvGetTFJob true "v1" "ns" "mnist" (Err MPTimeoutError);
              EvSleep 30000;
              EvGetTFJob true "v1" "ns" "mnist" (Ok running_job)])
    VNone.
Proof.
  apply (wait_for_condition_timeout_payload
           5 flaky_cluster "ns" "mnist" ["Succeeded"; "Failed"] "v1"
           (seconds 60) (seconds 30) None (mkState 0 []) _
           (condition_timeout_message "mnist" "ns" ["Succeeded"; "Failed"]) VNone
           flaky_cluster_quiet).
  reflexivity.
Defined.

(** C4, as stated, fails: the first fetch returns a status, the second one
    times out and the deadline check then fails; the error carries nothing,
    although a fetch did succeed in this run, and not the status that fetch
    returned. *)
Lemma timeout_payload_forgets_earlier_fetch :
  exists msg st',
    wait_for_condition 5 flaky_cluster "ns" "mnist" ["Succeeded"; "Failed"] "v1"
                       (seconds 60) (seconds 30) None (mkState 0 [])
    = (Raise (JobTimeoutError msg VNone), st') /\
    last_successful_fetch (log st') = Some running_job /\
    Some VNone <> last_successful_fetch (log st').
Proof.
  exists (condition_timeout_message "mnist" "ns" ["Succeeded"; "Failed"]).
  exists (mkState 151000
                  [EvGetTFJob true "v1" "ns" "mnist" (Err MPTimeoutError);
                   EvSleep 30000;
                   EvGetTFJob true "v1" "ns" "mnist" (Ok running_job)]).
  split; [reflexivity|]. split; [reflexivity|discriminate].
Qed.

(** ** Waiting for a deletion *)

Lemma get_tfjob_unless_deleted_answer (client : Env) (version namespace name : string)
      (st : State) (r : reply value) (dt : Z) :
  get_namespaced_custom_object client st false version namespace name = (r, dt) ->
  get_tfjob_unless_deleted client version namespace name st
  = (match r with
     | Ok results => Return (Some results)
     | Err (ApiException status) =>
         if status =? NOT_FOUND then Return None else Raise (ApiException status)
     | Err e => Raise e
     end,
     answered st (EvGetTFJob false version namespace name) r dt).
Proof.
  intros H. unfold get_tfjob_unless_deleted, perform, answered. rewrite H.
  destruct r as [v|[]]; try reflexivity.
  cbn [of_reply]. destruct (status =? NOT_FOUND); reflexivity.
Qed.

(** C6.  In any iteration of [wait_for_delete], whatever happened in the
    iterations before: a not-found answer of the fetch makes the function
    return normally; any other exception of the fetch is raised to the
    caller as it is; and when the fetch returns a resource and the deadline
    check fails, the error raised is a [TimeoutError] made of a message
    about the name and the namespace, with no status in it. *)
Theorem wait_for_delete_outcomes
        (fuel : nat) (client : Env) (namespace name version : string)
        (polling_interval : Z) (status_callback : callback) (end_time : Z)
        (st : State) (r : reply value) (dt : Z) :
  get_namespaced_custom_object client st false version namespace name = (r, dt) ->
  let st1 := answered st (EvGetTFJob false version namespace name) r dt in
  let run := wait_for_delete_loop (S fuel) client namespace name version
                                  polling_interval status_callback end_time st in
  (r = Err (ApiException NOT_FOUND) -> run = (Return tt, st1)) /\
  (forall e, r = Err e -> e <> ApiException NOT_FOUND -> run = (Raise e, st1)) /\
  (forall results,
      r = Ok results ->
      callback_returns status_callback results st1 = true ->
      now (after_callback status_callback results st1) + polling_interval > end_time ->
      run = (Raise (TimeoutError (delete_timeout_message name namespace)),
             after_callback status_callback results st1)).
Proof.
  intros Hfetch st1 run. subst run.
  cbn [wait_for_delete_loop]. unfold bind.
  rewrite (get_tfjob_unless_deleted_answer _ _ _ _ _ _ _ Hfetch). fold st1.
  split; [|split].
  - intros ->. reflexivity.
  - intros e -> Hne.
    destruct e as [| | | | |status| | |]; try reflexivity.
    destruct (status =? NOT_FOUND) eqn:E; [|reflexivity].
    apply Z.eqb_eq in E. subst status. contradiction.
  - intros results -> Hcb Hlate.
    rewrite (invoke_callback _ _ _ Hcb).
    unfold get_now, raise.
    replace (now (after_callback status_callback results st1) + polling_interval
             >? end_time) with true; [reflexivity|].
    symmetry. apply Z.gtb_lt. lia.
Qed.

Lemma wait_for_delete_outcomes_witness :
  wait_for_delete_loop 1 deleted_after_first_fetch "ns" "mnist" "v1"
                       (seconds 30) None (minutes 15)
                       (mkState 31000
                                [EvSleep 30000;
                                 EvGetTFJob false "v1" "ns" "mnist" (Ok running_job)])
  = (Return tt,
     mkState 32000
             [EvGetTFJob false "v1" "ns" "mnist" (Err (ApiException 404));
              EvSleep 30000;
              EvGetTFJob false "v1" "ns" "mnist" (Ok running_job)]).
Proof.
  apply (wait_for_delete_outcomes
           0 deleted_after_first_fetch "ns" "mnist" "v1" (seconds 30) None (minutes 15)
           (mkState 31000
                    [EvSleep 30000;
                     EvGetTFJob false "v1" "ns" "mnist" (Ok running_job)])
           (Err (ApiException 404)) 1000 eq_refl).
  reflexivity.
Defined.

(** A whole run: the job is still there at the first fetch and gone at the
    second one. *)
Example wait_for_delete_after_one_fetch :
  wait_for_delete 5 deleted_after_first_fetch "ns" "mnist" "v1"
                  (minutes 15) (seconds 30) None (mkState 0 [])
  = (Return tt,
     mkState 32000
             [EvGetTFJob false "v1" "ns" "mnist" (Err (ApiException 404));
              EvSleep 30000;
              EvGetTFJob false "v1" "ns" "mnist" (Ok running_job)]).
Proof. reflexivity. Qed.

(** ** Terminating a replica and verifying its restart *)

(** *** What a computation adds to the log *)

Section Emits.

Variable P : event -> bool.

Lemma emits_pure {A} (c : M A) :
  (forall st, snd (c st) = st) -> emits P c.
Proof.
  intros H st o st' Hc. specialize (H st). rewrite Hc in H. simpl in H. subst st'.
  exists []. split; reflexivity.
Qed.

Lemma emits_ret {A} (a : A) : emits P (ret a).
Proof. apply emits_pure. reflexivity. Qed.

Lemma emits_lift {A} (o : outcome A) : emits P (lift o).
Proof. apply emits_pure. reflexivity. Qed.

Lemma emits_get_now : emits P get_now.
Proof. apply emits_pure. reflexivity. Qed.

Lemma emits_bind {A B} (c : M A) (k : A -> M B) :
  emits P c -> (forall a, emits P (k a)) -> emits P (bind c k).
Proof.
  intros Hc Hk st o st'. unfold bind.
  destruct (c st) as [[a|e|] st1] eqn:E; specialize (Hc _ _ _ E).
  - intros Hka. destruct (Hk a _ _ _ Hka) as (evs2 & Hlog2 & HP2).
    destruct Hc as (evs1 & Hlog1 & HP1).
    exists (evs2 ++ evs1)%list. split.
    + rewrite Hlog2, Hlog1, app_assoc. reflexivity.
    + rewrite forallb_app, HP2, HP1. reflexivity.
  - intros H. injection H as <- <-. exact Hc.
  - intros H. injection H as <- <-. exact Hc.
Qed.

Lemma emits_bind_return {A B} (a : A) (k : A -> M B) :
  emits P (k a) -> emits P (bind (lift (Return a)) k).
Proof. intros H st o st' E. exact (H st o st' E). Qed.

Lemma emits_perform {A} (ask : State -> reply A * Z) (ev : reply A -> event) :
  (forall r, P (ev r) = true) -> emits P (perform ask ev).
Proof.
  intros H st o st'. unfold perform.
  destruct (ask st) as [r dt]. intros E. injection E as <- <-.
  exists [ev r]. split; [reflexivity|]. simpl. now rewrite H.
Qed.

Lemma emits_sleep (ms : Z) : P (EvSleep ms) = true -> emits P (sleep ms).
Proof.
  intros H st o st'. unfold sleep. intros E. injection E as <- <-.
  exists [EvSleep ms]. split; [reflexivity|]. simpl. now rewrite H.
Qed.

Lemma emits_retry_loop {A} (fuel : nat) (wait_fixed stop_max_delay start_time : Z)
      (f : M A) :
  P (EvSleep wait_fixed) = true ->
  emits P f ->
  emits P (retry_loop fuel wait_fixed stop_max_delay start_time f).
Proof.
  intros Hsleep Hf. induction fuel as [|fuel IH]; [apply emits_lift|].
  intros st o st'. cbn [retry_loop].
  destruct (f st) as [[a|e|] st1] eqn:E; specialize (Hf _ _ _ E).
  - intros H. injection H as <- <-. exact Hf.
  - destruct (now st1 - start_time >=? stop_max_delay).
    + intros H. injection H as <- <-. exact Hf.
    + intros H.
      assert (Hrest : emits P (sleep wait_fixed ;;
                               retry_loop fuel wait_fixed stop_max_delay start_time f)).
      { apply emits_bind; [now apply emits_sleep|intros _; exact IH]. }
      destruct (Hrest _ _ _ H) as (evs2 & Hlog2 & HP2).
      destruct Hf as (evs1 & Hlog1 & HP1).
      exists (evs2 ++ evs1)%list. split.
      * rewrite Hlog2, Hlog1, app_assoc. reflexivity.
      * rewrite forallb_app, HP2, HP1. reflexivity.
  - intros H. injection H as <- <-. exact Hf.
Qed.

Lemma emits_for_each {A} (xs : list A) (body : A -> M unit) :
  (forall x, In x xs -> emits P (body x)) -> emits P (for_each xs body).
Proof.
  induction xs as [|x xs IH]; intros H; simpl.
  - apply emits_ret.
  - apply emits_bind; [apply H; now left|].
    intros _. apply IH. intros y Hy. apply H. now right.
Qed.

End Emits.

Lemma emits_impl {A} (P Q : event -> bool) (c : M A) :
  (forall ev, P ev = true -> Q ev = true) -> emits P c -> emits Q c.
Proof.
  intros HPQ Hc st o st' E. destruct (Hc _ _ _ E) as (evs & Hlog & HP).
  exists evs. split; [exact Hlog|].
  rewrite forallb_forall in *. auto.
Qed.

(** *** The steps of the verifier *)

Lemma get_labels_ps (name : string) :
  get_labels (VStr name) (VStr "ps") VNone
  = Return [("group-name", VStr "kubeflow.org"); ("job-name", VStr name);
            ("replica-type", VStr "ps")].
Proof. reflexivity. Qed.

(** A wait for the replica type "ps" asks for the pods of that type. *)
Lemma wait_for_ps (api_client : Env) (namespace name : string) (phases : list string)
      (st : State) :
  wait_for_replica_type_in_phases api_client namespace name (VStr "ps") phases st
  = (let '(r, dt) :=
       wait_for_pods_to_be_in_phases api_client st namespace (selector_for name "ps")
                                     phases (minutes 30) in
     (of_reply r,
      answered st (EvWaitForPods namespace (selector_for name "ps") phases (minutes 30))
               r dt)).
Proof.
  unfold wait_for_replica_type_in_phases, bind, lift. rewrite get_labels_ps.
  reflexivity.
Qed.

Lemma wait_for_ps_emits (api_client : Env) (namespace name : string)
      (phases : list string) :
  emits (termination_of_ps name)
        (wait_for_replica_type_in_phases api_client namespace name (VStr "ps") phases).
Proof.
  intros st o st'. rewrite wait_for_ps.
  destruct (wait_for_pods_to_be_in_phases _ _ _ _ _ _) as [r dt].
  intros E. injection E as <- <-.
  exists [EvWaitForPods namespace (selector_for name "ps") phases (minutes 30) r].
  split; [reflexivity|]. simpl. now rewrite String.eqb_refl.
Qed.

(** Terminating one "ps" replica: a wait for the "ps" pods, then requests
    to the first "ps" replica, with pauses between the attempts. *)
Lemma terminate_ps_emits (fuel : nat) (api_client : Env) (namespace name : string)
      (exit_code : Z) :
  emits (termination_of_ps name)
        (terminate_replicas fuel api_client namespace name (VStr "ps") 1 exit_code).
Proof.
  unfold terminate_replicas. rewrite get_labels_ps.
  apply emits_bind_return.
  apply emits_bind.
  - apply emits_perform. intros r. apply String.eqb_refl.
  - intros _. apply emits_for_each. intros num Hnum.
    destruct Hnum as [<-|[]].
    unfold terminate_replica, retry.
    apply emits_bind; [apply emits_get_now|]. intros start_time.
    apply emits_retry_loop; [reflexivity|].
    apply emits_perform. intros r. apply String.eqb_refl.
Qed.

Lemma termination_addressed_to_ps (name : string) (ev : event) :
  termination_of_ps name ev = true -> addressed_to_ps name ev = true.
Proof. destruct ev; simpl; auto. Qed.

Lemma get_start_time_emits (api_client : Env) (namespace name : string)
      (replica_type replica_index : value) (phase : string) :
  emits (addressed_to_ps name)
        (get_start_time_by_index api_client namespace name replica_type
                                 replica_index phase).
Proof.
  unfold get_start_time_by_index.
  apply emits_bind; [apply emits_lift|]. intros labels.
  apply emits_perform. reflexivity.
Qed.

(** The three branches of the verifier have one shape: wait for the "ps"
    pods to be in [phase], read the start time again, compare. *)
Lemma verify_branch_emits (api_client : Env) (namespace name : string)
      (replica_type replica_index : value) (phase : string) (failed : Z -> bool) :
  emits (addressed_to_ps name)
        (wait_for_replica_type_in_phases api_client namespace name (VStr "ps") [phase] ;;
         restart_time <-
           get_start_time_by_index api_client namespace name replica_type
                                   replica_index phase ;;
         if failed restart_time then ret false else ret true).
Proof.
  apply emits_bind.
  - eapply emits_impl; [apply termination_addressed_to_ps|apply wait_for_ps_emits].
  - intros _. apply emits_bind; [apply get_start_time_emits|].
    intros t. destruct (failed t); apply emits_ret.
Qed.

Lemma after_first_wait_emits (fuel : nat) (api_client : Env) (namespace name : string)
      (replica_type replica_index : value) (exit_code : Z) (expect_restart : value) :
  emits (addressed_to_ps name)
    (first_start_time <-
       get_start_time_by_index api_client namespace name replica_type replica_index
                               "Running" ;;
     terminate_replicas fuel api_client namespace name (VStr "ps") 1 exit_code ;;
     if truthy expect_restart then
       wait_for_replica_type_in_phases api_client namespace name (VStr "ps") ["Running"] ;;
       restart_time <-
         get_start_time_by_index api_client namespace name replica_type replica_index
                                 "Running" ;;
       if restart_time <=? first_start_time then ret false else ret true
     else if andb (is_False expect_restart) (exit_code =? 0) then
       wait_for_replica_type_in_phases api_client namespace name (VStr "ps") ["Succeeded"] ;;
       restart_time <-
         get_start_time_by_index api_client namespace name replica_type replica_index
                                 "Succeeded" ;;
       if negb (restart_time =? first_start_time) then ret false else ret true
     else
       wait_for_replica_type_in_phases api_client namespace name (VStr "ps") ["Failed"] ;;
       restart_time <-
         get_start_time_by_index api_client namespace name replica_type replica_index
                                 "Failed" ;;
       if negb (restart_time =? first_start_time) then ret false else ret true).
Proof.
  apply emits_bind; [apply get_start_time_emits|]. intros t0.
  apply emits_bind.
  - eapply emits_impl; [apply termination_addressed_to_ps|apply terminate_ps_emits].
  - intros _.
    destruct (truthy expect_restart);
      [|destruct (andb (is_False expect_restart) (exit_code =? 0))].
    + apply (verify_branch_emits _ _ _ _ _ "Running" (fun t => t <=? t0)).
    + apply (verify_branch_emits _ _ _ _ _ "Succeeded" (fun t => negb (t =? t0))).
    + apply (verify_branch_emits _ _ _ _ _ "Failed" (fun t => negb (t =? t0))).
Qed.

(** C1, on the code.  Whatever replica type [terminate_and_verify_start_time]
    is given, it begins with a wait for the pods of the replica type "ps",
    and every wait of the run selects the pods of "ps" and every
    termination request goes to the replica "ps" number 0: the given
    replica type is used for the start-time lookups only. *)
Theorem terminate_and_verify_addresses_ps
        (fuel : nat) (api_client : Env) (namespace name : string)
        (replica_type replica_index : value) (exit_code : Z) (expect_restart : value)
        (st st' : State) (o : outcome bool) :
  terminate_and_verify_start_time fuel api_client namespace name replica_type
                                  replica_index exit_code expect_restart st
  = (o, st') ->
  exists evs r,
    log st' = (evs ++ EvWaitForPods namespace (selector_for name "ps") ["Running"]
                                    (minutes 30) r :: log st)%list /\
    forallb (addressed_to_ps name) evs = true.
Proof.
  unfold terminate_and_verify_start_time. unfold bind at 1.
  rewrite wait_for_ps.
  destruct (wait_for_pods_to_be_in_phases _ _ _ _ _ _) as [r dt].
  destruct r as [[]|e]; cbn [of_reply].
  - intros E. apply after_first_wait_emits in E.
    destruct E as (evs & Hlog & HP). exists evs, (Ok tt). split; assumption.
  - intros E. injection E as <- <-. exists [], (Err e). split; reflexivity.
Qed.

Lemma terminate_and_verify_addresses_ps_witness :
  exists evs r,
    [EvGetContainerStartTime "ns" (selector_for "mnist" "worker") (VInt 0) "Running"
                             (Ok 5000);
     EvWaitForPods "ns" (selector_for "mnist" "ps") ["Running"] (minutes 30) (Ok tt);
     EvSendRequest "https://master" "ns" "mnist-ps-0" "exit" [("exitCode", VInt 0)]
                   (Ok tt);
     EvWaitForPods "ns" (selector_for "mnist" "ps") ["Running"] (minutes 15) (Ok tt);
     EvGetContainerStartTime "ns" (selector_for "mnist" "worker") (VInt 0) "Running"
                             (Ok 0);
     EvWaitForPods "ns" (selector_for "mnist" "ps") ["Running"] (minutes 30) (Ok tt)]
    = (evs ++ EvWaitForPods "ns" (selector_for "mnist" "ps") ["Running"]
                            (minutes 30) r :: [])%list /\
    forallb (addressed_to_ps "mnist") evs = true.
Proof.
  apply (terminate_and_verify_addresses_ps
           10 restarting_cluster "ns" "mnist" (VStr "worker") (VInt 0) 0 (VBool true)
           (mkState 0 []) (mkState 6000 _) (Return true)).
  reflexivity.
Defined.

(** *** The start times a run records *)

Lemma start_times_app (evs older : list event) :
  start_times (evs ++ older) = (start_times evs ++ start_times older)%list.
Proof.
  induction evs as [|ev evs IH]; simpl; [reflexivity|].
  destruct ev as [| | | |? ? ? ? [t|e]| |]; simpl; rewrite IH; reflexivity.
Qed.

Lemma start_times_termination (name : string) (evs : list event) :
  forallb (termination_of_ps name) evs = true -> start_times evs = [].
Proof.
  induction evs as [|ev evs IH]; simpl; [reflexivity|].
  intros H. apply andb_prop in H. destruct H as [Hev Hevs].
  destruct ev; simpl in Hev; try discriminate; auto.
Qed.

Lemma emits_no_start_time {A} (name : string) (c : M A) (st st' : State) (o : outcome A) :
  emits (termination_of_ps name) c ->
  c st = (o, st') ->
  start_times (log st') = start_times (log st).
Proof.
  intros Hc E. destruct (Hc _ _ _ E) as (evs & Hlog & HP).
  rewrite Hlog, start_times_app, (start_times_termination name evs HP).
  reflexivity.
Qed.

(** A lookup records its answer when it returns one, and nothing else. *)
Lemma get_start_time_records (api_client : Env) (namespace name : string)
      (replica_type replica_index : value) (phase : string)
      (st st' : State) (o : outcome Z) :
  get_start_time_by_index api_client namespace name replica_type replica_index phase st
  = (o, st') ->
  start_times (log st')
  = match o with
    | Return t => t :: start_times (log st)
    | _ => start_times (log st)
    end.
Proof.
  unfold get_start_time_by_index, bind, lift, perform.
  destruct (get_labels (VStr name) replica_type VNone) as [labels|e|].
  - destruct (get_container_start_time _ _ _ _ _ _) as [[t|e] dt];
      intros E; injection E as <- <-; reflexivity.
  - intros E; injection E as <- <-; reflexivity.
  - intros E; injection E as <- <-; reflexivity.
Qed.

Lemma longer_list_differs {A} (x y : A) (l : list A) : l <> x :: y :: l.
Proof. intros H. apply (f_equal (@List.length A)) in H. simpl in H. lia. Qed.

Lemma longer_list_differs_1 {A} (x y z : A) (l : list A) : z :: l <> x :: y :: l.
Proof. intros H. apply (f_equal (@List.length A)) in H. simpl in H. lia. Qed.

(** C2.  In a run of [terminate_and_verify_start_time] with [expect_restart]
    true that recorded two start times, [t0] before the termination and [t1]
    after the second wait for Running, the function returns a boolean,
    which is [True] exactly when [t1 > t0]; with [t1 = t0] it is [False]. *)
Theorem terminate_and_verify_restart_strict
        (fuel : nat) (api_client : Env) (namespace name : string)
        (replica_type replica_index : value) (exit_code : Z)
        (st st' : State) (o : outcome bool) (t0 t1 : Z) :
  terminate_and_verify_start_time fuel api_client namespace name replica_type
                                  replica_index exit_code (VBool true) st
  = (o, st') ->
  start_times (log st') = t1 :: t0 :: start_times (log st) ->
  exists b, o = Return b /\ (b = true <-> t1 > t0) /\ (t1 = t0 -> b = false).
Proof.
  unfold terminate_and_verify_start_time. cbn [truthy].
  unfold bind at 1.
  destruct (wait_for_replica_type_in_phases _ _ _ _ _ st) as [o1 s1] eqn:E1.
  pose proof (emits_no_start_time name _ _ _ _ (wait_for_ps_emits _ _ _ _) E1) as H1.
  destruct o1 as [[]|e1|];
    try (intros E Ht; injection E as <- <-; rewrite H1 in Ht;
         now apply longer_list_differs in Ht).
  unfold bind at 1.
  destruct (get_start_time_by_index _ _ _ _ _ _ s1) as [o2 s2] eqn:E2.
  apply get_start_time_records in E2. rewrite H1 in E2.
  destruct o2 as [first_start_time|e2|];
    try (intros E Ht; injection E as <- <-; rewrite E2 in Ht;
         now apply longer_list_differs in Ht).
  unfold bind at 1.
  destruct (terminate_replicas _ _ _ _ _ _ _ s2) as [o3 s3] eqn:E3.
  pose proof (emits_no_start_time name _ _ _ _ (terminate_ps_emits _ _ _ _ _) E3) as H3.
  rewrite E2 in H3.
  destruct o3 as [[]|e3|];
    try (intros E Ht; injection E as <- <-; rewrite H3 in Ht;
         now apply longer_list_differs_1 in Ht).
  unfold bind at 1.
  destruct (wait_for_replica_type_in_phases _ _ _ _ _ s3) as [o4 s4] eqn:E4.
  pose proof (emits_no_start_time name _ _ _ _ (wait_for_ps_emits _ _ _ _) E4) as H4.
  rewrite H3 in H4.
  destruct o4 as [[]|e4|];
    try (intros E Ht; injection E as <- <-; rewrite H4 in Ht;
         now apply longer_list_differs_1 in Ht).
  unfold bind at 1.
  destruct (get_start_time_by_index _ _ _ _ _ _ s4) as [o5 s5] eqn:E5.
  apply get_start_time_records in E5. rewrite H4 in E5.
  destruct o5 as [restart_time|e5|];
    try (intros E Ht; injection E as <- <-; rewrite E5 in Ht;
         now apply longer_list_differs_1 in Ht).
  intros E Ht.
  assert (Hres : o = Return (negb (restart_time <=? first_start_time)) /\ st' = s5).
  { destruct (restart_time <=? first_start_time);
      unfold ret in E; injection E as <- <-; split; reflexivity. }
  destruct Hres as [-> ->]. rewrite E5 in Ht.
  injection Ht as -> ->.
  exists (negb (t1 <=? t0)). split; [reflexivity|].
  destruct (Z.leb_spec t1 t0); simpl; split.
  - split; [discriminate|lia].
  - reflexivity.
  - split; [lia|reflexivity].
  - lia.
Qed.

Lemma terminate_and_verify_restart_strict_witness :
  (exists b, Return true = Return b /\ (b = true <-> 5000 > 0) /\ (5000 = 0 -> b = false))
  /\
  (exists b, Return false = Return b /\ (b = true <-> 0 > 0) /\ (0 = 0 -> b = false)).
Proof.
  split.
  - apply (terminate_and_verify_restart_strict
             10 restarting_cluster "ns" "mnist" (VStr "worker") (VInt 0) 0
             (mkState 0 [])
             (snd (terminate_and_verify_start_time
                     10 restarting_cluster "ns" "mnist" (VStr "worker") (VInt 0) 0
                     (VBool true) (mkState 0 [])))
             (Return true) 0 5000);
      reflexivity.
  - apply (terminate_and_verify_restart_strict
             10 (quiet_cluster [] []) "ns" "mnist" (VStr "worker") (VInt 0) 0
             (mkState 0 [])
             (snd (terminate_and_verify_start_time
                     10 (quiet_cluster [] []) "ns" "mnist" (VStr "worker") (VInt 0) 0
                     (VBool true) (mkState 0 [])))
             (Return false) 0 0);
      reflexivity.
Defined.

(** ** Enough fuel *)

Lemma converges_bind {A B} (c : M A) (k : A -> M B) :
  converges c -> (forall a, converges (k a)) -> converges (bind c k).
Proof.
  intros Hc Hk st. unfold bind. specialize (Hc st).
  destruct (c st) as [[a|e|] st1]; simpl in *.
  - apply Hk.
  - discriminate.
  - contradiction.
Qed.

Lemma converges_lift {A} (o : outcome A) : o <> Diverge -> converges (lift o).
Proof. intros H st. exact H. Qed.

Lemma converges_perform {A} (ask : State -> reply A * Z) (ev : reply A -> event) :
  converges (perform ask ev).
Proof.
  intros st. unfold perform. destruct (ask st) as [[a|e] dt]; discriminate.
Qed.

Lemma get_labels_converges (name replica_type replica_index : value) :
  get_labels name replica_type replica_index <> Diverge.
Proof.
  unfold get_labels. destruct (truthy replica_type); [|discriminate].
  destruct replica_type; discriminate.
Qed.

Lemma wait_for_replica_type_converges (api_client : Env) (namespace name : string)
      (replica_type : value) (phases : list string) :
  converges (wait_for_replica_type_in_phases api_client namespace name replica_type
                                             phases).
Proof.
  apply converges_bind; [apply converges_lift, get_labels_converges|].
  intros labels. apply converges_perform.
Qed.

Lemma get_start_time_converges (api_client : Env) (namespace name : string)
      (replica_type replica_index : value) (phase : string) :
  converges (get_start_time_by_index api_client namespace name replica_type
                                     replica_index phase).
Proof.
  apply converges_bind; [apply converges_lift, get_labels_converges|].
  intros labels. apply converges_perform.
Qed.

(** The retry loop stops once the delay since the first attempt reaches
    [stop_max_delay]; every failed attempt is followed by a pause of
    [wait_fixed] ms, so [stop_max_delay / wait_fixed + 1] attempts are
    enough when the attempts themselves do not turn the clock back. *)
Lemma retry_loop_converges {A} (wait_fixed stop_max_delay start_time : Z) (f : M A) :
  0 < wait_fixed ->
  (forall st, fst (f st) <> Diverge /\ now st <= now (snd (f st))) ->
  forall (fuel : nat) (st : State),
    stop_max_delay - (now st - start_time) <= wait_fixed * Z.of_nat fuel ->
    fst (retry_loop (S fuel) wait_fixed stop_max_delay start_time f st) <> Diverge.
Proof.
  intros Hw Hf fuel. induction fuel as [|fuel IH]; intros st Hfuel.
  - cbn [retry_loop]. destruct (Hf st) as [Hconv Hclock].
    destruct (f st) as [[a|e|] st1]; simpl in *; try discriminate; try contradiction.
    destruct (Z.geb_spec (now st1 - start_time) stop_max_delay); [discriminate|lia].
  - cbn [retry_loop]. destruct (Hf st) as [Hconv Hclock].
    destruct (f st) as [[a|e|] st1]; simpl in Hconv, Hclock;
      try discriminate; try contradiction.
    destruct (Z.geb_spec (now st1 - start_time) stop_max_delay); [discriminate|].
    unfold bind, sleep. apply IH. cbn [now]. lia.
Qed.

Lemma terminate_replica_converges (fuel : nat) (util : Env)
      (master_host namespace target : string) (exit_code : Z) :
  requests_take_time util ->
  (7 <= fuel)%nat ->
  converges (terminate_replica fuel util master_host namespace target exit_code).
Proof.
  intros Htime Hfuel st. unfold terminate_replica, retry, bind, get_now.
  destruct fuel as [|fuel]; [lia|].
  apply retry_loop_converges; [lia| |lia].
  intros st0. unfold perform.
  specialize (Htime st0 master_host namespace target "exit" [("exitCode", VInt exit_code)]).
  destruct (send_request _ _ _ _ _ _ _) as [[[]|e] dt]; simpl in *;
    split; try discriminate; lia.
Qed.

Lemma for_each_converges {A} (xs : list A) (body : A -> M unit) :
  (forall x, converges (body x)) -> converges (for_each xs body).
Proof.
  intros H. induction xs as [|x xs IH]; simpl.
  - intros st. discriminate.
  - apply converges_bind; auto.
Qed.

Lemma terminate_replicas_converges (fuel : nat) (api_client : Env)
      (namespace name : string) (replica : value) (num_targets exit_code : Z) :
  requests_take_time api_client ->
  (7 <= fuel)%nat ->
  converges (terminate_replicas fuel api_client namespace name replica num_targets
                                exit_code).
Proof.
  intros Htime Hfuel. unfold terminate_replicas.
  apply converges_bind; [apply converges_lift, get_labels_converges|]. intros labels.
  apply converges_bind; [apply converges_perform|]. intros _.
  apply for_each_converges. intros num.
  now apply terminate_replica_converges.
Qed.

(** With fuel for seven attempts per termination request the verifier
    always comes to an end: it returns a boolean or raises. *)
Lemma terminate_and_verify_start_time_converges
      (fuel : nat) (api_client : Env) (namespace name : string)
      (replica_type replica_index : value) (exit_code : Z) (expect_restart : value) :
  requests_take_time api_client ->
  (7 <= fuel)%nat ->
  converges (terminate_and_verify_start_time fuel api_client namespace name
                                             replica_type replica_index exit_code
                                             expect_restart).
Proof.
  intros Htime Hfuel. unfold terminate_and_verify_start_time.
  assert (Hbranch : forall phase (failed : Z -> bool),
             converges
               (wait_for_replica_type_in_phases api_client namespace name (VStr "ps")
                                                [phase] ;;
                restart_time <-
                  get_start_time_by_index api_client namespace name replica_type
                                          replica_index phase ;;
                if failed restart_time then ret false else ret true)).
  { intros phase failed.
    apply converges_bind; [apply wait_for_replica_type_converges|]. intros _.
    apply converges_bind; [apply get_start_time_converges|]. intros t.
    destruct (failed t); intros st; discriminate. }
  apply converges_bind; [apply wait_for_replica_type_converges|]. intros _.
  apply converges_bind; [apply get_start_time_converges|]. intros t0.
  apply converges_bind; [now apply terminate_replicas_converges|]. intros _.
  destruct (truthy expect_restart);
    [|destruct (andb (is_False expect_restart) (exit_code =? 0))].
  - apply (Hbranch "Running" (fun t => t <=? t0)).
  - apply (Hbranch "Succeeded" (fun t => negb (t =? t0))).
  - apply (Hbranch "Failed" (fun t => negb (t =? t0))).
Qed.

(** ** More on the condition poller *)

(** One iteration of the loop, by the answer of the fetch. *)
Lemma wait_for_condition_loop_step
      (fuel : nat) (client : Env) (namespace name : string)
      (expected_condition : list string) (version : string)
      (polling_interval : Z) (status_callback : callback) (end_time : Z)
      (st : State) (r : reply value) (dt : Z) :
  get_namespaced_custom_object client st true version namespace name = (r, dt) ->
  let st1 := answered st (EvGetTFJob true version namespace name) r dt in
  let next := wait_for_condition_loop fuel client namespace name expected_condition
                                      version polling_interval status_callback
                                      end_time in
  wait_for_condition_loop (S fuel) client namespace name expected_condition version
                          polling_interval status_callback end_time st
  = match r with
    | Ok v =>
        match inspect_results v expected_condition status_callback st1 with
        | (Return true, st2) => (Return v, st2)
        | (Return false, st2) =>
            rest_of_iteration next name namespace expected_condition
                              polling_interval end_time v st2
        | (Raise e, st2) => (Raise e, st2)
        | (Diverge, st2) => (Diverge, st2)
        end
    | Err MPTimeoutError =>
        rest_of_iteration next name namespace expected_condition
                          polling_interval end_time VNone st1
    | Err e => (Raise e, st1)
    end.
Proof.
  intros Hr st1 next. cbn [wait_for_condition_loop]. unfold bind at 1.
  rewrite (try_get_tfjob_answer _ _ _ _ _ _ _ Hr). fold st1.
  destruct r as [v|e].
  - unfold bind at 1.
    destruct (inspect_results v expected_condition status_callback st1)
      as [[[|]|e|] st2]; reflexivity.
  - destruct e; reflexivity.
Qed.

(** What an inspection adds to the log: nothing, or the call of the
    callback. *)
Lemma inspect_results_added (results : value) (expected_condition : list string)
      (cb : callback) (st st2 : State) (o : outcome bool) :
  inspect_results results expected_condition cb st = (o, st2) ->
  exists evs, added st st2 evs /\ last_fetch evs = None /\
              forallb (fun ev => match ev with EvSleep _ => false | _ => true end) evs
              = true.
Proof.
  rewrite inspect_results_find_match.
  destruct (truthy results).
  - destruct cb as [f|].
    + destruct (f st results) as [r dt]. intros H. injection H as <- <-.
      exists [EvCallback results r]. repeat split.
    + intros H. injection H as <- <-. exists []. repeat split.
  - intros H. injection H as <- <-. exists []. repeat split.
Qed.

Lemma py_get_returns (obj : value) (key : string) (default v : value) :
  py_get obj key default = Return v ->
  exists d, obj = VDict d /\
            (dict_get d key = Some v \/ (dict_get d key = None /\ v = default)).
Proof.
  destruct obj as [| | | | |d]; simpl; try discriminate.
  destruct (dict_get d key) as [v'|] eqn:E; intros H; injection H as <-; exists d;
    (split; [reflexivity|]); [left|right; split]; auto.
Qed.

Lemma py_in_true (v : value) (l : list string) :
  py_in v l = true -> exists s, v = VStr s /\ In s l.
Proof.
  destruct v as [| | |s| |]; simpl; try discriminate.
  intros H. apply existsb_exists in H. destruct H as (s' & Hin & Heq).
  apply String.eqb_eq in Heq. subst s'. exists s. auto.
Qed.

Lemma scan_conditions_true (cs : list value) (expected_condition : list string) :
  scan_conditions cs expected_condition = Return true ->
  exists c ty,
    In (VDict c) cs /\ In ty expected_condition /\
    (dict_get c "type" = Some (VStr ty) \/ (dict_get c "type" = None /\ ty = "")).
Proof.
  induction cs as [|c cs IH]; cbn [scan_conditions]; [discriminate|].
  destruct (py_get c "type" (VStr "")) as [v|e|] eqn:Eg; cbn [obind];
    try discriminate.
  destruct (py_in v expected_condition) eqn:Ein.
  - intros _. apply py_get_returns in Eg. destruct Eg as (d & -> & Hd).
    apply py_in_true in Ein. destruct Ein as (ty & -> & Hin).
    exists d, ty. split; [now left|]. split; [exact Hin|].
    destruct Hd as [Hd|[Hd Hv]]; [now left|].
    right. injection Hv as ->. auto.
  - intros H. destruct (IH H) as (c' & ty & Hc & Hty & Htype).
    exists c', ty. split; [now right|]. auto.
Qed.

Lemma find_match_true (results : value) (expected_condition : list string) :
  find_match results expected_condition = Return true ->
  has_condition_in results expected_condition.
Proof.
  unfold find_match, has_condition_in.
  destruct (py_get results "status" (VDict [])) as [status|e|] eqn:Es; cbn [obind];
    try discriminate.
  destruct (py_get status "conditions" (VList [])) as [conds|e|] eqn:Ec; cbn [obind];
    try discriminate.
  destruct (py_iter (py_or conds (VList []))) as [cs|e|] eqn:Ei; cbn [obind];
    try discriminate.
  intros H. destruct (scan_conditions_true _ _ H) as (c & ty & Hin & Hty & Htype).
  apply py_get_returns in Es. destruct Es as (fields & -> & Hs).
  apply py_get_returns in Ec. destruct Ec as (st & -> & Hc).
  assert (Hconds : conds = VList cs).
  { unfold py_or in Ei.
    destruct conds as [|b|z|s|l|d]; cbn [truthy] in Ei.
    - injection Ei as <-. contradiction.
    - destruct b; [discriminate|]. injection Ei as <-. contradiction.
    - destruct (negb (z =? 0)); [discriminate|]. injection Ei as <-. contradiction.
    - destruct (negb (String.eqb s "")) eqn:E; [|injection Ei as <-; contradiction].
      cbn [py_iter] in Ei. injection Ei as <-.
      destruct s as [|a s]; [discriminate|]. discriminate H.
    - destruct l; injection Ei as <-; [contradiction|reflexivity].
    - destruct d as [|[k v] d]; cbn [py_iter] in Ei; injection Ei as <-;
        [contradiction|discriminate H]. }
  subst conds.
  destruct Hs as [Hs|[_ Hs]];
    [|injection Hs as ->; destruct Hc as [Hc|[_ Hc]]; [discriminate|]].
  - destruct Hc as [Hc|[_ Hc]].
    + exists fields, st, cs, c, ty. auto 7.
    + injection Hc as ->. contradiction.
  - injection Hc as ->. contradiction.
Qed.

Lemma inspect_results_true (results : value) (expected_condition : list string)
      (cb : callback) (st st2 : State) :
  inspect_results results expected_condition cb st = (Return true, st2) ->
  truthy results = true /\ find_match results expected_condition = Return true.
Proof.
  rewrite inspect_results_find_match.
  destruct (truthy results); [|discriminate].
  destruct cb as [f|].
  - destruct (f st results) as [[[]|e] dt]; [|discriminate].
    intros H. injection H as Hm _. auto.
  - intros H. injection H as Hm _. auto.
Qed.

(** How an iteration without a match ends: the deadline check fails and the
    timeout is raised, or it passes and the loop goes on after the pause. *)
Lemma rest_of_iteration_cases (next : M value) (name namespace : string)
      (expected_condition : list string) (polling_interval end_time : Z)
      (results : value) (st2 st' : State) (o : outcome value) :
  rest_of_iteration next name namespace expected_condition polling_interval end_time
                    results st2 = (o, st') ->
  (now st2 + polling_interval > end_time /\
   o = Raise (JobTimeoutError
                (condition_timeout_message name namespace expected_condition) results) /\
   st' = st2)
  \/
  (now st2 + polling_interval <= end_time /\
   next (mkState (now st2 + pause_of polling_interval)
                 (EvSleep (pause_of polling_interval) :: log st2)) = (o, st')).
Proof.
  unfold rest_of_iteration, bind, get_now, raise, sleep, pause_of.
  destruct (Z.gtb_spec (now st2 + polling_interval) end_time) as [Hlate|Hearly].
  - intros H. injection H as <- <-. left. repeat split. lia.
  - intros H. right. split; [lia|exact H].
Qed.

Section PollerRuns.

Variables (client : Env) (namespace name : string)
          (expected_condition : list string) (version : string)
          (polling_interval : Z) (status_callback : callback) (end_time : Z).

Local Abbreviation loop fuel :=
  (wait_for_condition_loop fuel client namespace name expected_condition version
                           polling_interval status_callback end_time).

(** The loop returns nothing but a resource it has just fetched and found
    to show an expected condition. *)
Lemma wait_for_condition_loop_sound (fuel : nat) :
  forall st st' results,
    loop fuel st = (Return results, st') ->
    truthy results = true /\
    find_match results expected_condition = Return true /\
    exists evs, added st st' evs /\ last_fetch evs = Some (Ok results).
Proof.
  induction fuel as [|fuel IH]; intros st st' results; [discriminate|].
  destruct (get_namespaced_custom_object client st true version namespace name)
    as [r dt] eqn:Hr.
  rewrite (wait_for_condition_loop_step _ _ _ _ _ _ _ _ _ _ _ _ Hr).
  set (st1 := answered st (EvGetTFJob true version namespace name) r dt).
  assert (Hrest : forall v st2 evs1,
             added st1 st2 evs1 -> last_fetch evs1 = None ->
             rest_of_iteration (loop fuel) name namespace expected_condition
                               polling_interval end_time v st2
             = (Return results, st') ->
             truthy results = true /\
             find_match results expected_condition = Return true /\
             exists evs, added st st' evs /\ last_fetch evs = Some (Ok results)).
  { intros v st2 evs1 Hadd Hnone H.
    apply rest_of_iteration_cases in H.
    destruct H as [(_ & H & _)|(_ & H)]; [discriminate|].
    apply IH in H. destruct H as (Ht & Hm & evs & Hadd' & Hlast).
    split; [exact Ht|]. split; [exact Hm|].
    exists (evs ++ EvSleep (pause_of polling_interval) :: evs1
                ++ [EvGetTFJob true version namespace name r])%list.
    split.
    - unfold added in *. rewrite Hadd'. cbn [log]. rewrite Hadd.
      unfold st1, answered. cbn [log]. rewrite <- !app_assoc. cbn [app].
      rewrite <- app_assoc. reflexivity.
    - apply last_fetch_app. exact Hlast. }
  destruct r as [v|e].
  - destruct (inspect_results v expected_condition status_callback st1)
      as [o st2] eqn:Hi.
    destruct (inspect_results_added _ _ _ _ _ _ Hi) as (evs1 & Hadd & Hnone & _).
    destruct o as [[|]|e|]; try discriminate.
    + intros H. injection H as <- <-.
      apply inspect_results_true in Hi. destruct Hi as [Ht Hm].
      split; [exact Ht|]. split; [exact Hm|].
      exists (evs1 ++ [EvGetTFJob true version namespace name (Ok v)])%list. split.
      * unfold added in *. rewrite Hadd. unfold st1, answered. cbn [log].
        rewrite <- app_assoc. reflexivity.
      * rewrite last_fetch_app_none by exact Hnone. reflexivity.
    + apply (Hrest v st2 evs1 Hadd Hnone).
  - destruct e; try discriminate.
    apply (Hrest VNone st1 []); reflexivity.
Qed.

End PollerRuns.

(** X1.  Whatever [wait_for_condition] returns is a resource that the newest
    fetch of the run returned, that is not empty, and that shows one of the
    expected conditions. *)
Theorem wait_for_condition_sound
        (fuel : nat) (client : Env) (namespace name : string)
        (expected_condition : list string) (version : string)
        (timeout polling_interval : Z) (status_callback : callback)
        (st st' : State) (results : value) :
  wait_for_condition fuel client namespace name expected_condition version
                     timeout polling_interval status_callback st
  = (Return results, st') ->
  truthy results = true /\
  has_condition_in results expected_condition /\
  exists evs, added st st' evs /\ last_fetch evs = Some (Ok results).
Proof.
  unfold wait_for_condition, bind, get_now. intros H.
  apply wait_for_condition_loop_sound in H. destruct H as (Ht & Hm & Hevs).
  split; [exact Ht|]. split; [now apply find_match_true|exact Hevs].
Qed.

Lemma wait_for_condition_sound_witness :
  has_condition_in succeeded_job ["Succeeded"].
Proof.
  apply (wait_for_condition_sound
           3 (steady_cluster succeeded_job) "ns" "mnist" ["Succeeded"] "v1"
           (minutes 30) (seconds 30) None (mkState 0 [])
           (mkState 1000 [EvGetTFJob true "v1" "ns" "mnist" (Ok succeeded_job)])
           succeeded_job eq_refl).
Defined.

(** X2.  A job that [wait_for_job] returns has a condition whose type is
    exactly "Succeeded" or "Failed". *)
Theorem wait_for_job_returns_finished
        (fuel : nat) (client : Env) (namespace name version : string)
        (timeout polling_interval : Z) (status_callback : callback)
        (st st' : State) (job : value) :
  wait_for_job fuel client namespace name version timeout polling_interval
               status_callback st
  = (Return job, st') ->
  exists fields status cs c ty,
    job = VDict fields /\
    dict_get fields "status" = Some (VDict status) /\
    dict_get status "conditions" = Some (VList cs) /\
    In (VDict c) cs /\
    dict_get c "type" = Some (VStr ty) /\
    (ty = "Succeeded" \/ ty = "Failed").
Proof.
  unfold wait_for_job, wait_for_condition, bind, get_now. intros H.
  apply wait_for_condition_loop_sound in H. destruct H as (_ & Hm & _).
  apply find_match_true in Hm.
  destruct Hm as (fields & status & cs & c & ty & -> & Hs & Hc & Hin & Hty & Htype).
  exists fields, status, cs, c, ty.
  assert (Hcases : ty = "Succeeded" \/ ty = "Failed").
  { destruct Hty as [<-|[<-|[]]]; auto. }
  repeat split; auto.
  destruct Htype as [Htype|[_ ->]]; [exact Htype|].
  destruct Hcases; discriminate.
Qed.

Lemma wait_for_job_returns_finished_witness :
  exists fields status cs c ty,
    succeeded_job = VDict fields /\
    dict_get fields "status" = Some (VDict status) /\
    dict_get status "conditions" = Some (VList cs) /\
    In (VDict c) cs /\
    dict_get c "type" = Some (VStr ty) /\
    (ty = "Succeeded" \/ ty = "Failed").
Proof.
  apply (wait_for_job_returns_finished
           3 (steady_cluster succeeded_job) "ns" "mnist" "v1"
           (minutes 15) (seconds 30) None (mkState 0 [])
           (mkState 1000 [EvGetTFJob true "v1" "ns" "mnist" (Ok succeeded_job)])
           succeeded_job eq_refl).
Defined.

(** *** Errors of the poller *)


Section PollerErrors.

Variables (client : Env) (namespace name : string)
          (expected_condition : list string) (version : string)
          (polling_interval : Z) (status_callback : callback) (end_time : Z).

Local Abbreviation loop fuel :=
  (wait_for_condition_loop fuel client namespace name expected_condition version
                           polling_interval status_callback end_time).


(** A timeout of the loop is never early: when it is raised, one more
    polling interval would pass the deadline. *)
Lemma wait_for_condition_loop_timeout_late (fuel : nat) :
  collaborators_never_time_out_jobs client status_callback version namespace name ->
  forall st st' msg payload,
    loop fuel st = (Raise (JobTimeoutError msg payload), st') ->
    now st' + polling_interval > end_time /\
    msg = condition_timeout_message name namespace expected_condition.
Proof.
  intros [Hfetch Hcb].
  induction fuel as [|fuel IH]; intros st st' msg payload; [discriminate|].
  destruct (get_namespaced_custom_object client st true version namespace name)
    as [r dt] eqn:Hr.
  rewrite (wait_for_condition_loop_step _ _ _ _ _ _ _ _ _ _ _ _ Hr).
  pose proof (Hfetch st) as Hq. rewrite Hr in Hq. cbn [fst] in Hq.
  assert (Hrest : forall v st2,
             rest_of_iteration (loop fuel) name namespace expected_condition
                               polling_interval end_time v st2
             = (Raise (JobTimeoutError msg payload), st') ->
             now st' + polling_interval > end_time /\
             msg = condition_timeout_message name namespace expected_condition).
  { intros v st2 H. apply rest_of_iteration_cases in H.
    destruct H as [(Hlate & H & ->)|(_ & H)].
    - injection H as -> _. auto.
    - now apply IH in H. }
  destruct r as [v|e0].
  - destruct (inspect_results v expected_condition status_callback _)
      as [o st2] eqn:Hi.
    destruct (inspect_results_effect _ _ _ _ _ _ Hcb Hi) as [_ Hnt].
    destruct o as [[|]|e1|]; try discriminate.
    + apply Hrest.
    + intros H. injection H as -> _. exfalso. eapply Hnt; reflexivity.
  - destruct e0; try discriminate.
    + apply Hrest.
    + contradiction.
Qed.

End PollerErrors.



(** X4.  The [JobTimeoutError] of [wait_for_condition] is never early: it is
    raised at a time from which one more polling interval would end after
    the deadline, and its message names the job, the namespace and the
    expected conditions.  (The collaborators are assumed not to raise
    [JobTimeoutError] themselves.) *)
Theorem wait_for_condition_timeout_not_early
        (fuel : nat) (client : Env) (namespace name : string)
        (expected_condition : list string) (version : string)
        (timeout polling_interval : Z) (status_callback : callback)
        (st st' : State) (msg : string) (payload : value) :
  collaborators_never_time_out_jobs client status_callback version namespace name ->
  wait_for_condition fuel client namespace name expected_condition version
                     timeout polling_interval status_callback st
  = (Raise (JobTimeoutError msg payload), st') ->
  now st' + polling_interval > now st + timeout /\
  msg = condition_timeout_message name namespace expected_condition.
Proof.
  intros Hquiet. unfold wait_for_condition, bind, get_now.
  apply wait_for_condition_loop_timeout_late. exact Hquiet.
Qed.

Lemma wait_for_condition_timeout_not_early_witness :
  151000 + seconds 30 > 0 + seconds 60 /\
  condition_timeout_message "mnist" "ns" ["Succeeded"; "Failed"]
  = "Timeout waiting for job mnist in namespace ns to enter one of the conditions ['Succeeded', 'Failed'].".
Proof.
  apply (wait_for_condition_timeout_not_early
           5 flaky_cluster "ns" "mnist" ["Succeeded"; "Failed"] "v1"
           (seconds 60) (seconds 30) None (mkState 0 [])
           (mkState 151000
                    [EvGetTFJob true "v1" "ns" "mnist" (Err MPTimeoutError);
                     EvSleep 30000;
                     EvGetTFJob true "v1" "ns" "mnist" (Ok running_job)])
           _ VNone flaky_cluster_quiet eq_refl).
Defined.

(** X5.  A fetched resource whose "status" is present but is not a dict
    (null, for one) makes [wait_for_condition] raise [AttributeError] in
    that iteration, after the callback has run: of the status, only the
    condition sequence may be null. *)
Theorem wait_for_condition_status_not_dict
        (fuel : nat) (client : Env) (namespace name : string)
        (expected_condition : list string) (version : string)
        (polling_interval : Z) (status_callback : callback) (end_time : Z)
        (st : State) (dt : Z) (results : dict) (status : value) :
  get_namespaced_custom_object client st true version namespace name
  = (Ok (VDict results), dt) ->
  callback_returns status_callback (VDict results)
    (answered st (EvGetTFJob true version namespace name) (Ok (VDict results)) dt)
  = true ->
  dict_get results "status" = Some status ->
  is_dict status = false ->
  wait_for_condition_loop (S fuel) client namespace name expected_condition
                          version polling_interval status_callback end_time st
  = (Raise AttributeError,
     after_callback status_callback (VDict results)
       (answered st (EvGetTFJob true version namespace name) (Ok (VDict results)) dt)).
Proof.
  intros Hfetch Hcb Hstatus Hnot.
  rewrite (wait_for_condition_loop_step _ _ _ _ _ _ _ _ _ _ _ _ Hfetch).
  rewrite inspect_results_find_match.
  rewrite (dict_get_Some_cons _ _ _ Hstatus).
  assert (Hm : find_match (VDict results) expected_condition = Raise AttributeError).
  { unfold find_match, py_get. rewrite Hstatus. cbn [obind].
    destruct status; try reflexivity. discriminate. }
  rewrite Hm. unfold after_callback, callback_returns in *.
  destruct status_callback as [f|]; [|reflexivity].
  destruct (f _ (VDict results)) as [[[]|e] dt']; [reflexivity|discriminate].
Qed.

Lemma wait_for_condition_status_not_dict_witness :
  wait_for_condition_loop 1 (steady_cluster (VDict [("status", VNone)]))
                          "ns" "mnist" ["Succeeded"] "v1" (seconds 30) None
                          (minutes 30) (mkState 0 [])
  = (Raise AttributeError,
     mkState 1000 [EvGetTFJob true "v1" "ns" "mnist" (Ok (VDict [("status", VNone)]))]).
Proof.
  apply (wait_for_condition_status_not_dict
           0 (steady_cluster (VDict [("status", VNone)]))
           "ns" "mnist" ["Succeeded"] "v1" (seconds 30) None
           (minutes 30) (mkState 0 []) 1000 [("status", VNone)] VNone
           eq_refl eq_refl eq_refl eq_refl).
Defined.

(** *** The poller comes to an end *)

Lemma scan_conditions_converges (cs : list value) (expected_condition : list string) :
  scan_conditions cs expected_condition <> Diverge.
Proof.
  induction cs as [|c cs IH]; cbn [scan_conditions]; [discriminate|].
  destruct (py_get c "type" (VStr "")) as [v|e|] eqn:E; cbn [obind].
  - destruct (py_in v expected_condition); [discriminate|exact IH].
  - discriminate.
  - now apply py_get_converges in E.
Qed.

Lemma find_match_converges (results : value) (expected_condition : list string) :
  find_match results expected_condition <> Diverge.
Proof.
  unfold find_match.
  destruct (py_get results "status" (VDict [])) as [status|e|] eqn:E1; cbn [obind];
    [|discriminate|now apply py_get_converges in E1].
  destruct (py_get status "conditions" (VList [])) as [conds|e|] eqn:E2; cbn [obind];
    [|discriminate|now apply py_get_converges in E2].
  destruct (py_iter (py_or conds (VList []))) as [cs|e|] eqn:E3; cbn [obind].
  - apply scan_conditions_converges.
  - discriminate.
  - destruct (py_or conds (VList [])); discriminate.
Qed.

Lemma inspect_results_clock (results : value) (expected_condition : list string)
      (cb : callback) (st st2 : State) (o : outcome bool) :
  (forall f, cb = Some f -> forall st job, 0 <= snd (f st job)) ->
  inspect_results results expected_condition cb st = (o, st2) ->
  now st <= now st2 /\ o <> Diverge.
Proof.
  intros Hcb. rewrite inspect_results_find_match.
  pose proof (find_match_converges results expected_condition) as Hm.
  destruct (truthy results).
  - destruct cb as [f|].
    + specialize (Hcb f eq_refl st results).
      destruct (f st results) as [[[]|e] dt]; cbn [snd] in Hcb;
        intros H; injection H as <- <-; cbn [now answered];
        (split; [lia|]); [exact Hm|discriminate].
    + intros H. injection H as <- <-. split; [lia|exact Hm].
  - intros H. injection H as <- <-. split; [lia|discriminate].
Qed.

Section PollerFuel.

Variables (client : Env) (namespace name : string)
          (expected_condition : list string) (version : string)
          (polling_interval : Z) (status_callback : callback) (end_time : Z).

Hypothesis Htime :
  polls_take_time client status_callback true version namespace name.
Hypothesis Hpause : 0 < pause_of polling_interval.

Local Abbreviation loop fuel :=
  (wait_for_condition_loop fuel client namespace name expected_condition version
                           polling_interval status_callback end_time).

Lemma wait_for_condition_loop_converges (n : nat) :
  forall st,
    end_time - polling_interval - now st < pause_of polling_interval * Z.of_nat n ->
    fst (loop (S n) st) <> Diverge.
Proof.
  destruct Htime as [Hfetch Hcb].
  induction n as [|n IH]; intros st Hn.
  - destruct (get_namespaced_custom_object client st true version namespace name)
      as [r dt] eqn:Hr.
    rewrite (wait_for_condition_loop_step _ _ _ _ _ _ _ _ _ _ _ _ Hr).
    pose proof (Hfetch st) as Hdt. rewrite Hr in Hdt. cbn [snd] in Hdt.
    assert (Hrest : forall v st2,
               now st <= now st2 ->
               fst (rest_of_iteration (loop 0) name namespace expected_condition
                                      polling_interval end_time v st2) <> Diverge).
    { intros v st2 Hclock.
      destruct (rest_of_iteration _ _ _ _ _ _ v st2) as [o st'] eqn:E.
      apply rest_of_iteration_cases in E.
      destruct E as [(_ & -> & _)|(Hearly & _)]; [discriminate|lia]. }
    destruct r as [v|e].
    + destruct (inspect_results v expected_condition status_callback _)
        as [o st2] eqn:Hi.
      apply (inspect_results_clock _ _ _ _ _ _ Hcb) in Hi.
      destruct Hi as [Hclock Hconv]. cbn [now answered] in Hclock.
      destruct o as [[|]|e|]; try discriminate; [|contradiction].
      apply Hrest. lia.
    + destruct e; try discriminate.
      apply Hrest. cbn [now answered]. lia.
  - destruct (get_namespaced_custom_object client st true version namespace name)
      as [r dt] eqn:Hr.
    rewrite (wait_for_condition_loop_step _ _ _ _ _ _ _ _ _ _ _ _ Hr).
    pose proof (Hfetch st) as Hdt. rewrite Hr in Hdt. cbn [snd] in Hdt.
    assert (Hrest : forall v st2,
               now st <= now st2 ->
               fst (rest_of_iteration (loop (S n)) name namespace expected_condition
                                      polling_interval end_time v st2) <> Diverge).
    { intros v st2 Hclock.
      destruct (rest_of_iteration _ _ _ _ _ _ v st2) as [o st'] eqn:E.
      apply rest_of_iteration_cases in E.
      destruct E as [(_ & -> & _)|(Hearly & E)]; [discriminate|].
      change o with (fst (o, st')). rewrite <- E. apply IH. cbn [now]. lia. }
    destruct r as [v|e].
    + destruct (inspect_results v expected_condition status_callback _)
        as [o st2] eqn:Hi.
      apply (inspect_results_clock _ _ _ _ _ _ Hcb) in Hi.
      destruct Hi as [Hclock Hconv]. cbn [now answered] in Hclock.
      destruct o as [[|]|e|]; try discriminate; [|contradiction].
      apply Hrest. lia.
    + destruct e; try discriminate.
      apply Hrest. cbn [now answered]. lia.
Qed.

End PollerFuel.

(** X6.  [wait_for_condition] comes to an end, by a return or an exception,
    within [n + 1] iterations as soon as [n] pauses are longer than the
    timeout less one polling interval, when the pause
    ([polling_interval.seconds]) is not zero and neither the fetch nor the
    callback turn the clock back. *)
Theorem wait_for_condition_terminates
        (n : nat) (client : Env) (namespace name : string)
        (expected_condition : list string) (version : string)
        (timeout polling_interval : Z) (status_callback : callback) (st : State) :
  polls_take_time client status_callback true version namespace name ->
  0 < pause_of polling_interval ->
  timeout - polling_interval < pause_of polling_interval * Z.of_nat n ->
  fst (wait_for_condition (S n) client namespace name expected_condition version
                          timeout polling_interval status_callback st)
  <> Diverge.
Proof.
  intros Htime Hpause Hn. unfold wait_for_condition, bind, get_now.
  apply wait_for_condition_loop_converges; auto. lia.
Qed.

Lemma running_cluster_takes_time :
  polls_take_time running_cluster None true "v1" "ns" "mnist".
Proof.
  split.
  - intros st. simpl. lia.
  - intros f H. discriminate H.
Defined.

Lemma wait_for_condition_terminates_witness :
  fst (wait_for_condition 3 running_cluster "ns" "mnist" ["Succeeded"; "Failed"] "v1"
                          (seconds 60) (seconds 30) None (mkState 0 []))
  <> Diverge.
Proof.
  apply (wait_for_condition_terminates
           2 running_cluster "ns" "mnist" ["Succeeded"; "Failed"] "v1"
           (seconds 60) (seconds 30) None (mkState 0 []) running_cluster_takes_time).
  - reflexivity.
  - reflexivity.
Defined.

(** ** The pauses of the polling loops *)

Lemma pause_of_facts (polling_interval : Z) :
  (0 <= polling_interval < 1000 -> pause_of polling_interval = 0) /\
  (0 <= polling_interval -> 0 <= pause_of polling_interval <= polling_interval) /\
  (forall k, 0 <= k < 86400 -> polling_interval = seconds k ->
             pause_of polling_interval = polling_interval).
Proof.
  unfold pause_of, timedelta_seconds, seconds. repeat split.
  - intros H. rewrite Z.div_small by lia. reflexivity.
  - pose proof (Z.mod_pos_bound (polling_interval / 1000) 86400). lia.
  - assert (Hq : 0 <= polling_interval / 1000) by (apply Z.div_pos; lia).
    pose proof (Z.mod_le (polling_interval / 1000) 86400 Hq).
    pose proof (Z.mul_div_le polling_interval 1000). lia.
  - intros k Hk ->. rewrite Z.div_mul by lia. rewrite Z.mod_small by lia. reflexivity.
Qed.

Lemma emits_try_get_tfjob (P : event -> bool) (client : Env)
      (version namespace name : string) :
  (forall r, P (EvGetTFJob true version namespace name r) = true) ->
  emits P (try_get_tfjob client version namespace name).
Proof.
  intros HP st o st'. unfold try_get_tfjob, perform.
  destruct (get_namespaced_custom_object _ _ _ _ _ _) as [r dt].
  intros E.
  assert (Hst : st' = mkState (now st + dt)
                              (EvGetTFJob true version namespace name r :: log st)).
  { destruct r as [v|[]]; injection E as _ <-; reflexivity. }
  subst st'. exists [EvGetTFJob true version namespace name r].
  split; [reflexivity|]. simpl. now rewrite HP.
Qed.

Lemma emits_callback (P : event -> bool) (cb : callback) (job : value) :
  (forall r, P (EvCallback job r) = true) ->
  emits P (match cb with
           | Some f => invoke f job
           | None => ret tt
           end).
Proof.
  intros HP. destruct cb as [f|]; [|apply emits_ret].
  apply emits_perform. exact HP.
Qed.

Lemma emits_inspect_results (P : event -> bool) (results : value)
      (expected_condition : list string) (cb : callback) :
  (forall r, P (EvCallback results r) = true) ->
  emits P (inspect_results results expected_condition cb).
Proof.
  intros HP. unfold inspect_results.
  destruct (truthy results); [|apply emits_ret].
  apply emits_bind; [now apply emits_callback|]. intros _.
  apply emits_bind; [apply emits_lift|]. intros status.
  apply emits_bind; [apply emits_lift|]. intros conditions.
  apply emits_bind; [apply emits_lift|]. intros cs.
  apply emits_lift.
Qed.

Lemma emits_raise {A} (P : event -> bool) (e : exn) : emits P (@raise A e).
Proof. apply emits_pure. reflexivity. Qed.

Lemma wait_for_condition_loop_pauses
      (fuel : nat) (client : Env) (namespace name : string)
      (expected_condition : list string) (version : string)
      (polling_interval : Z) (status_callback : callback) (end_time : Z) :
  emits (is_pause_of polling_interval)
        (wait_for_condition_loop fuel client namespace name expected_condition version
                                 polling_interval status_callback end_time).
Proof.
  induction fuel as [|fuel IH]; cbn [wait_for_condition_loop]; [apply emits_lift|].
  apply emits_bind; [now apply emits_try_get_tfjob|]. intros results.
  apply emits_bind; [now apply emits_inspect_results|]. intros returned.
  destruct returned; [apply emits_ret|].
  apply emits_bind; [apply emits_get_now|]. intros t.
  destruct (t + polling_interval >? end_time); [apply emits_raise|].
  apply emits_bind; [|intros _; exact IH].
  apply emits_sleep. apply Z.eqb_refl.
Qed.

Lemma emits_get_tfjob_unless_deleted (P : event -> bool) (client : Env)
      (version namespace name : string) :
  (forall r, P (EvGetTFJob false version namespace name r) = true) ->
  emits P (get_tfjob_unless_deleted client version namespace name).
Proof.
  intros HP st o st'. unfold get_tfjob_unless_deleted, perform.
  destruct (get_namespaced_custom_object _ _ _ _ _ _) as [r dt].
  intros E.
  assert (Hst : st' = mkState (now st + dt)
                              (EvGetTFJob false version namespace name r :: log st)).
  { destruct r as [v|[]]; cbn [of_reply] in E;
      try (injection E as _ <-; reflexivity).
    destruct (status =? NOT_FOUND); injection E as _ <-; reflexivity. }
  subst st'. exists [EvGetTFJob false version namespace name r].
  split; [reflexivity|]. simpl. now rewrite HP.
Qed.

Lemma wait_for_delete_loop_pauses
      (fuel : nat) (client : Env) (namespace name version : string)
      (polling_interval : Z) (status_callback : callback) (end_time : Z) :
  emits (is_pause_of polling_interval)
        (wait_for_delete_loop fuel client namespace name version polling_interval
                              status_callback end_time).
Proof.
  induction fuel as [|fuel IH]; cbn [wait_for_delete_loop]; [apply emits_lift|].
  apply emits_bind; [now apply emits_get_tfjob_unless_deleted|]. intros [results|].
  - apply emits_bind; [now apply emits_callback|]. intros _.
    apply emits_bind; [apply emits_get_now|]. intros t.
    destruct (t + polling_interval >? end_time); [apply emits_raise|].
    apply emits_bind; [|intros _; exact IH].
    apply emits_sleep. apply Z.eqb_refl.
  - apply emits_ret.
Qed.

Lemma is_pause_of_sleep (polling_interval : Z) (evs : list event) (ms : Z) :
  forallb (is_pause_of polling_interval) evs = true ->
  In (EvSleep ms) evs ->
  ms = pause_of polling_interval.
Proof.
  intros Hall Hin. rewrite forallb_forall in Hall.
  specialize (Hall _ Hin). simpl in Hall. now apply Z.eqb_eq in Hall.
Qed.

(** X7.  Between two polls [wait_for_condition] sleeps for the seconds
    field of the polling interval, not for the interval: not at all when
    the interval is shorter than a second, never longer than the interval,
    and for the whole interval when that is a number of seconds below one
    day. *)
Theorem wait_for_condition_pauses
        (fuel : nat) (client : Env) (namespace name : string)
        (expected_condition : list string) (version : string)
        (timeout polling_interval : Z) (status_callback : callback)
        (st st' : State) (o : outcome value) :
  wait_for_condition fuel client namespace name expected_condition version
                     timeout polling_interval status_callback st
  = (o, st') ->
  exists evs,
    added st st' evs /\
    forall ms,
      In (EvSleep ms) evs ->
      ms = seconds (timedelta_seconds polling_interval) /\
      (0 <= polling_interval < 1000 -> ms = 0) /\
      (0 <= polling_interval -> 0 <= ms <= polling_interval) /\
      (forall k, 0 <= k < 86400 -> polling_interval = seconds k ->
                 ms = polling_interval).
Proof.
  unfold wait_for_condition, bind, get_now. intros H.
  apply wait_for_condition_loop_pauses in H. destruct H as (evs & Hadd & Hall).
  exists evs. split; [exact Hadd|]. intros ms Hin.
  rewrite (is_pause_of_sleep _ _ _ Hall Hin).
  destruct (pause_of_facts polling_interval) as (H1 & H2 & H3). auto.
Qed.

Lemma wait_for_condition_pauses_witness :
  exists evs,
    added (mkState 0 [])
          (mkState 151000
                   [EvGetTFJob true "v1" "ns" "mnist" (Err MPTimeoutError);
                    EvSleep 30000;
                    EvGetTFJob true "v1" "ns" "mnist" (Ok running_job)])
          evs /\
    forall ms,
      In (EvSleep ms) evs ->
      ms = seconds (timedelta_seconds (seconds 30)) /\
      (0 <= seconds 30 < 1000 -> ms = 0) /\
      (0 <= seconds 30 -> 0 <= ms <= seconds 30) /\
      (forall k, 0 <= k < 86400 -> seconds 30 = seconds k -> ms = seconds 30).
Proof.
  apply (wait_for_condition_pauses
           5 flaky_cluster "ns" "mnist" ["Succeeded"; "Failed"] "v1"
           (seconds 60) (seconds 30) None (mkState 0 []) _
           (Raise (JobTimeoutError
                     (condition_timeout_message "mnist" "ns" ["Succeeded"; "Failed"])
                     VNone))
           eq_refl).
Defined.

(** ** More on the wait for a deletion *)

(** One iteration of the loop, by the answer of the fetch. *)
Lemma wait_for_delete_loop_step
      (fuel : nat) (client : Env) (namespace name version : string)
      (polling_interval : Z) (status_callback : callback) (end_time : Z)
      (st : State) (r : reply value) (dt : Z) :
  get_namespaced_custom_object client st false version namespace name = (r, dt) ->
  let st1 := answered st (EvGetTFJob false version namespace name) r dt in
  let next := wait_for_delete_loop fuel client namespace name version polling_interval
                                   status_callback end_time in
  wait_for_delete_loop (S fuel) client namespace name version polling_interval
                       status_callback end_time st
  = match r with
    | Ok results =>
        match status_callback with
        | None =>
            rest_of_delete_iteration next name namespace polling_interval end_time st1
        | Some f =>
            let '(rc, dtc) := f st1 results in
            match rc with
            | Ok _ =>
                rest_of_delete_iteration next name namespace polling_interval end_time
                                         (answered st1 (EvCallback results) rc dtc)
            | Err e => (Raise e, answered st1 (EvCallback results) rc dtc)
            end
        end
    | Err (ApiException status) =>
        if status =? NOT_FOUND then (Return tt, st1)
        else (Raise (ApiException status), st1)
    | Err e => (Raise e, st1)
    end.
Proof.
  intros Hr st1 next. cbn [wait_for_delete_loop]. unfold bind at 1.
  rewrite (get_tfjob_unless_deleted_answer _ _ _ _ _ _ _ Hr). fold st1.
  destruct r as [results|e].
  - unfold bind at 1. destruct status_callback as [f|].
    + unfold invoke, perform. fold (answered st1 (EvCallback results)).
      destruct (f st1 results) as [[[]|e] dtc]; reflexivity.
    + reflexivity.
  - destruct e; try reflexivity.
    destruct (status =? NOT_FOUND); reflexivity.
Qed.

Lemma rest_of_delete_iteration_cases (next : M unit) (name namespace : string)
      (polling_interval end_time : Z) (st2 st' : State) (o : outcome unit) :
  rest_of_delete_iteration next name namespace polling_interval end_time st2 = (o, st') ->
  (now st2 + polling_interval > end_time /\
   o = Raise (TimeoutError (delete_timeout_message name namespace)) /\
   st' = st2)
  \/
  (now st2 + polling_interval <= end_time /\
   next (mkState (now st2 + pause_of polling_interval)
                 (EvSleep (pause_of polling_interval) :: log st2)) = (o, st')).
Proof.
  unfold rest_of_delete_iteration, bind, get_now, raise, sleep, pause_of.
  destruct (Z.gtb_spec (now st2 + polling_interval) end_time) as [Hlate|Hearly].
  - intros H. injection H as <- <-. left. repeat split. lia.
  - intros H. right. split; [lia|exact H].
Qed.

Section DeleteRuns.

Variables (client : Env) (namespace name version : string)
          (polling_interval : Z) (status_callback : callback) (end_time : Z).

Local Abbreviation loop fuel :=
  (wait_for_delete_loop fuel client namespace name version polling_interval
                        status_callback end_time).

(** The loop returns only on a not-found answer, and then no fetch of the
    run has raised before. *)
Lemma wait_for_delete_loop_sound (fuel : nat) :
  forall st st',
    loop fuel st = (Return tt, st') ->
    exists evs,
      added st st'
            (EvGetTFJob false version namespace name (Err (ApiException NOT_FOUND))
                        :: evs) /\
      forallb not_failed_fetch evs = true.
Proof.
  induction fuel as [|fuel IH]; intros st st'; [discriminate|].
  destruct (get_namespaced_custom_object client st false version namespace name)
    as [r dt] eqn:Hr.
  rewrite (wait_for_delete_loop_step _ _ _ _ _ _ _ _ _ _ _ Hr).
  set (st1 := answered st (EvGetTFJob false version namespace name) r dt).
  destruct r as [results|e].
  - assert (Hrest : forall st2 evs1,
               added st1 st2 evs1 -> forallb not_failed_fetch evs1 = true ->
               rest_of_delete_iteration (loop fuel) name namespace polling_interval
                                        end_time st2 = (Return tt, st') ->
               exists evs,
                 added st st'
                       (EvGetTFJob false version namespace name
                                   (Err (ApiException NOT_FOUND)) :: evs) /\
                 forallb not_failed_fetch evs = true).
    { intros st2 evs1 Hadd Hok H.
      apply rest_of_delete_iteration_cases in H.
      destruct H as [(_ & H & _)|(_ & H)]; [discriminate|].
      apply IH in H. destruct H as (evs & Hadd' & Hall).
      exists (evs ++ EvSleep (pause_of polling_interval) :: evs1
                  ++ [EvGetTFJob false version namespace name (Ok results)])%list.
      split.
      - unfold added in *. rewrite Hadd'. cbn [log]. rewrite Hadd.
        unfold st1, answered. cbn [log app]. rewrite <- !app_assoc. cbn [app].
        rewrite <- app_assoc. reflexivity.
      - rewrite forallb_app, Hall. cbn [forallb not_failed_fetch andb].
        rewrite forallb_app, Hok. reflexivity. }
    destruct status_callback as [f|].
    + destruct (f st1 results) as [[[]|e] dtc]; [|discriminate].
      apply (Hrest _ [EvCallback results (Ok tt)]); reflexivity.
    + apply (Hrest _ []); reflexivity.
  - destruct e; try discriminate.
    destruct (Z.eqb_spec status NOT_FOUND) as [->|Hne]; [|discriminate].
    intros H. injection H as <-. exists []. split; reflexivity.
Qed.

Hypothesis Htime :
  polls_take_time client status_callback false version namespace name.
Hypothesis Hpause : 0 < pause_of polling_interval.

Lemma wait_for_delete_loop_converges (n : nat) :
  forall st,
    end_time - polling_interval - now st < pause_of polling_interval * Z.of_nat n ->
    fst (loop (S n) st) <> Diverge.
Proof.
  destruct Htime as [Hfetch Hcb].
  assert (Hstep : forall m st,
             (forall st2,
                 now st <= now st2 ->
                 now st2 + polling_interval <= end_time ->
                 fst (loop m (mkState (now st2 + pause_of polling_interval)
                                      (EvSleep (pause_of polling_interval) :: log st2)))
                 <> Diverge) ->
             fst (loop (S m) st) <> Diverge).
  { intros m st Hnext.
    destruct (get_namespaced_custom_object client st false version namespace name)
      as [r dt] eqn:Hr.
    rewrite (wait_for_delete_loop_step _ _ _ _ _ _ _ _ _ _ _ Hr).
    pose proof (Hfetch st) as Hdt. rewrite Hr in Hdt. cbn [snd] in Hdt.
    assert (Hrest : forall st2,
               now st <= now st2 ->
               fst (rest_of_delete_iteration (loop m) name namespace polling_interval
                                             end_time st2) <> Diverge).
    { intros st2 Hclock.
      destruct (rest_of_delete_iteration _ _ _ _ _ st2) as [o st'] eqn:E.
      apply rest_of_delete_iteration_cases in E.
      destruct E as [(_ & -> & _)|(Hearly & E)]; [discriminate|].
      change o with (fst (o, st')). rewrite <- E. now apply Hnext. }
    destruct r as [results|e].
    - destruct status_callback as [f|].
      + pose proof (Hcb f eq_refl
                        (answered st (EvGetTFJob false version namespace name)
                                  (Ok results) dt) results) as Hdtc.
        destruct (f _ results) as [[[]|e] dtc]; [|discriminate].
        cbn [snd] in Hdtc. apply Hrest. cbn [now answered]. lia.
      + apply Hrest. cbn [now answered]. lia.
    - destruct e; try discriminate.
      destruct (status =? NOT_FOUND); discriminate. }
  induction n as [|n IH]; intros st Hn; apply Hstep; intros st2 Hclock Hearly.
  - lia.
  - apply IH. cbn [now]. lia.
Qed.

End DeleteRuns.

(** X8.  [wait_for_delete] returns normally only when the newest fetch
    answered not-found, and then the fetches of the run before that one all
    returned the job: none of them raised. *)
Theorem wait_for_delete_sound
        (fuel : nat) (client : Env) (namespace name version : string)
        (timeout polling_interval : Z) (status_callback : callback)
        (st st' : State) :
  wait_for_delete fuel client namespace name version timeout polling_interval
                  status_callback st
  = (Return tt, st') ->
  exists evs,
    log st' = (EvGetTFJob false version namespace name (Err (ApiException 404))
                          :: evs ++ log st)%list /\
    forallb not_failed_fetch evs = true.
Proof.
  unfold wait_for_delete, bind, get_now. intros H.
  apply wait_for_delete_loop_sound in H. exact H.
Qed.

Lemma wait_for_delete_sound_witness :
  exists evs,
    [EvGetTFJob false "v1" "ns" "mnist" (Err (ApiException 404));
     EvSleep 30000;
     EvGetTFJob false "v1" "ns" "mnist" (Ok running_job)]
    = (EvGetTFJob false "v1" "ns" "mnist" (Err (ApiException 404)) :: evs ++ [])%list /\
    forallb not_failed_fetch evs = true.
Proof.
  apply (wait_for_delete_sound
           5 deleted_after_first_fetch "ns" "mnist" "v1" (minutes 15) (seconds 30) None
           (mkState 0 []) (mkState 32000 _) eq_refl).
Defined.

(** X9.  [wait_for_delete] comes to an end, by a return or an exception,
    within [n + 1] iterations as soon as [n] pauses are longer than the
    timeout less one polling interval, when the pause is not zero and
    neither the fetch nor the callback turn the clock back. *)
Theorem wait_for_delete_terminates
        (n : nat) (client : Env) (namespace name version : string)
        (timeout polling_interval : Z) (status_callback : callback) (st : State) :
  polls_take_time client status_callback false version namespace name ->
  0 < pause_of polling_interval ->
  timeout - polling_interval < pause_of polling_interval * Z.of_nat n ->
  fst (wait_for_delete (S n) client namespace name version timeout polling_interval
                       status_callback st)
  <> Diverge.
Proof.
  intros Htime Hpause Hn. unfold wait_for_delete, bind, get_now.
  apply wait_for_delete_loop_converges; auto. lia.
Qed.

Lemma running_cluster_takes_time_sync :
  polls_take_time running_cluster None false "v1" "ns" "mnist".
Proof.
  split.
  - intros st. simpl. lia.
  - intros f H. discriminate H.
Defined.

Lemma wait_for_delete_terminates_witness :
  fst (wait_for_delete 3 running_cluster "ns" "mnist" "v1"
                       (seconds 60) (seconds 30) None (mkState 0 []))
  <> Diverge.
Proof.
  apply (wait_for_delete_terminates
           2 running_cluster "ns" "mnist" "v1" (seconds 60) (seconds 30) None
           (mkState 0 []) running_cluster_takes_time_sync).
  - reflexivity.
  - reflexivity.
Defined.

(** X10.  Between two polls [wait_for_delete] too sleeps for the seconds
    field of the polling interval: not at all when the interval is shorter
    than a second, and never longer than the interval. *)
Theorem wait_for_delete_pauses
        (fuel : nat) (client : Env) (namespace name version : string)
        (timeout polling_interval : Z) (status_callback : callback)
        (st st' : State) (o : outcome unit) :
  wait_for_delete fuel client namespace name version timeout polling_interval
                  status_callback st
  = (o, st') ->
  exists evs,
    added st st' evs /\
    forall ms,
      In (EvSleep ms) evs ->
      ms = seconds (timedelta_seconds polling_interval) /\
      (0 <= polling_interval < 1000 -> ms = 0) /\
      (0 <= polling_interval -> 0 <= ms <= polling_interval).
Proof.
  unfold wait_for_delete, bind, get_now. intros H.
  apply wait_for_delete_loop_pauses in H. destruct H as (evs & Hadd & Hall).
  exists evs. split; [exact Hadd|]. intros ms Hin.
  rewrite (is_pause_of_sleep _ _ _ Hall Hin).
  destruct (pause_of_facts polling_interval) as (H1 & H2 & H3). auto.
Qed.

Lemma wait_for_delete_pauses_witness :
  exists evs,
    added (mkState 0 [])
          (mkState 32000
                   [EvGetTFJob false "v1" "ns" "mnist" (Err (ApiException 404));
                    EvSleep 30000;
                    EvGetTFJob false "v1" "ns" "mnist" (Ok running_job)])
          evs /\
    forall ms,
      In (EvSleep ms) evs ->
      ms = seconds (timedelta_seconds (seconds 30)) /\
      (0 <= seconds 30 < 1000 -> ms = 0) /\
      (0 <= seconds 30 -> 0 <= ms <= seconds 30).
Proof.
  apply (wait_for_delete_pauses
           5 deleted_after_first_fetch "ns" "mnist" "v1" (minutes 15) (seconds 30) None
           (mkState 0 []) _ (Return tt) eq_refl).
Defined.

(** ** More on the termination of replicas *)

Section Retry.

Variables (util : Env) (master_host namespace target : string) (exit_code : Z).

Local Abbreviation request :=
  (perform (fun st => send_request util st master_host namespace target "exit"
                                   [("exitCode", VInt exit_code)])
           (EvSendRequest master_host namespace target "exit"
                          [("exitCode", VInt exit_code)])).

Lemma request_answer (st : State) :
  exists r dt,
    send_request util st master_host namespace target "exit"
                 [("exitCode", VInt exit_code)] = (r, dt) /\
    request st
    = (of_reply r,
       answered st (EvSendRequest master_host namespace target "exit"
                                  [("exitCode", VInt exit_code)]) r dt).
Proof.
  unfold perform.
  destruct (send_request util st master_host namespace target "exit"
                         [("exitCode", VInt exit_code)]) as [r dt].
  exists r, dt. split; reflexivity.
Qed.

(** The events of the retry loop: requests to the one target, and pauses. *)
Lemma terminate_replica_emits (fuel : nat) :
  emits (is_exit_request master_host namespace target exit_code)
        (terminate_replica fuel util master_host namespace target exit_code).
Proof.
  unfold terminate_replica, retry.
  apply emits_bind; [apply emits_get_now|]. intros start_time.
  apply emits_retry_loop; [reflexivity|].
  apply emits_perform. intros r. cbn [is_exit_request].
  rewrite !String.eqb_refl, Z.eqb_refl. reflexivity.
Qed.

(** The budget of the retry loop. *)
Lemma retry_loop_budget (start_time : Z) :
  requests_take_time util ->
  forall (fuel : nat) (n : Z) (st st' : State) (o : outcome unit),
    0 <= n ->
    60 - (now st - start_time) <= 10 * n ->
    retry_loop fuel 10 60 start_time request st = (o, st') ->
    exists evs, added st st' evs /\ Z.of_nat (count_requests evs) <= n + 1.
Proof.
  intros Htime. induction fuel as [|fuel IH]; intros n st st' o Hn Hbudget.
  - intros H. injection H as <- <-. exists []. split; [reflexivity|simpl; lia].
  - cbn [retry_loop].
    destruct (request_answer st) as (r & dt & Hr & ->).
    pose proof (Htime st master_host namespace target "exit"
                      [("exitCode", VInt exit_code)]) as Hdt.
    rewrite Hr in Hdt. cbn [snd] in Hdt.
    destruct r as [[]|e]; cbn [of_reply].
    + intros H. injection H as <- <-.
      eexists [_]. split; [reflexivity|simpl; lia].
    + cbn [now answered].
      destruct (Z.geb_spec (now st + dt - start_time) 60) as [Hstop|Hgo].
      * intros H. injection H as <- <-.
        eexists [_]. split; [reflexivity|simpl; lia].
      * unfold bind, sleep. cbn beta iota. intros H.
        apply (IH (n - 1)) in H; [| lia | cbn [now answered]; lia].
        destruct H as (evs & Hadd & Hcount).
        eexists (evs ++ [_; _])%list. split.
        -- unfold added in *. rewrite Hadd. cbn [log answered].
           rewrite <- app_assoc. reflexivity.
        -- assert (Happ : forall a b, count_requests (a ++ b)
                                     = (count_requests a + count_requests b)%nat).
           { intros a b. induction a as [|ev a IHa]; [reflexivity|].
             destruct ev; simpl; rewrite IHa; reflexivity. }
           rewrite Happ. simpl. lia.
Qed.

(** How the retry loop ends. *)
Lemma retry_loop_outcome (start_time : Z) :
  forall (fuel : nat) (st st' : State) (o : outcome unit),
    retry_loop fuel 10 60 start_time request st = (o, st') ->
    match o with
    | Return _ =>
        exists evs,
          log st' = EvSendRequest master_host namespace target "exit"
                                  [("exitCode", VInt exit_code)] (Ok tt)
                                  :: (evs ++ log st)%list /\
          forallb not_served evs = true
    | Raise e =>
        exists evs,
          log st' = EvSendRequest master_host namespace target "exit"
                                  [("exitCode", VInt exit_code)] (Err e)
                                  :: (evs ++ log st)%list /\
          forallb not_served evs = true /\
          now st' - start_time >= 60
    | Diverge => True
    end.
Proof.
  induction fuel as [|fuel IH]; intros st st' o.
  - intros H. injection H as <- <-. exact I.
  - cbn [retry_loop].
    destruct (request_answer st) as (r & dt & Hr & ->).
    destruct r as [[]|e]; cbn [of_reply].
    + intros H. injection H as <- <-. exists []. cbn [log answered now app].
      repeat split.
    + cbn [now answered].
      destruct (Z.geb_spec (now st + dt - start_time) 60) as [Hstop|Hgo].
      * intros H. injection H as <- <-. exists []. cbn [log now answered app].
        repeat split. lia.
      * unfold bind, sleep. cbn beta iota. intros H. apply IH in H.
        cbn [log now answered] in H.
        destruct o as [[]|e'|]; [| |exact I].
        -- destruct H as (evs & Hlog & Hall).
           eexists (evs ++ [_; _])%list. rewrite <- app_assoc. cbn [app].
           split; [exact Hlog|].
           rewrite forallb_app, Hall. reflexivity.
        -- destruct H as (evs & Hlog & Hall & Hlate).
           eexists (evs ++ [_; _])%list. rewrite <- app_assoc. cbn [app].
           split; [exact Hlog|]. split; [|exact Hlate].
           rewrite forallb_app, Hall. reflexivity.
Qed.

End Retry.

(** X11.  [terminate_replica] stays within its retry budget: when requests
    do not turn the clock back, a call sends at most seven exit requests,
    all to the given target and with the given exit code, with pauses of 10
    ms between them. *)
Theorem terminate_replica_budget
        (fuel : nat) (util : Env) (master_host namespace target : string)
        (exit_code : Z) (st st' : State) (o : outcome unit) :
  requests_take_time util ->
  terminate_replica fuel util master_host namespace target exit_code st = (o, st') ->
  exists evs,
    added st st' evs /\
    (count_requests evs <= 7)%nat /\
    forallb (is_exit_request master_host namespace target exit_code) evs = true.
Proof.
  intros Htime H.
  destruct (terminate_replica_emits util master_host namespace target exit_code fuel
                                    _ _ _ H) as (evs & Hadd & Hall).
  exists evs. split; [exact Hadd|]. split; [|exact Hall].
  unfold terminate_replica, retry, bind, get_now in H.
  apply (retry_loop_budget util master_host namespace target exit_code (now st) Htime
                           fuel 6) in H; [|lia|lia].
  destruct H as (evs' & Hadd' & Hcount).
  unfold added in *. rewrite Hadd in Hadd'. apply app_inv_tail in Hadd'.
  subst evs'. lia.
Qed.

Lemma quiet_cluster_takes_time : requests_take_time (quiet_cluster [] []).
Proof. intros st h ns t e p. simpl. lia. Defined.

Lemma terminate_replica_budget_witness :
  exists evs,
    added (mkState 0 [])
          (mkState 0 [EvSendRequest "https://master" "ns" "mnist-ps-0" "exit"
                                    [("exitCode", VInt 1)] (Ok tt)])
          evs /\
    (count_requests evs <= 7)%nat /\
    forallb (is_exit_request "https://master" "ns" "mnist-ps-0" 1) evs = true.
Proof.
  apply (terminate_replica_budget
           7 (quiet_cluster [] []) "https://master" "ns" "mnist-ps-0" 1
           (mkState 0 []) _ (Return tt) quiet_cluster_takes_time eq_refl).
Defined.

(** X12.  [terminate_replica] returns as soon as a request is answered, and
    no request of the call was answered before that one; when it raises,
    the exception is the answer to its newest request, no request of the
    call was answered, and at least 60 ms have passed since the call
    began. *)
Theorem terminate_replica_outcome
        (fuel : nat) (util : Env) (master_host namespace target : string)
        (exit_code : Z) (st st' : State) (o : outcome unit) :
  terminate_replica fuel util master_host namespace target exit_code st = (o, st') ->
  match o with
  | Return _ =>
      exists evs,
        log st' = EvSendRequest master_host namespace target "exit"
                                [("exitCode", VInt exit_code)] (Ok tt)
                                :: (evs ++ log st)%list /\
        forallb not_served evs = true
  | Raise e =>
      exists evs,
        log st' = EvSendRequest master_host namespace target "exit"
                                [("exitCode", VInt exit_code)] (Err e)
                                :: (evs ++ log st)%list /\
        forallb not_served evs = true /\
        now st' - now st >= 60
  | Diverge => True
  end.
Proof.
  unfold terminate_replica, retry, bind, get_now.
  apply retry_loop_outcome.
Qed.

Lemma terminate_replica_outcome_witness :
  exists evs,
    [EvSendRequest "https://master" "ns" "mnist-ps-0" "exit" [("exitCode", VInt 1)]
                   (Err (OtherError "connection refused"));
     EvSleep 10;
     EvSendRequest "https://master" "ns" "mnist-ps-0" "exit" [("exitCode", VInt 1)]
                   (Err (OtherError "connection refused"));
     EvSleep 10;
     EvSendRequest "https://master" "ns" "mnist-ps-0" "exit" [("exitCode", VInt 1)]
                   (Err (OtherError "connection refused"))]
    = EvSendRequest "https://master" "ns" "mnist-ps-0" "exit" [("exitCode", VInt 1)]
                    (Err (OtherError "connection refused")) :: (evs ++ [])%list /\
    forallb not_served evs = true /\
    80 - 0 >= 60.
Proof.
  apply (terminate_replica_outcome
           7 refusing_cluster "https://master" "ns" "mnist-ps-0" 1
           (mkState 0 []) (mkState 80 _) (Raise (OtherError "connection refused"))
           eq_refl).
Defined.

(** *** All the replicas of a type *)

Lemma get_labels_typed (name replica : string) :
  replica <> "" ->
  get_labels (VStr name) (VStr replica) VNone
  = Return [("group-name", VStr "kubeflow.org"); ("job-name", VStr name);
            ("replica-type", VStr (lower replica))].
Proof.
  intros H. unfold get_labels. cbn [truthy].
  destruct (String.eqb_spec replica "") as [->|_]; [contradiction|reflexivity].
Qed.

Lemma is_exit_request_termination (master_host namespace name replica : string)
      (num_targets exit_code num : Z) (ev : event) :
  In num (range num_targets) ->
  is_exit_request master_host namespace (target_of name replica num) exit_code ev
  = true ->
  is_termination_event master_host namespace name replica num_targets exit_code ev
  = true.
Proof.
  intros Hin Hev.
  assert (Hex : existsb (fun num => is_exit_request master_host namespace
                                                    (target_of name replica num)
                                                    exit_code ev)
                        (range num_targets) = true).
  { apply existsb_exists. exists num. auto. }
  destruct ev; try discriminate; cbn [is_termination_event]; rewrite Hex; reflexivity.
Qed.

Lemma terminate_replicas_emits (fuel : nat) (api_client : Env)
      (namespace name replica : string) (num_targets exit_code : Z) :
  replica <> "" ->
  emits (is_termination_event (host api_client) namespace name replica num_targets
                              exit_code)
        (terminate_replicas fuel api_client namespace name (VStr replica) num_targets
                            exit_code).
Proof.
  intros Hreplica. unfold terminate_replicas.
  rewrite (get_labels_typed name replica Hreplica).
  apply emits_bind_return. apply emits_bind.
  - apply emits_perform. intros r. cbn [is_termination_event].
    unfold selector_for. rewrite !String.eqb_refl, Z.eqb_refl. reflexivity.
  - intros _. apply emits_for_each. intros num Hnum.
    eapply emits_impl; [|apply terminate_replica_emits].
    intros ev. apply is_exit_request_termination. exact Hnum.
Qed.

(** X13.  Every event of [terminate_replicas], for a replica type that is a
    non-empty string, is the wait for the pods of that type to be Running
    (15 minutes at most), a pause of 10 ms, or an exit request with the
    given exit code to the configured host and to a target
    [{name}-{replica}-{i}] with [0 <= i < num_targets]; so no request at
    all is sent when [num_targets <= 0]. *)
Theorem terminate_replicas_targets
        (fuel : nat) (api_client : Env) (namespace name replica : string)
        (num_targets exit_code : Z) (st st' : State) (o : outcome unit) :
  replica <> "" ->
  terminate_replicas fuel api_client namespace name (VStr replica) num_targets
                     exit_code st = (o, st') ->
  exists evs,
    added st st' evs /\
    forallb (is_termination_event (host api_client) namespace name replica
                                  num_targets exit_code) evs = true /\
    (forall target, In target (requested_targets evs) ->
                    exists i, 0 <= i < num_targets /\
                              target = target_of name replica i) /\
    (num_targets <= 0 -> requested_targets evs = []).
Proof.
  intros Hreplica H.
  destruct (terminate_replicas_emits fuel api_client namespace name replica
                                     num_targets exit_code Hreplica _ _ _ H)
    as (evs & Hadd & Hall).
  exists evs. split; [exact Hadd|]. split; [exact Hall|].
  assert (Htargets : forall target,
             In target (requested_targets evs) ->
             exists i, 0 <= i < num_targets /\ target = target_of name replica i).
  { clear Hadd. induction evs as [|ev evs IH]; [intros t []|].
    cbn [forallb] in Hall. apply andb_prop in Hall. destruct Hall as [Hev Hevs].
    intros t Ht.
    destruct ev; cbn [requested_targets] in Ht; try (now apply IH).
    destruct Ht as [<-|Ht]; [|now apply IH].
    cbn [is_termination_event] in Hev. rewrite orb_false_r in Hev.
    apply existsb_exists in Hev. destruct Hev as (i & Hi & Hreq).
    exists i. split.
    - unfold range in Hi. apply in_map_iff in Hi. destruct Hi as (k & <- & Hk).
      apply in_seq in Hk. lia.
    - cbn [is_exit_request] in Hreq.
      repeat (apply andb_prop in Hreq; destruct Hreq as [Hreq ?]).
      now apply String.eqb_eq. }
  split; [exact Htargets|].
  intros Hnone. destruct (requested_targets evs) as [|t ts]; [reflexivity|].
  destruct (Htargets t (or_introl eq_refl)) as (i & Hi & _). lia.
Qed.

Lemma terminate_replicas_targets_witness :
  exists evs,
    added (mkState 0 [])
          (snd (terminate_replicas 7 (quiet_cluster [] []) "ns" "mnist" (VStr "Worker")
                                   2 1 (mkState 0 [])))
          evs /\
    forallb (is_termination_event "https://master" "ns" "mnist" "Worker" 2 1) evs
    = true /\
    (forall target, In target (requested_targets evs) ->
                    exists i, 0 <= i < 2 /\ target = target_of "mnist" "Worker" i) /\
    (2 <= 0 -> requested_targets evs = []).
Proof.
  apply (terminate_replicas_targets
           7 (quiet_cluster [] []) "ns" "mnist" "Worker" 2 1 (mkState 0 []) _
           (Return tt)).
  - discriminate.
  - reflexivity.
Defined.

(** X14.  When the wait for the pods to be Running raises,
    [terminate_replicas] raises the same exception and sends no exit
    request: the wait is all it has done. *)
Theorem terminate_replicas_needs_running_pods
        (fuel : nat) (api_client : Env) (namespace name replica : string)
        (num_targets exit_code : Z) (st : State) (e : exn) (dt : Z) :
  replica <> "" ->
  wait_for_pods_to_be_in_phases api_client st namespace
                                (selector_for name (lower replica)) ["Running"]
                                (minutes 15)
  = (Err e, dt) ->
  terminate_replicas fuel api_client namespace name (VStr replica) num_targets
                     exit_code st
  = (Raise e,
     mkState (now st + dt)
             (EvWaitForPods namespace (selector_for name (lower replica)) ["Running"]
                            (minutes 15) (Err e) :: log st)).
Proof.
  intros Hreplica Hwait. unfold terminate_replicas.
  rewrite (get_labels_typed name replica Hreplica).
  unfold bind, lift, perform. fold (selector_for name (lower replica)).
  rewrite Hwait. reflexivity.
Qed.

Lemma terminate_replicas_needs_running_pods_witness :
  terminate_replicas 7 pending_cluster "ns" "mnist" (VStr "PS") 3 0 (mkState 0 [])
  = (Raise (TimeoutError "pods are not running"),
     mkState 900000
             [EvWaitForPods "ns" "group-name=kubeflow.org,job-name=mnist,replica-type=ps"
                            ["Running"] (minutes 15)
                            (Err (TimeoutError "pods are not running"))]).
Proof.
  apply (terminate_replicas_needs_running_pods
           7 pending_cluster "ns" "mnist" "PS" 3 0 (mkState 0 [])
           (TimeoutError "pods are not running") 900000).
  - discriminate.
  - reflexivity.
Defined.

Lemma requested_targets_app (evs older : list event) :
  requested_targets (evs ++ older)
  = (requested_targets evs ++ requested_targets older)%list.
Proof.
  induction evs as [|ev evs IH]; [reflexivity|].
  destruct ev; simpl; rewrite IH; reflexivity.
Qed.

Section Served.

Variables (api_client : Env) (namespace name replica : string) (exit_code : Z).
Hypothesis Hserved : requests_served api_client.

Lemma terminate_replica_served (fuel : nat) (target : string) (st : State) :
  exists st',
    terminate_replica (S fuel) api_client (host api_client) namespace target exit_code st
    = (Return tt, st') /\
    requested_targets (log st') = target :: requested_targets (log st).
Proof.
  unfold terminate_replica, retry, bind, get_now. cbn [retry_loop]. unfold perform.
  pose proof (Hserved st (host api_client) namespace target "exit"
                      [("exitCode", VInt exit_code)]) as H.
  destruct (send_request _ _ _ _ _ _ _) as [r dt]. cbn [fst] in H. subst r.
  eexists. split; reflexivity.
Qed.

Lemma terminate_each_served (fuel : nat) (nums : list Z) :
  forall st,
  exists st',
    for_each nums
             (fun num =>
                terminate_replica (S fuel) api_client (host api_client) namespace
                                  ((name ++ "-" ++ py_str (VStr replica)) ++ "-"
                                   ++ py_str (VInt num))
                                  exit_code) st
    = (Return tt, st') /\
    requested_targets (log st')
    = (rev (map (target_of name replica) nums) ++ requested_targets (log st))%list.
Proof.
  induction nums as [|num nums IH]; intros st.
  - exists st. split; reflexivity.
  - cbn [for_each]. unfold bind.
    destruct (terminate_replica_served
                fuel ((name ++ "-" ++ py_str (VStr replica)) ++ "-" ++ py_str (VInt num))
                st) as (st1 & -> & Hst1).
    destruct (IH st1) as (st' & -> & Hst').
    exists st'. split; [reflexivity|].
    rewrite Hst', Hst1. cbn [map rev]. rewrite <- app_assoc. reflexivity.
Qed.

End Served.

(** X15.  When the pods get to run and every exit request is answered,
    [terminate_replicas] returns after exactly one request per replica, to
    the targets [{name}-{replica}-0], ..., [{name}-{replica}-{n-1}] in that
    order. *)
Theorem terminate_replicas_in_order
        (fuel : nat) (api_client : Env) (namespace name replica : string)
        (num_targets exit_code : Z) (st : State) (dt : Z) :
  replica <> "" ->
  requests_served api_client ->
  wait_for_pods_to_be_in_phases api_client st namespace
                                (selector_for name (lower replica)) ["Running"]
                                (minutes 15)
  = (Ok tt, dt) ->
  exists st',
    terminate_replicas (S fuel) api_client namespace name (VStr replica) num_targets
                       exit_code st
    = (Return tt, st') /\
    rev (requested_targets (log st'))
    = (rev (requested_targets (log st))
       ++ map (target_of name replica) (range num_targets))%list.
Proof.
  intros Hreplica Hserved Hwait. unfold terminate_replicas.
  rewrite (get_labels_typed name replica Hreplica).
  unfold bind at 1. unfold lift. unfold bind at 1.
  unfold perform. fold (selector_for name (lower replica)).
  rewrite Hwait. cbn [of_reply].
  destruct (terminate_each_served
              api_client namespace name replica exit_code Hserved fuel
              (range num_targets)
              (mkState (now st + dt)
                       (EvWaitForPods namespace (selector_for name (lower replica))
                                      ["Running"] (minutes 15) (Ok tt) :: log st)))
    as (st' & Hrun & Hlog).
  exists st'. split; [exact Hrun|].
  rewrite Hlog. cbn [log requested_targets].
  rewrite rev_app_distr, rev_involutive. reflexivity.
Qed.

Lemma quiet_cluster_serves : requests_served (quiet_cluster [] []).
Proof. intros st h ns t e p. reflexivity. Defined.

Lemma terminate_replicas_in_order_witness :
  exists st',
    terminate_replicas 1 (quiet_cluster [] []) "ns" "mnist" (VStr "worker") 3 0
                       (mkState 0 [])
    = (Return tt, st') /\
    rev (requested_targets (log st'))
    = (rev (requested_targets [])
       ++ map (target_of "mnist" "worker") (range 3))%list.
Proof.
  apply (terminate_replicas_in_order
           0 (quiet_cluster [] []) "ns" "mnist" "worker" 3 0 (mkState 0 []) 0).
  - discriminate.
  - exact quiet_cluster_serves.
  - reflexivity.
Defined.

(** ** More on the restart verifier *)

Lemma terminate_and_verify_shape
      (fuel : nat) (api_client : Env) (namespace name : string)
      (replica_type replica_index : value) (exit_code : Z) (expect_restart : value) :
  terminate_and_verify_start_time fuel api_client namespace name replica_type
                                  replica_index exit_code expect_restart
  = (wait_for_replica_type_in_phases api_client namespace name (VStr "ps") ["Running"] ;;
     first_start_time <-
       get_start_time_by_index api_client namespace name replica_type replica_index
                               "Running" ;;
     terminate_replicas fuel api_client namespace name (VStr "ps") 1 exit_code ;;
     verify_phase api_client namespace name replica_type replica_index
                  (final_phase expect_restart exit_code)
                  (failed_restart expect_restart first_start_time)).
Proof.
  unfold terminate_and_verify_start_time, verify_phase, final_phase, failed_restart.
  destruct (truthy expect_restart); [reflexivity|].
  destruct (andb (is_False expect_restart) (exit_code =? 0)); reflexivity.
Qed.

Lemma get_start_time_returns (api_client : Env) (namespace name : string)
      (replica_type replica_index : value) (phase : string)
      (st st' : State) (t : Z) :
  get_start_time_by_index api_client namespace name replica_type replica_index phase st
  = (Return t, st') ->
  exists selector,
    log st' = EvGetContainerStartTime namespace selector replica_index phase (Ok t)
                                      :: log st.
Proof.
  unfold get_start_time_by_index, bind, lift, perform.
  destruct (get_labels (VStr name) replica_type VNone) as [labels|e|];
    try discriminate.
  destruct (get_container_start_time _ _ _ _ _ _) as [[t'|e] dt]; [|discriminate].
  intros H. injection H as <- <-. eexists. reflexivity.
Qed.

Lemma wait_for_ps_returns (api_client : Env) (namespace name : string)
      (phases : list string) (st st' : State) :
  wait_for_replica_type_in_phases api_client namespace name (VStr "ps") phases st
  = (Return tt, st') ->
  log st' = EvWaitForPods namespace (selector_for name "ps") phases (minutes 30) (Ok tt)
                          :: log st.
Proof.
  rewrite wait_for_ps.
  destruct (wait_for_pods_to_be_in_phases _ _ _ _ _ _) as [[[]|e] dt]; [|discriminate].
  intros H. injection H as <-. reflexivity.
Qed.

(** The last part of the verifier, from a state whose log has recorded the
    start times [times]. *)
Lemma verify_phase_cases (api_client : Env) (namespace name : string)
      (replica_type replica_index : value) (phase : string) (failed : Z -> bool)
      (st st' : State) (o : outcome bool) :
  verify_phase api_client namespace name replica_type replica_index phase failed st
  = (o, st') ->
  (exists t1 selector,
      o = Return (negb (failed t1)) /\
      log st' = EvGetContainerStartTime namespace selector replica_index phase (Ok t1)
                :: EvWaitForPods namespace (selector_for name "ps") [phase]
                                 (minutes 30) (Ok tt)
                :: log st /\
      start_times (log st') = t1 :: start_times (log st))
  \/
  ((forall b, o <> Return b) /\ start_times (log st') = start_times (log st)).
Proof.
  unfold verify_phase. unfold bind at 1.
  destruct (wait_for_replica_type_in_phases _ _ _ _ _ st) as [o1 s1] eqn:E1.
  pose proof (emits_no_start_time name _ _ _ _ (wait_for_ps_emits _ _ _ _) E1) as H1.
  destruct o1 as [[]|e1|];
    try (intros E; injection E as <- <-; right; split; [discriminate|exact H1]).
  apply wait_for_ps_returns in E1.
  unfold bind at 1.
  destruct (get_start_time_by_index _ _ _ _ _ _ s1) as [o2 s2] eqn:E2.
  pose proof (get_start_time_records _ _ _ _ _ _ _ _ _ E2) as H2. rewrite H1 in H2.
  destruct o2 as [t1|e2|];
    try (intros E; injection E as <- <-; right; split; [discriminate|exact H2]).
  apply get_start_time_returns in E2. destruct E2 as (selector & E2).
  intros E. left. exists t1, selector.
  assert (Hres : o = Return (negb (failed t1)) /\ st' = s2).
  { destruct (failed t1); unfold ret in E; injection E as <- <-; split; reflexivity. }
  destruct Hres as [-> ->]. rewrite E2, E1. auto.
Qed.

(** A whole run: a verdict after two recorded start times, or no verdict
    and fewer than two. *)
Lemma terminate_and_verify_cases
      (fuel : nat) (api_client : Env) (namespace name : string)
      (replica_type replica_index : value) (exit_code : Z) (expect_restart : value)
      (st st' : State) (o : outcome bool) :
  terminate_and_verify_start_time fuel api_client namespace name replica_type
                                  replica_index exit_code expect_restart st
  = (o, st') ->
  (exists t0 t1 selector older,
      o = Return (negb (failed_restart expect_restart t0 t1)) /\
      log st' = EvGetContainerStartTime namespace selector replica_index
                                        (final_phase expect_restart exit_code) (Ok t1)
                :: EvWaitForPods namespace (selector_for name "ps")
                                 [final_phase expect_restart exit_code]
                                 (minutes 30) (Ok tt)
                :: older /\
      start_times (log st') = t1 :: t0 :: start_times (log st))
  \/
  ((forall b, o <> Return b) /\
   (start_times (log st') = start_times (log st) \/
    exists t0, start_times (log st') = t0 :: start_times (log st))).
Proof.
  rewrite terminate_and_verify_shape. unfold bind at 1.
  destruct (wait_for_replica_type_in_phases _ _ _ _ _ st) as [o1 s1] eqn:E1.
  pose proof (emits_no_start_time name _ _ _ _ (wait_for_ps_emits _ _ _ _) E1) as H1.
  destruct o1 as [[]|e1|];
    try (intros E; injection E as <- <-; right; split; [discriminate|now left]).
  unfold bind at 1.
  destruct (get_start_time_by_index _ _ _ _ _ _ s1) as [o2 s2] eqn:E2.
  apply get_start_time_records in E2. rewrite H1 in E2.
  destruct o2 as [t0|e2|];
    try (intros E; injection E as <- <-; right; split; [discriminate|now left]).
  unfold bind at 1.
  destruct (terminate_replicas _ _ _ _ _ _ _ s2) as [o3 s3] eqn:E3.
  pose proof (emits_no_start_time name _ _ _ _ (terminate_ps_emits _ _ _ _ _) E3) as H3.
  rewrite E2 in H3.
  destruct o3 as [[]|e3|];
    try (intros E; injection E as <- <-; right; split;
         [discriminate|right; now exists t0]).
  intros E. apply verify_phase_cases in E.
  destruct E as [(t1 & selector & -> & Hlog & Htimes)|(Hno & Htimes)].
  - left. exists t0, t1, selector, (log s3).
    rewrite Htimes, H3. auto.
  - right. split; [exact Hno|]. right. exists t0. now rewrite Htimes.
Qed.

(** X16.  With [expect_restart] false (or anything falsy), a run of
    [terminate_and_verify_start_time] that recorded the start times [t0] and
    [t1] returns [True] exactly when [t1 = t0]. *)
Theorem terminate_and_verify_no_restart
        (fuel : nat) (api_client : Env) (namespace name : string)
        (replica_type replica_index : value) (exit_code : Z) (expect_restart : value)
        (st st' : State) (o : outcome bool) (t0 t1 : Z) :
  truthy expect_restart = false ->
  terminate_and_verify_start_time fuel api_client namespace name replica_type
                                  replica_index exit_code expect_restart st
  = (o, st') ->
  start_times (log st') = t1 :: t0 :: start_times (log st) ->
  exists b, o = Return b /\ (b = true <-> t1 = t0).
Proof.
  intros Hfalsy H Htimes. apply terminate_and_verify_cases in H.
  destruct H as [(t0' & t1' & sel & older & -> & _ & Htimes')
                |(_ & [Htimes'|(t0' & Htimes')])].
  - rewrite Htimes' in Htimes. injection Htimes as -> ->.
    unfold failed_restart. rewrite Hfalsy. rewrite negb_involutive.
    exists (t1 =? t0). split; [reflexivity|]. apply Z.eqb_eq.
  - rewrite Htimes' in Htimes. now apply longer_list_differs in Htimes.
  - rewrite Htimes' in Htimes. now apply longer_list_differs_1 in Htimes.
Qed.

Lemma terminate_and_verify_no_restart_witness :
  exists b, Return true = Return b /\ (b = true <-> 0 = 0).
Proof.
  apply (terminate_and_verify_no_restart
           7 still_cluster "ns" "mnist" (VStr "ps") (VInt 0) 0 (VBool false)
           (mkState 0 [])
           (snd (terminate_and_verify_start_time
                   7 still_cluster "ns" "mnist" (VStr "ps") (VInt 0) 0 (VBool false)
                   (mkState 0 [])))
           (Return true) 0 0);
    reflexivity.
Defined.

(** X17.  [terminate_and_verify_start_time] returns a verdict only at the
    end of the whole protocol: its two newest events are then a successful
    wait for the "ps" pods to be in the final phase and a successful lookup
    of the start time in that phase, and two start times were recorded in
    the run.  The final phase is Running when [expect_restart] is truthy,
    Succeeded when it is [False] itself and the exit code is 0, and Failed
    otherwise.  So a failure of a collaborator never gives [False]. *)
Theorem terminate_and_verify_verdict
        (fuel : nat) (api_client : Env) (namespace name : string)
        (replica_type replica_index : value) (exit_code : Z) (expect_restart : value)
        (st st' : State) (b : bool) :
  terminate_and_verify_start_time fuel api_client namespace name replica_type
                                  replica_index exit_code expect_restart st
  = (Return b, st') ->
  exists t0 t1 selector older phase,
    phase = (if truthy expect_restart then "Running"
             else if andb (is_False expect_restart) (exit_code =? 0) then "Succeeded"
                  else "Failed") /\
    log st' = EvGetContainerStartTime namespace selector replica_index phase (Ok t1)
              :: EvWaitForPods namespace (selector_for name "ps") [phase]
                               (minutes 30) (Ok tt)
              :: older /\
    start_times (log st') = t1 :: t0 :: start_times (log st) /\
    b = negb (if truthy expect_restart then t1 <=? t0 else negb (t1 =? t0)).
Proof.
  intros H. apply terminate_and_verify_cases in H.
  destruct H as [(t0 & t1 & sel & older & Hb & Hlog & Htimes)|(Hno & _)].
  - exists t0, t1, sel, older, (final_phase expect_restart exit_code).
    injection Hb as ->. repeat split; assumption.
  - exfalso. apply (Hno b). reflexivity.
Qed.

Lemma terminate_and_verify_verdict_witness :
  exists t0 t1 selector older phase,
    phase = "Failed" /\
    log (snd (terminate_and_verify_start_time
                7 still_cluster "ns" "mnist" (VStr "ps") (VInt 0) 0 VNone
                (mkState 0 [])))
    = EvGetContainerStartTime "ns" selector (VInt 0) phase (Ok t1)
      :: EvWaitForPods "ns" (selector_for "mnist" "ps") [phase] (minutes 30) (Ok tt)
      :: older /\
    start_times (log (snd (terminate_and_verify_start_time
                             7 still_cluster "ns" "mnist" (VStr "ps") (VInt 0) 0 VNone
                             (mkState 0 []))))
    = t1 :: t0 :: start_times [] /\
    true = negb (negb (t1 =? t0)).
Proof.
  apply (terminate_and_verify_verdict
           7 still_cluster "ns" "mnist" (VStr "ps") (VInt 0) 0 VNone
           (mkState 0 []) _ true).
  reflexivity.
Defined.

(** ** More on labels, selectors and totals *)

Lemma lower_empty (s : string) : String.eqb (lower s) "" = String.eqb s "".
Proof. destruct s; reflexivity. Qed.

Lemma append_empty_r (s : string) : s ++ "" = s.
Proof. induction s as [|c s IH]; simpl; [reflexivity|now rewrite IH]. Qed.

Lemma append_assoc_r (a b c : string) : (a ++ b) ++ c = a ++ b ++ c.
Proof. induction a as [|x a IH]; simpl; [reflexivity|now rewrite IH]. Qed.

(** X18.  The replica type counts up to case: two replica types that are
    equal once lower-cased give the same labels and the same selector. *)
Theorem get_labels_case_insensitive
        (name replica_index : value) (replica_type replica_type' : string) :
  lower replica_type = lower replica_type' ->
  get_labels name (VStr replica_type) replica_index
  = get_labels name (VStr replica_type') replica_index.
Proof.
  intros H. unfold get_labels. cbn [truthy].
  rewrite <- (lower_empty replica_type), <- (lower_empty replica_type'), H.
  reflexivity.
Qed.

Lemma get_labels_case_insensitive_witness :
  get_labels (VStr "mnist") (VStr "PS") VNone
  = get_labels (VStr "mnist") (VStr "ps") VNone.
Proof.
  apply (get_labels_case_insensitive (VStr "mnist") VNone "PS" "ps" eq_refl).
Defined.

(** X19.  The selector of the labels of a job name, an optional replica
    type and an optional replica index is the group label, the job-name
    label, the lower-cased replica type unless it is missing or empty, and
    the replica index unless it is missing or zero, in this order. *)
Theorem to_selector_get_labels
        (name : string) (replica_type : option string) (replica_index : option Z) :
  exists labels,
    get_labels (VStr name) (opt_str replica_type) (opt_int replica_index)
    = Return labels /\
    to_selector labels = selector_text name replica_type replica_index.
Proof.
  unfold get_labels, selector_text.
  destruct replica_type as [s|]; cbn [opt_str truthy];
    [destruct (String.eqb s "")|]; cbn [negb obind];
    (destruct replica_index as [i|]; cbn [opt_int truthy];
     [destruct (i =? 0)|]; cbn [negb];
     eexists; (split; [reflexivity|]);
     rewrite to_selector_pairs; unfold selector_of_pairs, render_label;
     cbn [dict_set String.eqb Ascii.eqb Bool.eqb map join fst snd py_str py_repr
          TF_JOB_NAME_LABEL];
     simpl; rewrite ?append_empty_r, ?append_assoc_r; simpl;
     rewrite ?append_assoc_r; reflexivity).
Qed.

(** X20.  [get_labels] raises exactly when the replica type is truthy and
    is not a string, and then it raises [TypeError]; the name and the
    replica index may be any object. *)
Theorem get_labels_raises
        (name replica_type replica_index : value) (e : exn) :
  get_labels name replica_type replica_index = Raise e <->
  truthy replica_type = true /\ (forall s, replica_type <> VStr s) /\ e = TypeError.
Proof.
  unfold get_labels. split.
  - destruct (truthy replica_type) eqn:Et; cbn [obind]; [|discriminate].
    destruct replica_type as [| | |s| |]; cbn [obind]; try discriminate;
      intros H; injection H as <-; repeat split; discriminate.
  - intros (Et & Hns & ->). rewrite Et.
    destruct replica_type as [| | |s| |]; try reflexivity.
    exfalso. apply (Hns s). reflexivity.
Qed.

(** X21.  [job_succeeded] takes a job without a status, or with a status
    without conditions, as not succeeded; a status that is present but is
    not a dict (null, for one) makes it raise [AttributeError]. *)
Theorem job_succeeded_defaults (tfjob : dict) :
  (dict_get tfjob "status" = None -> job_succeeded (VDict tfjob) = Return false) /\
  (forall status,
      dict_get tfjob "status" = Some (VDict status) ->
      dict_get status "conditions" = None ->
      job_succeeded (VDict tfjob) = Return false) /\
  (forall status,
      dict_get tfjob "status" = Some status ->
      is_dict status = false ->
      job_succeeded (VDict tfjob) = Raise AttributeError).
Proof.
  unfold job_succeeded, py_get. repeat split.
  - intros ->. reflexivity.
  - intros status -> Hc. cbn [obind]. rewrite Hc. reflexivity.
  - intros status -> Hnot. cbn [obind].
    destruct status; try reflexivity. discriminate.
Qed.

Lemma job_succeeded_defaults_witness :
  job_succeeded (VDict [("metadata", VDict [("name", VStr "mnist")])]) = Return false /\
  job_succeeded (VDict [("status", VDict [("startTime", VStr "10:00:00")])])
  = Return false /\
  job_succeeded (VDict [("status", VNone)]) = Raise AttributeError.
Proof.
  split; [|split].
  - apply (proj1 (job_succeeded_defaults [("metadata", VDict [("name", VStr "mnist")])])).
    reflexivity.
  - apply (proj1 (proj2 (job_succeeded_defaults
                           [("status", VDict [("startTime", VStr "10:00:00")])]))
                 [("startTime", VStr "10:00:00")]); reflexivity.
  - apply (proj2 (proj2 (job_succeeded_defaults [("status", VNone)])) VNone);
      reflexivity.
Defined.

(** *** Expected totals at the edges *)

(** X22.  A resource without replica specs (no "spec", or a spec without
    "tfReplicaSpecs") is expected to own nothing: the expected total is 0,
    and [get_creation_failures_from_tfjob] reports every category in which
    a create event was seen. *)
Theorem get_creation_failures_without_replica_specs
        (api_client : Env) (namespace : string) (tfjob spec : dict)
        (st : State) (uid : value) (events : list value) (dt : Z)
        (created_pods created_services : list string) :
  py_get (VDict tfjob) "spec" (VDict []) = Return (VDict spec) ->
  dict_get spec "tfReplicaSpecs" = None ->
  (let? metadata := py_get (VDict tfjob) "metadata" (VDict []) in
   py_get metadata "uid" VNone) = Return uid ->
  get_events api_client st namespace uid = (Ok events, dt) ->
  parse_events api_client events = (created_pods, created_services) ->
  num_expected_replicas (VDict tfjob) = Return 0 /\
  fst (get_creation_failures_from_tfjob api_client namespace (VDict tfjob) st)
  = Return (discrepancies 0 created_pods created_services) /\
  (discrepancies 0 created_pods created_services = [] <->
   created_pods = [] /\ created_services = []).
Proof.
  intros Hspec Hspecs Huid Hev Hparse.
  assert (Hn : num_expected_replicas (VDict tfjob) = Return 0).
  { unfold num_expected_replicas. rewrite Hspec. cbn [obind py_get].
    rewrite Hspecs. reflexivity. }
  split; [exact Hn|split].
  - unfold get_creation_failures_from_tfjob, bind, lift, perform, ret.
    destruct (py_get (VDict tfjob) "metadata" (VDict [])) as [metadata| |];
      cbn [obind] in Huid; try discriminate.
    rewrite Huid, Hev. cbn [of_reply]. rewrite Hparse, Hn.
    rewrite creation_failures_for_discrepancies. reflexivity.
  - unfold discrepancies, len.
    destruct created_pods as [|p ps]; destruct created_services as [|s ss];
      cbn [List.length]; split; try discriminate; auto.
    + intros [_ H]. discriminate H.
    + intros [H _]. discriminate H.
    + intros [H _]. discriminate H.
Qed.

Lemma get_creation_failures_without_replica_specs_witness :
  fst (get_creation_failures_from_tfjob
         (quiet_cluster ["mnist-worker-0"] []) "ns"
         (VDict [("metadata", VDict [("uid", VStr "u-1")])]) (mkState 0 []))
  = Return ["Expected 0 pods to be created but only got 1 create events."].
Proof.
  destruct (get_creation_failures_without_replica_specs
              (quiet_cluster ["mnist-worker-0"] []) "ns"
              [("metadata", VDict [("uid", VStr "u-1")])] []
              (mkState 0 []) (VStr "u-1") [] 0 ["mnist-worker-0"] []
              eq_refl eq_refl eq_refl eq_refl eq_refl) as [_ [H _]].
  rewrite H. reflexivity.
Defined.

(** X23.  A replica-type entry that is not empty and whose "replicas" is
    neither an integer nor a boolean (null, or a string) makes the count of
    the expected replicas raise [TypeError], when the entries before it are
    of the expected shape; [get_creation_failures_from_tfjob] then raises
    too, after it has fetched the events. *)
Theorem get_creation_failures_bad_replicas
        (api_client : Env) (namespace : string) (tfjob spec : dict)
        (before later : dict) (key : string) (replica_spec : dict) (replicas : value)
        (st : State) (uid : value) (events : list value) (dt : Z) :
  dict_get tfjob "spec" = Some (VDict spec) ->
  dict_get spec "tfReplicaSpecs"
  = Some (VDict (before ++ (key, VDict replica_spec) :: later)%list) ->
  dict_wf (before ++ (key, VDict replica_spec) :: later)%list ->
  forallb (fun kv => replica_spec_ok (snd kv)) before = true ->
  dict_get replica_spec "replicas" = Some replicas ->
  is_number replicas = false ->
  (let? metadata := py_get (VDict tfjob) "metadata" (VDict []) in
   py_get metadata "uid" VNone) = Return uid ->
  get_events api_client st namespace uid = (Ok events, dt) ->
  num_expected_replicas (VDict tfjob) = Raise TypeError /\
  get_creation_failures_from_tfjob api_client namespace (VDict tfjob) st
  = (Raise TypeError,
     mkState (now st + dt) (EvGetEvents namespace uid (Ok events) :: log st)).
Proof.
  intros Hspec Hspecs Hwf Hbefore Hreplicas Hnot Huid Hev.
  set (specs := (before ++ (key, VDict replica_spec) :: later)%list) in *.
  assert (Hprefix : forall n,
             add_all_replicas (VDict tfjob) n (map VStr (dict_keys before))
             = Return (n + nonempty_total before)).
  { intros n.
    apply (add_all_replicas_entries tfjob spec specs Hspec Hspecs Hwf before n);
      [|exact Hbefore].
    intros kv Hkv. unfold specs. apply in_or_app. now left. }
  assert (Hall : forall keys1 keys2 n m,
             add_all_replicas (VDict tfjob) n keys1 = Return m ->
             add_all_replicas (VDict tfjob) n (keys1 ++ keys2)
             = add_all_replicas (VDict tfjob) m keys2).
  { induction keys1 as [|k keys1 IH]; intros keys2 n m; cbn [add_all_replicas app].
    - intros H. injection H as ->. reflexivity.
    - destruct (add_replicas (VDict tfjob) n k) as [n'| |]; cbn [obind];
        try discriminate.
      apply IH. }
  assert (Hentry : forall n, add_replicas (VDict tfjob) n (VStr key) = Raise TypeError).
  { intros n. unfold add_replicas, py_get. rewrite Hspec. cbn [obind].
    rewrite Hspecs. cbn [obind py_get_at py_get].
    rewrite (dict_get_In specs key (VDict replica_spec) Hwf);
      [|unfold specs; apply in_or_app; right; now left].
    cbn [obind].
    rewrite (dict_get_Some_cons _ _ _ Hreplicas). rewrite Hreplicas. cbn [obind].
    destruct replicas; try reflexivity; discriminate. }
  assert (Hn : num_expected_replicas (VDict tfjob) = Raise TypeError).
  { unfold num_expected_replicas, py_get. rewrite Hspec. cbn [obind].
    rewrite Hspecs. cbn [obind py_iter].
    unfold specs, dict_keys. rewrite !map_app. cbn [map fst].
    rewrite (Hall _ _ 0 _ (Hprefix 0)). cbn [add_all_replicas].
    rewrite Hentry. reflexivity. }
  split; [exact Hn|].
  unfold get_creation_failures_from_tfjob, bind, lift, perform, ret.
  destruct (py_get (VDict tfjob) "metadata" (VDict [])) as [metadata| |];
    cbn [obind] in Huid; try discriminate.
  rewrite Huid, Hev. cbn [of_reply].
  destruct (parse_events api_client events) as [pods services].
  rewrite Hn. reflexivity.
Qed.

Lemma get_creation_failures_bad_replicas_witness :
  num_expected_replicas
    (tfjob_with_replicas [("worker", VDict [("replicas", VInt 2)]);
                          ("ps", VDict [("replicas", VNone)])])
  = Raise TypeError.
Proof.
  apply (get_creation_failures_bad_replicas
           (quiet_cluster [] []) "ns"
           [("metadata", VDict [("name", VStr "mnist"); ("uid", VStr "u-1")]);
            ("spec",
             VDict [("tfReplicaSpecs",
                     VDict [("worker", VDict [("replicas", VInt 2)]);
                            ("ps", VDict [("replicas", VNone)])])])]
           [("tfReplicaSpecs",
             VDict [("worker", VDict [("replicas", VInt 2)]);
                    ("ps", VDict [("replicas", VNone)])])]
           [("worker", VDict [("replicas", VInt 2)])] [] "ps"
           [("replicas", VNone)] VNone (mkState 0 []) (VStr "u-1") [] 0);
    try reflexivity.
  repeat constructor; simpl; intuition discriminate.
Defined.

(** ** Pod names *)

Lemma collect_named (items : list V1Pod) (acc : list string) :
  fold_left (fun pod_names pod =>
               match named pod with
               | Some n => app pod_names [n]
               | None => pod_names
               end) items acc
  = (acc ++ flat_map (fun pod => match named pod with
                                 | Some n => [n]
                                 | None => []
                                 end) items)%list.
Proof.
  revert acc. induction items as [|pod items IH]; intros acc; cbn [fold_left flat_map].
  - now rewrite app_nil_r.
  - rewrite IH. destruct (named pod); [rewrite <- app_assoc|]; reflexivity.
Qed.

(** X24.  [get_pod_names] lists the pods that carry the job-name label of
    the job (and asks for no other label), and returns their names as a
    set: no name twice, and a name is in it exactly when it is not empty
    and is the name of a listed pod that has metadata. *)
Theorem get_pod_names_members
        (list_namespaced_pod : string -> string -> reply (list V1Pod))
        (namespace name : string) (items : list V1Pod) :
  list_namespaced_pod namespace ("job-name=" ++ name) = Ok items ->
  exists names,
    get_pod_names list_namespaced_pod namespace name = Return names /\
    NoDup names /\
    forall n,
      In n names <->
      n <> "" /\
      exists pod metadata,
        In pod items /\ pod_metadata pod = Some metadata /\ meta_name metadata = Some n.
Proof.
  intros Hlist. unfold get_pod_names.
  change (to_selector [(TF_JOB_NAME_LABEL, VStr name)]) with ("job-name=" ++ name).
  rewrite Hlist. cbn [of_reply obind].
  eexists. split; [reflexivity|]. split; [apply NoDup_nodup|].
  intros n. unfold py_set. rewrite nodup_In, collect_named. cbn [app].
  rewrite in_flat_map. split.
  - intros (pod & Hpod & Hn). unfold named in Hn.
    destruct (pod_metadata pod) as [metadata|] eqn:Em; [|contradiction].
    destruct (meta_name metadata) as [n'|] eqn:En; [|contradiction].
    destruct (String.eqb_spec n' "") as [->|Hne]; [contradiction|].
    destruct Hn as [<-|[]]. split; [exact Hne|]. exists pod, metadata. auto.
  - intros (Hne & pod & metadata & Hpod & Em & En).
    exists pod. split; [exact Hpod|]. unfold named. rewrite Em, En.
    destruct (String.eqb_spec n "") as [->|_]; [contradiction|]. now left.
Qed.

Lemma get_pod_names_members_witness :
  exists names,
    get_pod_names
      (fun _ _ => Ok [mkPod (Some (mkMeta (Some "mnist-worker-0")));
                      mkPod None;
                      mkPod (Some (mkMeta None));
                      mkPod (Some (mkMeta (Some "mnist-worker-0")));
                      mkPod (Some (mkMeta (Some "")))])
      "ns" "mnist"
    = Return names /\
    NoDup names /\
    forall n,
      In n names <->
      n <> "" /\
      exists pod metadata,
        In pod [mkPod (Some (mkMeta (Some "mnist-worker-0")));
                mkPod None;
                mkPod (Some (mkMeta None));
                mkPod (Some (mkMeta (Some "mnist-worker-0")));
                mkPod (Some (mkMeta (Some "")))] /\
        pod_metadata pod = Some metadata /\ meta_name metadata = Some n.
Proof.
  apply (get_pod_names_members
           (fun _ _ => Ok [mkPod (Some (mkMeta (Some "mnist-worker-0")));
                           mkPod None;
                           mkPod (Some (mkMeta None));
                           mkPod (Some (mkMeta (Some "mnist-worker-0")));
                           mkPod (Some (mkMeta (Some "")))])
           "ns" "mnist" _ eq_refl).
Defined.

(** ** Logging the status *)

Lemma condition_types_dicts (cs : list value) :
  forallb is_dict cs = true -> exists tys, condition_types cs = Return tys.
Proof.
  induction cs as [|c cs IH]; cbn [forallb condition_types].
  - intros _. now exists [].
  - intros H. apply andb_prop in H. destruct H as [Hc Hcs].
    destruct (IH Hcs) as (tys & ->).
    destruct c as [| | | | |d]; try discriminate. cbn [py_get].
    destruct (dict_get d "type") as [ty|]; cbn [obind]; eexists; reflexivity.
Qed.

Lemma log_status_line_loggable (tf_job : dict) :
  loggable tf_job = true -> exists line, log_status_line (VDict tf_job) = Return line.
Proof.
  unfold loggable, log_status_line. intros H.
  apply andb_prop in H. destruct H as [Hstatus Hmeta].
  cbn [py_get].
  destruct (dict_get tf_job "metadata") as [[| | | | |metadata]|]; try discriminate;
    (destruct (dict_get tf_job "status") as [[| | | | |status]|]; try discriminate;
     cbn [obind py_get];
     [destruct (dict_get status "conditions") as [[| | | |cs|]|]; try discriminate;
      cbn [obind is_None py_iter];
      try (destruct (condition_types_dicts cs Hstatus) as (tys & ->))
     |];
     cbn [obind py_get dict_get];
     repeat match goal with
            | |- context [dict_get ?m ?k] => destruct (dict_get m k)
            end;
     cbn [obind]; eexists; reflexivity).
Qed.

(** X25.  On a job of the expected shape (status and metadata absent or
    dicts, conditions absent, null or a list of dicts) [log_status] returns
    at its first attempt: no pause, and the state is left as it was. *)
Theorem log_status_returns (fuel : nat) (tf_job : dict) (st : State) :
  loggable tf_job = true ->
  log_status (S fuel) (VDict tf_job) st = (Return tt, st).
Proof.
  intros H. destruct (log_status_line_loggable tf_job H) as (line & Hline).
  unfold log_status, retry_attempts. cbn [retry_attempts_loop].
  unfold bind, lift, ret. rewrite Hline. reflexivity.
Qed.

Lemma log_status_returns_witness :
  log_status 1 running_job (mkState 0 []) = (Return tt, mkState 0 []).
Proof.
  apply (log_status_returns
           0 [("metadata", VDict [("name", VStr "mnist")]);
              ("status", VDict [("conditions", VList [VDict [("type", VStr "Running")]])])]
           (mkState 0 []) eq_refl).
Defined.

Lemma retry_attempts_always_failing {A} (f : M A) (e : exn) (wait_fixed : Z) :
  (forall st, f st = (Raise e, st)) ->
  forall (left : nat) (fuel : nat) (attempt_number : Z) (st : State),
    (left < fuel)%nat ->
    attempt_number = 20 - Z.of_nat left ->
    retry_attempts_loop fuel wait_fixed 20 attempt_number f st
    = (Raise e,
       mkState (now st + wait_fixed * Z.of_nat left)
               (repeat (EvSleep wait_fixed) left ++ log st)%list).
Proof.
  intros Hf. induction left as [|left IH]; intros fuel attempt_number st Hfuel Hk.
  - destruct fuel as [|fuel]; [lia|]. cbn [retry_attempts_loop].
    rewrite Hf. subst attempt_number. cbn [Z.of_nat]. cbn.
    destruct st as [t l]. cbn. f_equal. f_equal. lia.
  - destruct fuel as [|fuel]; [lia|]. cbn [retry_attempts_loop].
    rewrite Hf.
    destruct (Z.geb_spec attempt_number 20) as [Hge|Hlt]; [lia|].
    unfold bind, sleep. cbn beta iota.
    rewrite (IH fuel (attempt_number + 1)); [|lia|lia].
    cbn [now log]. f_equal. f_equal; [lia|].
    change (EvSleep wait_fixed :: log st) with ([EvSleep wait_fixed] ++ log st)%list.
    rewrite app_assoc. f_equal.
    change [EvSleep wait_fixed] with (repeat (EvSleep wait_fixed) 1).
    rewrite <- repeat_app. f_equal. lia.
Qed.

(** X26.  On a job whose line cannot be built (a status or metadata that is
    present but is not a dict, conditions that are not a list of dicts)
    [log_status] fails twenty times: it sleeps 19 times 10 seconds and then
    raises the exception of the line. *)
Theorem log_status_fails_slowly
        (fuel : nat) (tf_job : value) (e : exn) (st : State) :
  log_status_line tf_job = Raise e ->
  (20 <= fuel)%nat ->
  log_status fuel tf_job st
  = (Raise e, mkState (now st + 190000) (repeat (EvSleep 10000) 19 ++ log st)%list).
Proof.
  intros Hline Hfuel. unfold log_status, retry_attempts.
  rewrite (retry_attempts_always_failing
             (lift (log_status_line tf_job) ;; ret tt) e 10000) with (left := 19%nat);
    [reflexivity| |lia|reflexivity].
  intros st0. unfold bind, lift. rewrite Hline. reflexivity.
Qed.

Lemma log_status_fails_slowly_witness :
  log_status 20 (VDict [("status", VNone)]) (mkState 0 [])
  = (Raise AttributeError, mkState 190000 (repeat (EvSleep 10000) 19)).
Proof.
  apply (log_status_fails_slowly 20 (VDict [("status", VNone)]) AttributeError
                                 (mkState 0 []) eq_refl).
  lia.
Defined.
